(** * yagooglesearch: a shallow embedding of [SearchClient]

    The development follows [yagooglesearch/__init__.py] (version 1.10.0):
    the constructor, [update_urls], [assign_random_user_agent],
    [filter_search_result_urls], [http_429_detected], [get_page] and
    [search]. The repository also holds version 1.2.0 of the same class,
    whose [filter_search_result_urls] is the same text
    and whose constructor checks the scheme of the proxy, which later
    versions do not ([Legacy.proxy_setup]). The helper [get_tbs] of the
    module is modelled as well.

    Conventions.
    - A Python [str] is a Rocq [string] holding its UTF-8 encoding; every
      delimiter the code looks for is ASCII, so searching and splitting act
      on the encoding exactly as they act on the text.
    - Case mapping and white space are those of ASCII; other characters
      are left as they are.
    - Python integers are [Z]; the numbers of the cool-off policy are
      [pynum]: an unbounded integer or an IEEE-754 binary64 float
      ([spec_float] with 53 bits of precision).
    - A result is [Ret v] or [Raise e]; an [except] clause is a match on
      the raised exception.
    - What the interpreter and third-party libraries provide from Unicode
      tables, HTML parsing and the clock is gathered in the record [pylib];
      every definition and theorem is parametric in it.
    - The network is a script of exchanges that [requests.get] consumes in
      order, an exhausted script being a failure of the transport;
      requests and sleeps are recorded in a trace, and the draws of
      [random.choice] come from a list.
    - [BeautifulSoup] is taken to return a document for every text and a
      cookie jar to hold one cookie of each name; what the parser or the
      jar raise otherwise is not modelled.
    - Calls of [ROOT_LOGGER.warning] and [ROOT_LOGGER.error] are recorded
      in a log; [info] and [debug] calls, the log level and the recursion
      limit of the interpreter are not modelled. *)

From Stdlib Require Import ZArith List String Ascii Bool Lia DecimalString.
From Stdlib Require Import SpecFloat.
Import ListNotations.

(** ** Python results: a value or a raised exception *)

Inductive exn : Type :=
| ValueError (msg : string)
| KeyError (key : string)
| IndexError (msg : string)
| OverflowError (msg : string)
| UnboundLocalError (msg : string)
| RequestException (msg : string).

(** [Timeout] is not a Python result: it marks a run of the page loop that
    was given too little fuel (see [search_loop] and [search_never_times_out]). *)
Inductive outcome (A : Type) : Type :=
| Ret (a : A)
| Raise (e : exn)
| Timeout.

Arguments Ret {A} a.
Arguments Raise {A} e.
Arguments Timeout {A}.

Definition obind {A B} (x : outcome A) (f : A -> outcome B) : outcome B :=
  match x with
  | Ret a => f a
  | Raise e => Raise e
  | Timeout => Timeout
  end.

Declare Scope py_scope.
Delimit Scope py_scope with py.
Notation "'let?' x ':=' c 'in' k" := (obind c (fun x => k))
  (at level 10, x pattern, c at level 100, k at level 200) : py_scope.

(** ** Strings *)

Module PyStr.

Local Open Scope string_scope.

Definition code (c : ascii) : N := N_of_ascii c.

Definition is_lower (c : ascii) : bool := ((97 <=? code c) && (code c <=? 122))%N.
Definition is_upper (c : ascii) : bool := ((65 <=? code c) && (code c <=? 90))%N.
Definition is_digit (c : ascii) : bool := ((48 <=? code c) && (code c <=? 57))%N.
Definition is_ascii_alpha (c : ascii) : bool := is_lower c || is_upper c.
Definition is_ascii (c : ascii) : bool := (code c <? 128)%N.

Definition lower_char (c : ascii) : ascii :=
  if is_upper c then ascii_of_N (code c + 32) else c.
Definition upper_char (c : ascii) : ascii :=
  if is_lower c then ascii_of_N (code c - 32) else c.

Fixpoint map_chars (f : ascii -> ascii) (s : string) : string :=
  match s with
  | EmptyString => EmptyString
  | String c r => String (f c) (map_chars f r)
  end.

(** [s.lower()] and [s.upper()]; only ASCII letters have a case here. *)
Definition lower : string -> string := map_chars lower_char.
Definition upper : string -> string := map_chars upper_char.

Fixpoint forallb_chars (p : ascii -> bool) (s : string) : bool :=
  match s with
  | EmptyString => true
  | String c r => p c && forallb_chars p r
  end.

(** [s.isascii()] *)
Definition isascii : string -> bool := forallb_chars is_ascii.

(** [c in s] for a one-character [c] *)
Fixpoint mem (c : ascii) (s : string) : bool :=
  match s with
  | EmptyString => false
  | String x r => Ascii.eqb x c || mem c r
  end.

(** [s.startswith(p)] *)
Definition startswith (s p : string) : bool := String.prefix p s.

(** [needle in hay] *)
Fixpoint contains (needle hay : string) : bool :=
  String.prefix needle hay ||
  match hay with
  | EmptyString => false
  | String _ r => contains needle r
  end.

(** [s.split(c, 1)]: the text before the first [c] and, when [c] occurs,
    the text after it. *)
Fixpoint split1 (c : ascii) (s : string) : string * option string :=
  match s with
  | EmptyString => (EmptyString, None)
  | String x r =>
      if Ascii.eqb x c then (EmptyString, Some r)
      else let '(a, b) := split1 c r in (String x a, b)
  end.

(** [s.split(c)] *)
Fixpoint split (c : ascii) (s : string) : list string :=
  match s with
  | EmptyString => [EmptyString]
  | String x r =>
      if Ascii.eqb x c then EmptyString :: split c r
      else match split c r with
           | h :: t => String x h :: t
           | [] => [String x EmptyString]
           end
  end.

(** [s.rsplit(c, 1)]-like: the text before the last [c] (if any) and the
    text after it. *)
Fixpoint rsplit1 (c : ascii) (s : string) : option string * string :=
  match s with
  | EmptyString => (None, EmptyString)
  | String x r =>
      match rsplit1 c r with
      | (Some a, b) => (Some (String x a), b)
      | (None, b) => if Ascii.eqb x c then (Some EmptyString, b) else (None, String x b)
      end
  end.

(** [s.replace(a, b)] for one-character [a] and [b] *)
Definition replace_char (a b : ascii) : string -> string :=
  map_chars (fun c => if Ascii.eqb c a then b else c).

(** [s.replace(a, "")] generalised to a class of characters *)
Fixpoint remove_chars (drop : ascii -> bool) (s : string) : string :=
  match s with
  | EmptyString => EmptyString
  | String c r => if drop c then remove_chars drop r else String c (remove_chars drop r)
  end.

Fixpoint lstrip (drop : ascii -> bool) (s : string) : string :=
  match s with
  | EmptyString => EmptyString
  | String c r => if drop c then lstrip drop r else s
  end.

Fixpoint rstrip (drop : ascii -> bool) (s : string) : string :=
  match s with
  | EmptyString => EmptyString
  | String c r =>
      match rstrip drop r with
      | EmptyString => if drop c then EmptyString else String c EmptyString
      | r' => String c r'
      end
  end.

(** ASCII white space, as removed by [str.strip()] *)
Definition is_space (c : ascii) : bool :=
  ((code c =? 32) || ((9 <=? code c) && (code c <=? 13)) ||
   ((28 <=? code c) && (code c <=? 31)))%N.

(** [s.strip()] *)
Definition strip (s : string) : string := rstrip is_space (lstrip is_space s).

(** [sep.join(l)] with an empty separator *)
Definition concat_all (l : list string) : string := String.concat EmptyString l.

(** [str(n)] for an integer *)
Definition of_Z (n : Z) : string := NilZero.string_of_int (Z.to_int n).

End PyStr.

(** ** Numbers of the cool-off policy *)

Module PyNum.

Definition prec : Z := 53.
Definition emax : Z := 1024.

Inductive pynum : Type :=
| PyInt (n : Z)
| PyFloat (x : spec_float).

(** The double nearest to [n / d] (ties to even): the value of a decimal
    literal, and of the decimal string that [round] converts back. *)
Definition float_of_ratio (n : Z) (d : positive) : spec_float :=
  match n with
  | Z0 => S754_zero false
  | Zpos m =>
      let '(q, e, l) := SFdiv_core_binary prec emax (Zpos m) 0 (Zpos d) 0 in
      binary_round_aux prec emax false q e l
  | Zneg m =>
      let '(q, e, l) := SFdiv_core_binary prec emax (Zpos m) 0 (Zpos d) 0 in
      binary_round_aux prec emax true q e l
  end.

(** [float(n)]: [OverflowError] when [n] is beyond the range of a double. *)
Definition float_of_int (n : Z) : outcome spec_float :=
  match binary_normalize prec emax n 0 false with
  | S754_infinity _ => Raise (OverflowError "int too large to convert to float")
  | x => Ret x
  end.

(** [a * b] *)
Definition mul (a b : pynum) : outcome pynum :=
  match a, b with
  | PyInt m, PyInt n => Ret (PyInt (m * n))
  | PyInt m, PyFloat y =>
      obind (float_of_int m) (fun x => Ret (PyFloat (SFmul prec emax x y)))
  | PyFloat x, PyInt n =>
      obind (float_of_int n) (fun y => Ret (PyFloat (SFmul prec emax x y)))
  | PyFloat x, PyFloat y => Ret (PyFloat (SFmul prec emax x y))
  end.

(** [num / den] rounded to the nearest integer, ties to even ([0 < den]). *)
Definition div_half_even (num den : Z) : Z :=
  let q := (num / den)%Z in
  let r := (num mod den)%Z in
  match (2 * r ?= den)%Z with
  | Lt => q
  | Gt => (q + 1)%Z
  | Eq => if Z.even q then q else (q + 1)%Z
  end.

(** The hundredths in [m * 2^e], rounded half to even on the exact value. *)
Definition hundredths (m : positive) (e : Z) : Z :=
  match e with
  | Zneg p => div_half_even (Zpos m * 100) (Z.pow_pos 2 p)
  | _ => (Zpos m * 2 ^ e * 100)%Z
  end.

(** [round(x, 2)] on a float: the exact binary value is rounded to two
    decimals, half to even, and the decimal is read back as a double;
    infinities and NaN round to themselves and the sign is kept. *)
Definition float_round2 (x : spec_float) : spec_float :=
  match x with
  | S754_finite s m e =>
      match hundredths m e with
      | Zpos k =>
          let '(q, e', l) := SFdiv_core_binary prec emax (Zpos k) 0 100 0 in
          binary_round_aux prec emax s q e' l
      | _ => S754_zero s
      end
  | _ => x
  end.

(** [round(a, 2)]: an integer is returned as it is. *)
Definition round2 (a : pynum) : pynum :=
  match a with
  | PyInt n => PyInt n
  | PyFloat x => PyFloat (float_round2 x)
  end.

(** The order of two numbers when both are integers or both are floats
    ([None] when a NaN is involved or the kinds differ). *)
Definition compare_same (a b : pynum) : option comparison :=
  match a, b with
  | PyInt m, PyInt n => Some (m ?= n)%Z
  | PyFloat x, PyFloat y => SFcompare x y
  | _, _ => None
  end.

End PyNum.

Export PyNum.

(** ** The parsed page, as [search] looks at it *)

(** An [<a>] element: [href] is [a["href"]] ([None] when the attribute is
    missing and the subscript raises [KeyError]); [text] is [a.get_text()];
    [contents1] and [contents2] are
    [a.parent.parent.contents[i].get_text()], [None] when that expression
    raises. *)
Record Tag : Type := mkTag {
  href : option string;
  text : string;
  contents1 : option string;
  contents2 : option string
}.

(** A [BeautifulSoup] document: [search_anchors] is
    [soup.find(id="search").find_all("a")], [None] when there is no element
    with that id (the [AttributeError] path); [other_anchors] is
    [soup.find_all("a")] once the element with id [gbar] has been cleared. *)
Record Soup : Type := mkSoup {
  search_anchors : option (list Tag);
  other_anchors : list Tag
}.

(** ** What the interpreter and the libraries provide *)

Record pylib : Type := mkPylib {
  (** [BeautifulSoup(html, "html.parser")] *)
  BeautifulSoup : string -> Soup;
  (** [bytes.decode("utf-8", "replace")], on encodings *)
  utf8_decode_replace : string -> string;
  (** the [ValueError] of [_check_bracketed_netloc(netloc)], if it raises *)
  check_bracketed_netloc : string -> option exn;
  (** the NFKC test of [_checknetloc] passes for a non-ASCII netloc *)
  nfkc_netloc_ok : string -> bool;
  (** [time.sleep(secs)] refuses its argument *)
  time_sleep_error : pynum -> option exn;
  (** the module-level tables read from the install folder *)
  user_agents_list : list string;
  result_languages_list : list string;
  result_languages_file : string
}.

(** ** [urllib.parse], as far as [filter_search_result_urls] and the
       constructor use it (CPython 3.11) *)

Module Urllib.

Local Open Scope string_scope.
Local Open Scope py_scope.

Record ParseResult : Type := mkParseResult {
  scheme : string;
  netloc : string;
  path : string;
  params : string;
  query : string;
  fragment : string
}.

(** A value of one hexadecimal digit of [_hexdig]. *)
Definition hexval (c : ascii) : option N :=
  let n := PyStr.code c in
  if PyStr.is_digit c then Some (n - 48)%N
  else if ((65 <=? n) && (n <=? 70))%N then Some (n - 55)%N
  else if ((97 <=? n) && (n <=? 102))%N then Some (n - 87)%N
  else None.

(** One item of [string.split(b'%')[1:]] in [unquote_to_bytes]. *)
Definition unquote_item (item : string) : string :=
  match item with
  | String a (String b r) =>
      match hexval a, hexval b with
      | Some x, Some y => String (ascii_of_N (16 * x + y)) r
      | _, _ => "%" ++ item
      end
  | _ => "%" ++ item
  end.

Definition unquote_to_bytes (s : string) : string :=
  match PyStr.split "%" s with
  | [] => s
  | first :: items => first ++ PyStr.concat_all (map unquote_item items)
  end.

(** The maximal runs of ASCII and of non-ASCII characters of a string, in
    order ([_asciire.split]). *)
Fixpoint ascii_runs (s : string) : list (bool * string) :=
  match s with
  | EmptyString => []
  | String c r =>
      match ascii_runs r with
      | (b, t) :: rest =>
          if Bool.eqb b (PyStr.is_ascii c) then (b, String c t) :: rest
          else (PyStr.is_ascii c, String c EmptyString) :: (b, t) :: rest
      | [] => [(PyStr.is_ascii c, String c EmptyString)]
      end
  end.

(** The characters that [quote_plus] leaves as they are. *)
Definition always_safe (c : ascii) : bool :=
  PyStr.is_ascii_alpha c || PyStr.is_digit c || PyStr.mem c "_.-~".

Definition hexdigit (n : N) : ascii :=
  if (n <? 10)%N then ascii_of_N (48 + n) else ascii_of_N (55 + n).

Fixpoint quote_bytes (safe : ascii -> bool) (s : string) : string :=
  match s with
  | EmptyString => EmptyString
  | String c r =>
      if safe c then String c (quote_bytes safe r)
      else String "%" (String (hexdigit (PyStr.code c / 16))
             (String (hexdigit (PyStr.code c mod 16)) (quote_bytes safe r)))
  end.

(** [urllib.parse.quote_plus(s)] *)
Definition quote_plus (s : string) : string :=
  PyStr.replace_char " " "+"
    (quote_bytes (fun c => always_safe c || Ascii.eqb c " ") s).

(** [_splitparams(url)] *)
Definition splitparams (url : string) : string * string :=
  match PyStr.rsplit1 "/" url with
  | (Some before, after) =>
      match PyStr.split1 ";" after with
      | (a, Some b) => (before ++ "/" ++ a, b)
      | (_, None) => (url, "")
      end
  | (None, _) =>
      match PyStr.split1 ";" url with
      | (a, Some b) => (a, b)
      | (_, None) => (url, "")
      end
  end.

(** The longest prefix of [s] without a character of [p], and the rest. *)
Fixpoint break (p : ascii -> bool) (s : string) : string * string :=
  match s with
  | EmptyString => (EmptyString, EmptyString)
  | String c r =>
      if p c then (EmptyString, s)
      else let '(a, b) := break p r in (String c a, b)
  end.

(** [_splitnetloc(url, 2)], for a [url] that starts with two slashes. *)
Definition splitnetloc (url : string) : string * string :=
  match url with
  | String _ (String _ r) => break (fun c => PyStr.mem c "/?#") r
  | _ => (EmptyString, url)
  end.

Definition c0_control_or_space (c : ascii) : bool := (PyStr.code c <=? 32)%N.

Definition unsafe_url_byte (c : ascii) : bool :=
  ((PyStr.code c =? 9) || (PyStr.code c =? 13) || (PyStr.code c =? 10))%N.

Definition scheme_char (c : ascii) : bool :=
  PyStr.is_ascii_alpha c || PyStr.is_digit c || PyStr.mem c "+-.".

Definition uses_params : list string :=
  [""; "ftp"; "hdl"; "prospero"; "http"; "imap"; "https"; "shttp"; "rtsp";
   "rtspu"; "sip"; "sips"; "mms"; "sftp"; "tel"].

Section WithLib.

Variable L : pylib.

(** [unquote(s)] with the default [encoding='utf-8', errors='replace'] *)
Definition unquote (s : string) : string :=
  if negb (PyStr.mem "%" s) then s
  else PyStr.concat_all
         (map (fun bt : bool * string =>
                 if fst bt then utf8_decode_replace L (unquote_to_bytes (snd bt))
                 else snd bt)
              (ascii_runs s)).

(** [parse_qsl(qs)] with [keep_blank_values=False, strict_parsing=False] *)
Definition parse_qsl (qs : string) : list (string * string) :=
  let query_args := match qs with EmptyString => [] | _ => PyStr.split "&" qs end in
  flat_map
    (fun name_value =>
       match name_value with
       | EmptyString => []
       | _ =>
           match PyStr.split1 "=" name_value with
           | (_, None) => []
           | (_, Some EmptyString) => []
           | (n, Some v) =>
               [(unquote (PyStr.replace_char "+" " " n),
                 unquote (PyStr.replace_char "+" " " v))]
           end
       end)
    query_args.

(** [parsed_result[name].append(value)], or a fresh one-element list *)
Fixpoint dict_append (d : list (string * list string)) (name value : string)
  : list (string * list string) :=
  match d with
  | [] => [(name, [value])]
  | (k, vs) :: r =>
      if String.eqb k name then (k, (vs ++ [value])%list) :: r
      else (k, vs) :: dict_append r name value
  end.

(** [parse_qs(qs)] *)
Definition parse_qs (qs : string) : list (string * list string) :=
  fold_left (fun d nv => dict_append d (fst nv) (snd nv)) (parse_qsl qs) [].

(** [d[key]] *)
Fixpoint getitem {V : Type} (d : list (string * V)) (key : string) : outcome V :=
  match d with
  | [] => Raise (KeyError key)
  | (k, v) :: r => if String.eqb k key then Ret v else getitem r key
  end.

(** [l[0]] *)
Definition first {V : Type} (l : list V) : outcome V :=
  match l with
  | [] => Raise (IndexError "list index out of range")
  | v :: _ => Ret v
  end.

(** [_checknetloc(netloc)] *)
Definition checknetloc (netloc : string) : outcome unit :=
  match netloc with
  | EmptyString => Ret tt
  | _ =>
      if PyStr.isascii netloc then Ret tt
      else if nfkc_netloc_ok L netloc then Ret tt
      else Raise (ValueError ("netloc '" ++ netloc ++
                   "' contains invalid characters under NFKC normalization"))
  end.

(** [urlsplit(url, scheme)] followed by the parameter split of
    [urlparse(url, scheme)] *)
Definition urlparse (url scheme0 : string) : outcome ParseResult :=
  let url := PyStr.lstrip c0_control_or_space url in
  let scheme0 :=
    PyStr.rstrip c0_control_or_space (PyStr.lstrip c0_control_or_space scheme0) in
  let url := PyStr.remove_chars unsafe_url_byte url in
  let scheme0 := PyStr.remove_chars unsafe_url_byte scheme0 in
  let '(scheme1, url) :=
    match url, PyStr.split1 ":" url with
    | String c0 _, (String b0 b, Some after) =>
        if PyStr.is_ascii_alpha c0 && PyStr.forallb_chars scheme_char (String b0 b)
        then (PyStr.lower (String b0 b), after)
        else (scheme0, url)
    | _, _ => (scheme0, url)
    end in
  let? (netloc1, url) :=
    if PyStr.startswith url "//" then
      let '(n, rest) := splitnetloc url in
      if (PyStr.mem "[" n && negb (PyStr.mem "]" n)) ||
         (PyStr.mem "]" n && negb (PyStr.mem "[" n))
      then Raise (ValueError "Invalid IPv6 URL")
      else if PyStr.mem "[" n && PyStr.mem "]" n then
        match check_bracketed_netloc L n with
        | Some e => Raise e
        | None => Ret (n, rest)
        end
      else Ret (n, rest)
    else Ret (EmptyString, url) in
  let '(url, fragment1) :=
    match PyStr.split1 "#" url with
    | (a, Some b) => (a, b)
    | (_, None) => (url, EmptyString)
    end in
  let '(url, query1) :=
    match PyStr.split1 "?" url with
    | (a, Some b) => (a, b)
    | (_, None) => (url, EmptyString)
    end in
  let? _ := checknetloc netloc1 in
  let '(url, params1) :=
    if existsb (String.eqb scheme1) uses_params && PyStr.mem ";" url
    then splitparams url
    else (url, EmptyString) in
  Ret (mkParseResult scheme1 netloc1 url params1 query1 fragment1).

End WithLib.

End Urllib.

(** ** The session object and its environment *)

Local Open Scope string_scope.

Definition dict : Type := list (string * string).

(** An element of [search_result_list]: a URL, the sentinel string, or
    (verbose output) the dictionary with rank, title, description and url. *)
Inductive result_item : Type :=
| ItemStr (s : string)
| ItemDict (rank : Z) (title description url : string).

Record SearchClient : Type := mkSearchClient {
  query : string;
  tld : string;
  lang_html_ui : string;
  lang_result : string;
  tbs : string;
  safe : string;
  start : Z;
  num : Z;
  country : string;
  extra_params : option dict;
  max_search_result_urls_to_return : Z;
  minimum_delay_between_paged_results_in_seconds : Z;
  user_agent : string;
  yagooglesearch_manages_http_429s : bool;
  http_429_cool_off_time_in_minutes : pynum;
  http_429_cool_off_factor : pynum;
  proxy : string;
  verify_ssl : bool;
  verbosity : Z;
  verbose_output : bool;
  google_exemption : option string;
  cookies : option dict;
  url_parameters : list string;
  url_home : string;
  url_search : string;
  url_next_page : string;
  url_search_num : string;
  url_next_page_num : string;
  proxy_dict : dict;
  search_result_list : list result_item
}.

(** The arguments of [SearchClient(...)]. *)
Record init_args : Type := mkInitArgs {
  arg_query : string;
  arg_tld : string;
  arg_lang_html_ui : string;
  arg_lang_result : string;
  arg_tbs : string;
  arg_safe : string;
  arg_start : Z;
  arg_num : Z;
  arg_country : string;
  arg_extra_params : option dict;
  arg_max_search_result_urls_to_return : Z;
  arg_minimum_delay_between_paged_results_in_seconds : Z;
  arg_user_agent : option string;
  arg_yagooglesearch_manages_http_429s : bool;
  arg_http_429_cool_off_time_in_minutes : pynum;
  arg_http_429_cool_off_factor : pynum;
  arg_proxy : string;
  arg_verify_ssl : bool;
  arg_verbosity : Z;
  arg_verbose_output : bool;
  arg_google_exemption : option string
}.

(** The defaults of the constructor's signature. *)
Definition default_args (q : string) : init_args :=
  mkInitArgs q "com" "en" "lang_en" "0" "off" 0 100 "" None 100 7 None true
    (PyInt 60) (PyFloat (float_of_ratio 11 10)) "" true 5 false None.

(** One answer of the network to [requests.get]: a response with its
    status code, cookie jar and body, or an exception of the transport. *)
Inductive exchange : Type :=
| Response (status_code : Z) (jar : dict) (body : string)
| Fails (e : exn).

Inductive event : Type :=
| EvGet (url : string) (sent_cookies : option dict) (agent : string)
| EvSleep (secs : pynum).

Inductive log_level : Type := WARNING | ERROR.

(** The environment: the exchanges still to come, the draws of
    [random.choice] still to come, what was requested and slept so far, and
    the calls made to [ROOT_LOGGER.warning] and [ROOT_LOGGER.error]. *)
Record world : Type := mkWorld {
  script : list exchange;
  draws : list nat;
  trace : list event;
  log : list (log_level * string)
}.

Definition set_script (w : world) (s : list exchange) : world :=
  mkWorld s (draws w) (trace w) (log w).
Definition set_draws (w : world) (d : list nat) : world :=
  mkWorld (script w) d (trace w) (log w).
Definition emit (w : world) (e : event) : world :=
  mkWorld (script w) (draws w) (trace w ++ [e]) (log w).
Definition logged (w : world) (lvl : log_level) (msg : string) : world :=
  mkWorld (script w) (draws w) (trace w) (log w ++ [(lvl, msg)]).

Definition set_cookies (c : SearchClient) (v : option dict) : SearchClient :=
  mkSearchClient (query c) (tld c) (lang_html_ui c) (lang_result c) (tbs c) (safe c)
    (start c) (num c) (country c) (extra_params c)
    (max_search_result_urls_to_return c)
    (minimum_delay_between_paged_results_in_seconds c) (user_agent c)
    (yagooglesearch_manages_http_429s c) (http_429_cool_off_time_in_minutes c)
    (http_429_cool_off_factor c) (proxy c) (verify_ssl c) (verbosity c)
    (verbose_output c) (google_exemption c) v (url_parameters c)
    (url_home c) (url_search c) (url_next_page c) (url_search_num c)
    (url_next_page_num c) (proxy_dict c) (search_result_list c).

Definition set_http_429_cool_off_time_in_minutes (c : SearchClient) (v : pynum)
  : SearchClient :=
  mkSearchClient (query c) (tld c) (lang_html_ui c) (lang_result c) (tbs c) (safe c)
    (start c) (num c) (country c) (extra_params c)
    (max_search_result_urls_to_return c)
    (minimum_delay_between_paged_results_in_seconds c) (user_agent c)
    (yagooglesearch_manages_http_429s c) v
    (http_429_cool_off_factor c) (proxy c) (verify_ssl c) (verbosity c)
    (verbose_output c) (google_exemption c) (cookies c) (url_parameters c)
    (url_home c) (url_search c) (url_next_page c) (url_search_num c)
    (url_next_page_num c) (proxy_dict c) (search_result_list c).

Definition set_extra_params (c : SearchClient) (v : option dict) : SearchClient :=
  mkSearchClient (query c) (tld c) (lang_html_ui c) (lang_result c) (tbs c) (safe c)
    (start c) (num c) (country c) v
    (max_search_result_urls_to_return c)
    (minimum_delay_between_paged_results_in_seconds c) (user_agent c)
    (yagooglesearch_manages_http_429s c) (http_429_cool_off_time_in_minutes c)
    (http_429_cool_off_factor c) (proxy c) (verify_ssl c) (verbosity c)
    (verbose_output c) (google_exemption c) (cookies c) (url_parameters c)
    (url_home c) (url_search c) (url_next_page c) (url_search_num c)
    (url_next_page_num c) (proxy_dict c) (search_result_list c).

Definition set_start (c : SearchClient) (v : Z) : SearchClient :=
  mkSearchClient (query c) (tld c) (lang_html_ui c) (lang_result c) (tbs c) (safe c)
    v (num c) (country c) (extra_params c)
    (max_search_result_urls_to_return c)
    (minimum_delay_between_paged_results_in_seconds c) (user_agent c)
    (yagooglesearch_manages_http_429s c) (http_429_cool_off_time_in_minutes c)
    (http_429_cool_off_factor c) (proxy c) (verify_ssl c) (verbosity c)
    (verbose_output c) (google_exemption c) (cookies c) (url_parameters c)
    (url_home c) (url_search c) (url_next_page c) (url_search_num c)
    (url_next_page_num c) (proxy_dict c) (search_result_list c).

Definition set_search_result_list (c : SearchClient) (v : list result_item)
  : SearchClient :=
  mkSearchClient (query c) (tld c) (lang_html_ui c) (lang_result c) (tbs c) (safe c)
    (start c) (num c) (country c) (extra_params c)
    (max_search_result_urls_to_return c)
    (minimum_delay_between_paged_results_in_seconds c) (user_agent c)
    (yagooglesearch_manages_http_429s c) (http_429_cool_off_time_in_minutes c)
    (http_429_cool_off_factor c) (proxy c) (verify_ssl c) (verbosity c)
    (verbose_output c) (google_exemption c) (cookies c) (url_parameters c)
    (url_home c) (url_search c) (url_next_page c) (url_search_num c)
    (url_next_page_num c) (proxy_dict c) v.

(** The items of an optional dictionary ([None] has none). *)
Definition items_of (e : option dict) : dict :=
  match e with
  | Some d => d
  | None => []
  end.

(** [self.extra_params.items()] *)
Definition extra_items (c : SearchClient) : dict := items_of (extra_params c).

(** [update_urls]: the five URL templates, from the current attributes. *)
Definition update_urls (c : SearchClient) : SearchClient :=
  let base := "https://www.google." ++ tld c ++ "/search?hl=" ++ lang_html_ui c
              ++ "&lr=" ++ lang_result c ++ "&q=" ++ query c in
  let tail := "&safe=" ++ safe c ++ "&cr=" ++ country c ++ "&filter=0" in
  mkSearchClient (query c) (tld c) (lang_html_ui c) (lang_result c) (tbs c) (safe c)
    (start c) (num c) (country c) (extra_params c)
    (max_search_result_urls_to_return c)
    (minimum_delay_between_paged_results_in_seconds c) (user_agent c)
    (yagooglesearch_manages_http_429s c) (http_429_cool_off_time_in_minutes c)
    (http_429_cool_off_factor c) (proxy c) (verify_ssl c) (verbosity c)
    (verbose_output c) (google_exemption c) (cookies c) (url_parameters c)
    ("https://www.google." ++ tld c ++ "/")
    (base ++ "&btnG=Google+Search&tbs=" ++ tbs c ++ tail)
    (base ++ "&start=" ++ PyStr.of_Z (start c) ++ "&tbs=" ++ tbs c ++ tail)
    (base ++ "&num=" ++ PyStr.of_Z (num c) ++ "&btnG=Google+Search&tbs=" ++ tbs c
          ++ tail)
    (base ++ "&start=" ++ PyStr.of_Z (start c) ++ "&num=" ++ PyStr.of_Z (num c)
          ++ "&tbs=" ++ tbs c ++ tail)
    (proxy_dict c) (search_result_list c).

(** The built-in GET parameters that [extra_params] must not repeat. *)
Definition builtin_url_parameters : list string :=
  ["btnG"; "cr"; "hl"; "num"; "q"; "safe"; "start"; "tbs"; "lr"].

Definition USER_AGENT : string :=
  "Mozilla/5.0 (Windows NT 10.0; Win64; x64) AppleWebKit/537.36 (KHTML, like Gecko) Chrome/92.0.4515.131 Safari/537.36".

Definition dquote : string := String "034"%char EmptyString.

Definition HTTP_429_DETECTED : string := "HTTP_429_DETECTED".

(** ** The methods of [SearchClient] *)

Section Client.

Variable L : pylib.

Local Open Scope py_scope.

(** [random.choice(seq)] on the next draw. *)
Definition random_index (w : world) (len : nat) : nat * world :=
  match draws w with
  | [] => (0, w)
  | d :: rest => (Nat.modulo d len, set_draws w rest)
  end.

(** [assign_random_user_agent]: [random.choice(user_agents_list)]. *)
Definition assign_random_user_agent (w : world) : outcome string * world :=
  match user_agents_list L with
  | [] => (Raise (IndexError "Cannot choose from an empty sequence"), w)
  | ua :: uas =>
      let '(i, w') := random_index w (List.length (ua :: uas)) in
      (Ret (nth i (ua :: uas) ua), w')
  end.

(** The normalisation of [lang_result] in the constructor. *)
Definition normalise_lang_result (l : string) : outcome string :=
  if negb (PyStr.mem "-" l) then Ret (PyStr.lower l)
  else match PyStr.split "-" l with
       | a :: b :: _ => Ret (PyStr.lower a ++ "-" ++ PyStr.upper b)
       | _ => Raise (IndexError "list index out of range")
       end.

(** [SearchClient.__init__] *)
Definition init (a : init_args) (w : world) : outcome SearchClient * world :=
  match normalise_lang_result (arg_lang_result a) with
  | Raise e => (Raise e, w)
  | Timeout => (Timeout, w)
  | Ret lang =>
      let '(lang, w) :=
        if existsb (String.eqb lang) (result_languages_list L) then (lang, w)
        else ("lang_en",
              logged w ERROR
                (lang ++ " is not a valid language result.  See "
                 ++ result_languages_file L
                 ++ " for the list of valid languages.  Setting lang_result to "
                 ++ dquote ++ "lang_en" ++ dquote ++ ".")) in
      let '(n, w) :=
        if (arg_num a >? 100)%Z
        then (100%Z,
              logged w WARNING
                "The largest value allowed by Google for num is 100.  Setting num to 100.")
        else (arg_num a, w) in
      let w :=
        if (400 <? arg_max_search_result_urls_to_return a)%Z
        then logged w WARNING
               "yagooglesearch is usually only able to retrieve a maximum of ~400 results.  See README for more details."
        else w in
      let jar :=
        match arg_google_exemption a with
        | None => None
        | Some EmptyString => None
        | Some g => Some [("GOOGLE_ABUSE_EXEMPTION", g)]
        end in
      let '(agent, w) :=
        match arg_user_agent a with
        | None => assign_random_user_agent w
        | Some EmptyString => assign_random_user_agent w
        | Some ua => (Ret ua, w)
        end in
      match agent with
      | Raise e => (Raise e, w)
      | Timeout => (Timeout, w)
      | Ret ua =>
          (Ret (update_urls
                  (mkSearchClient (Urllib.quote_plus (arg_query a)) (arg_tld a)
                     (arg_lang_html_ui a) lang (arg_tbs a) (arg_safe a)
                     (arg_start a) n (arg_country a) (arg_extra_params a)
                     (arg_max_search_result_urls_to_return a)
                     (arg_minimum_delay_between_paged_results_in_seconds a) ua
                     (arg_yagooglesearch_manages_http_429s a)
                     (arg_http_429_cool_off_time_in_minutes a)
                     (arg_http_429_cool_off_factor a) (arg_proxy a)
                     (arg_verify_ssl a) (arg_verbosity a) (arg_verbose_output a)
                     (arg_google_exemption a) jar builtin_url_parameters
                     "" "" "" "" ""
                     (match arg_proxy a with
                      | EmptyString => []
                      | p => [("http", p); ("https", p)]
                      end)
                     [])), w)
      end
  end.

(** The body of the [try] block of [filter_search_result_urls]: the value
    of [link] at its end, or the exception that leaves it. *)
Definition filter_body (link : string) : outcome (option string) :=
  let? link :=
    if PyStr.startswith link "/url?" || PyStr.startswith link "http://www.google.com/url?"
    then
      let? urlparse_object := Urllib.urlparse L link "http" in
      match Urllib.getitem (Urllib.parse_qs L (Urllib.query urlparse_object)) "q" with
      | Ret vs => Urllib.first vs
      | Raise (KeyError _) =>
          let? vs := Urllib.getitem (Urllib.parse_qs L (Urllib.query urlparse_object)) "url" in
          Urllib.first vs
      | Raise e => Raise e
      | Timeout => Timeout
      end
    else Ret link in
  let? urlparse_object := Urllib.urlparse L link "http" in
  let link1 :=
    match Urllib.netloc urlparse_object with
    | EmptyString => None
    | _ => Some link
    end in
  let link2 :=
    match Urllib.netloc urlparse_object with
    | EmptyString => link1
    | n => if PyStr.contains "google" (PyStr.lower n) then None else link1
    end in
  Ret link2.

(** [filter_search_result_urls]: [except Exception: link = None]. *)
Definition filter_search_result_urls (link : string) : outcome (option string) :=
  match filter_body link with
  | Ret l => Ret l
  | Raise _ => Ret None
  | Timeout => Timeout
  end.

(** [http_429_detected]: the cool-off time becomes
    [round(cool_off * factor, 2)]. *)
Definition http_429_detected (c : SearchClient) : outcome SearchClient :=
  let? product := PyNum.mul (http_429_cool_off_time_in_minutes c)
                            (http_429_cool_off_factor c) in
  Ret (set_http_429_cool_off_time_in_minutes c (PyNum.round2 product)).

(** The work-around for the consent page: the cookies after a response
    whose [CONSENT] cookie starts with [PENDING+]. *)
Definition consent_cookies (jar : dict) : outcome (option dict) :=
  match Urllib.getitem jar "CONSENT" with
  | Ret v =>
      if PyStr.startswith v "PENDING+" then
        match PyStr.split "+" v with
        | _ :: number :: _ =>
            Ret (Some [("CONSENT", "YES+shp.gws-20211108-0-RC1.fr+F+" ++ number)])
        | _ => Raise (IndexError "list index out of range")
        end
      else Ret None
  | Raise (KeyError _) => Ret None
  | Raise e => Raise e
  | Timeout => Timeout
  end.

(** [get_page], by recursion on the exchanges still to come ([sc] is the
    script of [w]); an exhausted script is a failure of the transport. *)
Fixpoint get_page_aux (sc : list exchange) (url : string) (c : SearchClient)
  (w : world) : outcome string * SearchClient * world :=
  let w := emit w (EvGet url (cookies c) (user_agent c)) in
  match sc with
  | [] => (Raise (RequestException "no response"), c, w)
  | Fails e :: rest => (Raise e, c, set_script w rest)
  | Response code jar body :: rest =>
      let w := set_script w rest in
      let c := set_cookies c (Some jar) in
      match consent_cookies jar with
      | Raise e => (Raise e, c, w)
      | Timeout => (Timeout, c, w)
      | Ret consent =>
          let '(c, w) :=
            match consent with
            | Some yes =>
                (set_cookies c (Some yes),
                 logged w WARNING
                   "Looks like your IP address is sourcing from a European Union location...your search results may vary, but I'll try and work around this by updating the cookie.")
            | None => (c, w)
            end in
          if (code =? 200)%Z then (Ret body, c, w)
          else if (code =? 429)%Z then
            let w := logged w WARNING
                       "Google is blocking your IP for making too many requests in a specific time period." in
            if negb (yagooglesearch_manages_http_429s c)
            then (Ret HTTP_429_DETECTED, c, w)
            else
              match PyNum.mul (http_429_cool_off_time_in_minutes c) (PyInt 60) with
              | Raise e => (Raise e, c, w)
              | Timeout => (Timeout, c, w)
              | Ret secs =>
                  match time_sleep_error L secs with
                  | Some e => (Raise e, c, w)
                  | None =>
                      let w := emit w (EvSleep secs) in
                      match http_429_detected c with
                      | Raise e => (Raise e, c, w)
                      | Timeout => (Timeout, c, w)
                      | Ret c => get_page_aux rest url c w
                      end
                  end
              end
          else
            (Ret EmptyString, c,
             logged w WARNING ("HTML response code: " ++ PyStr.of_Z code))
      end
  end.

Definition get_page (url : string) (c : SearchClient) (w : world)
  : outcome string * SearchClient * world :=
  get_page_aux (script w) url c w.

(** [link in self.search_result_list]: a string equals a string with the
    same characters and never equals a dictionary. *)
Definition py_in (link : string) (l : list result_item) : bool :=
  existsb (fun it => match it with
                     | ItemStr s => String.eqb link s
                     | ItemDict _ _ _ _ => false
                     end) l.

(** The local variables of [search] that live across iterations; [link] is
    [None] as long as the name is unbound. *)
Record locals : Type := mkLocals {
  total_valid_links_found : Z;
  valid_links_found_in_this_search : Z;
  link : option (option string)
}.

Definition set_link (lv : locals) (l : option string) : locals :=
  mkLocals (total_valid_links_found lv) (valid_links_found_in_this_search lv) (Some l).

(** How the body of a loop ends: it goes on with the next iteration, or
    [search] returns. *)
Inductive flow : Type :=
| Next (lv : locals)
| Return (v : list result_item).

(** [str(link)] inside an f-string *)
Definition format_link (l : option string) : string :=
  match l with
  | None => "None"
  | Some s => s
  end.

(** The description of an anchor (verbose output): [None] when one of the
    subscripts or [get_text] raises. *)
Definition description_of (a : Tag) : option string :=
  match contents1 a with
  | None => None
  | Some EmptyString => contents2 a
  | Some d => Some d
  end.

(** [for a in anchors: ...] *)
Fixpoint process_anchors (anchors : list Tag) (lv : locals) (c : SearchClient)
  (w : world) : outcome flow * SearchClient * world :=
  match anchors with
  | [] => (Ret (Next lv), c, w)
  | a :: rest =>
      match href a with
      | None =>
          match link lv with
          | None =>
              (Raise (UnboundLocalError
                        "cannot access local variable 'link' where it is not associated with a value"),
               c, w)
          | Some l =>
              process_anchors rest lv c
                (logged w WARNING ("No href for link: " ++ format_link l))
          end
      | Some h =>
          match filter_search_result_urls h with
          | Raise e => (Raise e, c, w)
          | Timeout => (Timeout, c, w)
          | Ret None => process_anchors rest (set_link lv None) c w
          | Ret (Some EmptyString) =>
              process_anchors rest (set_link lv (Some EmptyString)) c w
          | Ret (Some u) =>
              let lv := set_link lv (Some u) in
              let title := text a in
              let '(description, w) :=
                if verbose_output c then
                  match description_of a with
                  | Some d => (d, w)
                  | None => (EmptyString,
                             logged w WARNING ("No description for link: " ++ u))
                  end
                else (EmptyString, w) in
              let '(lv, c) :=
                if negb (py_in u (search_result_list c)) then
                  let total := (total_valid_links_found lv + 1)%Z in
                  (mkLocals total (valid_links_found_in_this_search lv + 1)%Z (link lv),
                   set_search_result_list c
                     (search_result_list c ++
                      [if verbose_output c
                       then ItemDict total (PyStr.strip title) (PyStr.strip description) u
                       else ItemStr u])%list)
                else (lv, c) in
              if (max_search_result_urls_to_return c
                  <=? Z.of_nat (List.length (search_result_list c)))%Z
              then (Ret (Return (search_result_list c)), c, w)
              else process_anchors rest lv c w
          end
      end
  end.

(** [soup.find(id="search").find_all("a")], or every anchor outside the
    top bar when the page has no such element. *)
Definition anchors_of (soup : Soup) : list Tag :=
  match search_anchors soup with
  | Some l => l
  | None => other_anchors soup
  end.

(** The URL of the next results page, with the extra parameters appended. *)
Definition page_url (c : SearchClient) : string :=
  let url :=
    if (start c =? 0)%Z
    then (if (num c =? 10)%Z then url_search c else url_search_num c)
    else (if (num c =? 10)%Z then url_next_page c else url_next_page_num c) in
  fold_left (fun u kv => u ++ "&" ++ fst kv ++ "=" ++ snd kv) (extra_items c) url.

(** [while total_valid_links_found <= max_search_result_urls_to_return: ...];
    leaving the loop by its guard is the implicit [return None]. *)
Fixpoint search_loop (fuel : nat) (lv : locals) (c : SearchClient) (w : world)
  : outcome (option (list result_item)) * SearchClient * world :=
  match fuel with
  | O => (Timeout, c, w)
  | S fuel =>
      if (total_valid_links_found lv <=? max_search_result_urls_to_return c)%Z then
        match get_page (page_url c) c w with
        | (Raise e, c, w) => (Raise e, c, w)
        | (Timeout, c, w) => (Timeout, c, w)
        | (Ret html, c, w) =>
            if String.eqb html HTTP_429_DETECTED then
              let c := set_search_result_list c
                         (search_result_list c ++ [ItemStr HTTP_429_DETECTED])%list in
              (Ret (Some (search_result_list c)), c, w)
            else
              let anchors := anchors_of (BeautifulSoup L html) in
              let lv := mkLocals (total_valid_links_found lv) 0 (link lv) in
              match process_anchors anchors lv c w with
              | (Raise e, c, w) => (Raise e, c, w)
              | (Timeout, c, w) => (Timeout, c, w)
              | (Ret (Return l), c, w) => (Ret (Some l), c, w)
              | (Ret (Next lv), c, w) =>
                  if (valid_links_found_in_this_search lv =? 0)%Z
                  then (Ret (Some (search_result_list c)), c, w)
                  else
                    let c := update_urls (set_start c (start c + num c)%Z) in
                    let '(i, w) := random_index w 11 in
                    let random_sleep_time :=
                      PyInt (minimum_delay_between_paged_results_in_seconds c
                             + Z.of_nat i) in
                    match time_sleep_error L random_sleep_time with
                    | Some e => (Raise e, c, w)
                    | None => search_loop fuel lv c (emit w (EvSleep random_sleep_time))
                    end
              end
        end
      else (Ret None, c, w)
  end.

Definition overlap_message (builtin_param : string) : string :=
  "GET parameter " ++ dquote ++ builtin_param ++ dquote
  ++ " is overlapping with the built-in GET parameter".

(** [for builtin_param in self.url_parameters: ...] *)
Fixpoint check_extra_params (parameters : list string) (extra : dict) : outcome unit :=
  match parameters with
  | [] => Ret tt
  | builtin_param :: rest =>
      if existsb (String.eqb builtin_param) (map fst extra)
      then Raise (ValueError (overlap_message builtin_param))
      else check_extra_params rest extra
  end.

(** [search]; the loop is given one unit of fuel more than there are
    exchanges left, which is always enough ([search_never_times_out]). *)
Definition search (c : SearchClient) (w : world)
  : outcome (option (list result_item)) * SearchClient * world :=
  let c := set_search_result_list c [] in
  let c :=
    match extra_params c with
    | None => set_extra_params c (Some [])
    | Some [] => set_extra_params c (Some [])
    | Some _ => c
    end in
  match check_extra_params (url_parameters c) (extra_items c) with
  | Raise e => (Raise e, c, w)
  | Timeout => (Timeout, c, w)
  | Ret _ =>
      match get_page (url_home c) c w with
      | (Raise e, c, w) => (Raise e, c, w)
      | (Timeout, c, w) => (Timeout, c, w)
      | (Ret _, c, w) =>
          search_loop (S (List.length (script w))) (mkLocals 0 0 None) c w
      end
  end.

End Client.

(** ** The helper [get_tbs] *)

(** A [datetime.date]. *)
Record date : Type := mkDate {
  year : Z;
  month : Z;
  day : Z
}.

(** [%m] and [%d] of [strftime]: two digits, with a leading zero. *)
Definition pad2 (n : Z) : string :=
  if (n <? 10)%Z then "0" ++ PyStr.of_Z n else PyStr.of_Z n.

(** [d.strftime("%m/%d/%Y")]; [%Y] is the year in decimal, without
    padding, as the C library of Linux prints it. *)
Definition strftime_mdY (d : date) : string :=
  pad2 (month d) ++ "/" ++ pad2 (day d) ++ "/" ++ PyStr.of_Z (year d).

(** [get_tbs(from_date, to_date)] *)
Definition get_tbs (from_date to_date : date) : string :=
  let from_date := strftime_mdY from_date in
  let to_date := strftime_mdY to_date in
  "cdr:1,cd_min:" ++ from_date ++ ",cd_max:" ++ to_date.

(** ** Version 1.2.0: the proxy check of the constructor *)

(** Version 1.10.0 stores the proxy as it is given; version 1.2.0 puts
    it in lower case and refuses a scheme that it does not know. *)
Module Legacy.

Definition proxy_schemes : list string := ["http"; "https"; "socks5"; "socks5h"].

(** How the proxy block of the constructor ends: [self.proxy] and
    [self.proxy_dict] are set, or the process exits after an error was
    logged. *)
Inductive proxy_result : Type :=
| ProxySet (proxy : string) (proxy_dict : dict)
| SysExit (status : Z) (logged_error : string).

Definition scheme_error (scheme : string) : string :=
  "The provided proxy scheme (" ++ dquote ++ scheme ++ dquote
  ++ ") is not valid and must be either " ++ dquote ++ "http" ++ dquote ++ ", "
  ++ dquote ++ "https" ++ dquote ++ ", " ++ dquote ++ "socks5" ++ dquote ++ ", or "
  ++ dquote ++ "socks5h" ++ dquote.

Section WithLib.

Variable L : pylib.

(** [if proxy: ...] of [SearchClient.__init__] *)
Definition proxy_setup (proxy : string) : outcome proxy_result :=
  match proxy with
  | EmptyString => Ret (ProxySet proxy [])
  | _ =>
      let proxy := PyStr.lower proxy in
      obind (Urllib.urlparse L proxy "") (fun urllib_object =>
        let scheme := Urllib.scheme urllib_object in
        if negb (existsb (String.eqb scheme) proxy_schemes)
        then Ret (SysExit 1 (scheme_error scheme))
        else Ret (ProxySet proxy [("http", proxy); ("https", proxy)]))
  end.

End WithLib.

End Legacy.

(** ** A concrete environment for closed examples *)

(** Three small pages and what [BeautifulSoup] makes of them; every other
    text parses to a document without anchors, as the empty text does. *)
Definition page_example : string :=
  "<div id='search'><div><div><a href='https://example.com/'>Example</a></div><div>About example</div></div></div>".

Definition page_no_href : string :=
  "<div id='search'><a name='top'>Top</a></div>".

Definition page_three : string :=
  "<div id='search'><a href='https://a.example/'>A</a><a href='https://b.example/'>B</a><a href='https://c.example/'>C</a></div>".

Definition ex_BeautifulSoup (html : string) : Soup :=
  if String.eqb html page_example then
    mkSoup (Some [mkTag (Some "https://example.com/") "Example"
                    (Some "About example") None]) []
  else if String.eqb html page_no_href then
    mkSoup (Some [mkTag None "Top" None None]) []
  else if String.eqb html page_three then
    mkSoup (Some [mkTag (Some "https://a.example/") "A" None None;
                  mkTag (Some "https://b.example/") "B" None None;
                  mkTag (Some "https://c.example/") "C" None None]) []
  else mkSoup None [].

(** [time.sleep] refuses negative numbers and NaN. *)
Definition ex_time_sleep_error (secs : pynum) : option exn :=
  match secs with
  | PyInt n =>
      if (n <? 0)%Z then Some (ValueError "sleep length must be non-negative") else None
  | PyFloat (S754_finite true _ _) | PyFloat (S754_infinity true) =>
      Some (ValueError "sleep length must be non-negative")
  | PyFloat S754_nan => Some (ValueError "Invalid value NaN (not a number)")
  | PyFloat _ => None
  end.

Definition ex_lib : pylib :=
  mkPylib ex_BeautifulSoup (fun s => s) (fun _ => None) (fun _ => true)
    ex_time_sleep_error [USER_AGENT] ["lang_en"; "lang_fr"; "lang_de"]
    "result_languages.txt".

Definition ex_world (sc : list exchange) : world := mkWorld sc [] [] [].

(** The client built from the default arguments for the query [rocq]. *)
Definition ex_client_of (a : init_args) : SearchClient :=
  match init ex_lib a (ex_world []) with
  | (Ret c, _) => c
  | _ => mkSearchClient "" "" "" "" "" "" 0 0 "" None 0 0 "" true (PyInt 0) (PyInt 0)
           "" true 0 false None None [] "" "" "" "" "" [] []
  end.

Definition ex_args (verbose manages : bool) (cap : Z) : init_args :=
  mkInitArgs "rocq" "com" "en" "lang_en" "0" "off" 0 100 "" None cap 7 None manages
    (PyInt 60) (PyFloat (float_of_ratio 11 10)) "" true 5 verbose None.

Definition ex_client (verbose manages : bool) (cap : Z) : SearchClient :=
  ex_client_of (ex_args verbose manages cap).

(** The default arguments with another cool-off policy, per-page count or
    extra parameters. *)
Definition ex_args_cool_off (d f : pynum) : init_args :=
  mkInitArgs "rocq" "com" "en" "lang_en" "0" "off" 0 100 "" None 100 7 None true
    d f "" true 5 false None.

Definition ex_args_num (n : Z) : init_args :=
  mkInitArgs "rocq" "com" "en" "lang_en" "0" "off" 0 n "" None 100 7 None true
    (PyInt 60) (PyFloat (float_of_ratio 11 10)) "" true 5 false None.

Definition ex_args_extra (extra : option dict) : init_args :=
  mkInitArgs "rocq" "com" "en" "lang_en" "0" "off" 0 100 "" extra 100 7 None true
    (PyInt 60) (PyFloat (float_of_ratio 11 10)) "" true 5 false None.

Definition too_many_requests : exchange := Response 429 [] "".

Definition home_ok : exchange := Response 200 [] "".

(** The default arguments with another query, result language, user
    agent and exemption cookie. *)
Definition ex_args_with (q lang : string) (ua g : option string) : init_args :=
  mkInitArgs q "com" "en" lang "0" "off" 0 100 "" None 100 7 ua true
    (PyInt 60) (PyFloat (float_of_ratio 11 10)) "" true 5 false g.

Definition ex_init (a : init_args) : outcome SearchClient * world :=
  init ex_lib a (ex_world []).

(** A search that ends with the sentinel: one link, then a 429 in a
    session that does not manage rate limits. *)
Definition ex_sentinel_world : world :=
  ex_world [home_ok; Response 200 [] page_example; too_many_requests].

(** ** Notions used in the statements *)

(** What [get_page] may change in the session: the cookies and the
    cool-off time. *)
Definition get_page_frame (c c' : SearchClient) : Prop :=
  exists d k, c' = set_cookies (set_http_429_cool_off_time_in_minutes c d) k.

(** One anchor with an [href] that passes the filter: the new locals and
    session, and whether [search] returns. *)
Definition accept_link (a : Tag) (u : string) (lv : locals) (c : SearchClient)
  : locals * SearchClient :=
  if negb (py_in u (search_result_list c)) then
    (mkLocals (total_valid_links_found lv + 1)%Z
       (valid_links_found_in_this_search lv + 1)%Z (Some (Some u)),
     set_search_result_list c
       (search_result_list c ++
        [if verbose_output c
         then ItemDict (total_valid_links_found lv + 1)%Z (PyStr.strip (text a))
                (PyStr.strip (match description_of a with Some d => d | None => "" end)) u
         else ItemStr u])%list)
  else (set_link lv (Some u), c).

(** What no method changes once the constructor has returned. *)
Definition settings (c : SearchClient) :=
  (query c, tld c, lang_html_ui c, lang_result c, tbs c, safe c, num c, country c,
   max_search_result_urls_to_return c,
   minimum_delay_between_paged_results_in_seconds c, user_agent c,
   yagooglesearch_manages_http_429s c, http_429_cool_off_factor c, proxy c,
   verify_ssl c, verbosity c, verbose_output c, google_exemption c,
   url_parameters c, proxy_dict c).

(** The session as [search] leaves it before its first request: the
    result list emptied and a missing or empty [extra_params] replaced by an
    empty dictionary. *)
Definition search_start (c : SearchClient) : SearchClient :=
  let c := set_search_result_list c [] in
  match extra_params c with
  | None => set_extra_params c (Some [])
  | Some [] => set_extra_params c (Some [])
  | Some _ => c
  end.

Definition num_warning : log_level * string :=
  (WARNING, "The largest value allowed by Google for num is 100.  Setting num to 100.").

(** The cool-off time after [n] rate-limit events: the [n]-fold iterate of
    [d |-> round(d * f, 2)], as long as the product can be formed. *)
Fixpoint cool_off_after (n : nat) (d f : pynum) : outcome pynum :=
  match n with
  | O => Ret d
  | S n => obind (PyNum.mul d f) (fun p => cool_off_after n (PyNum.round2 p) f)
  end.

(** A response with status 429. *)
Definition is_429 (x : exchange) : bool :=
  match x with
  | Response code _ _ => (code =? 429)%Z
  | Fails _ => false
  end.

(** What [get_page] does to the cool-off policy: the factor stays and the
    time is an iterate of the step, the time itself when the session does
    not manage rate limits. *)
Definition cool_off_step (c c' : SearchClient) : Prop :=
  http_429_cool_off_factor c' = http_429_cool_off_factor c /\
  exists n,
    cool_off_after n (http_429_cool_off_time_in_minutes c) (http_429_cool_off_factor c)
    = Ret (http_429_cool_off_time_in_minutes c') /\
    (yagooglesearch_manages_http_429s c = false -> n = O).

(** The characters of a string quoted by [quote_plus]: the unreserved
    ones, the plus sign of a space and the percent sign of an escape. *)
Definition quoted_char (c : ascii) : bool :=
  Urllib.always_safe c || Ascii.eqb c "+" || Ascii.eqb c "%".

(** The characters that [quote_plus] leaves or turns into a plus sign. *)
Definition plus_safe (c : ascii) : bool := Urllib.always_safe c || Ascii.eqb c " ".

(** The text of a URL as [urlsplit] looks at it: leading control
    characters and spaces stripped, tabs and line ends removed. *)
Definition url_text (url : string) : string :=
  PyStr.remove_chars Urllib.unsafe_url_byte
    (PyStr.lstrip Urllib.c0_control_or_space url).

(** The message of the constructor about a language that is not listed. *)
Definition lang_error (L : pylib) (lang : string) : log_level * string :=
  (ERROR, lang ++ " is not a valid language result.  See "
          ++ result_languages_file L
          ++ " for the list of valid languages.  Setting lang_result to "
          ++ dquote ++ "lang_en" ++ dquote ++ ".").

(** The warning of the constructor about a cap above 400. *)
Definition results_warning : log_level * string :=
  (WARNING, "yagooglesearch is usually only able to retrieve a maximum of ~400 results.  See README for more details.").

(** What the constructor logs, in order, for a normalised language [n]. *)
Definition init_messages (L : pylib) (a : init_args) (n : string)
  : list (log_level * string) :=
  ((if existsb (String.eqb n) (result_languages_list L) then [] else [lang_error L n])
   ++ (if (arg_num a >? 100)%Z then [num_warning] else [])
   ++ (if (400 <? arg_max_search_result_urls_to_return a)%Z then [results_warning] else []))%list.

(** The session that the constructor returns for a normalised language
    [n] and a user agent [ua]. *)
Definition built_client (L : pylib) (a : init_args) (n ua : string) : SearchClient :=
  update_urls
    (mkSearchClient (Urllib.quote_plus (arg_query a)) (arg_tld a)
       (arg_lang_html_ui a)
       (if existsb (String.eqb n) (result_languages_list L) then n else "lang_en")
       (arg_tbs a) (arg_safe a)
       (arg_start a) (if (arg_num a >? 100)%Z then 100%Z else arg_num a)
       (arg_country a) (arg_extra_params a)
       (arg_max_search_result_urls_to_return a)
       (arg_minimum_delay_between_paged_results_in_seconds a) ua
       (arg_yagooglesearch_manages_http_429s a)
       (arg_http_429_cool_off_time_in_minutes a)
       (arg_http_429_cool_off_factor a) (arg_proxy a)
       (arg_verify_ssl a) (arg_verbosity a) (arg_verbose_output a)
       (arg_google_exemption a)
       (match arg_google_exemption a with
        | None => None
        | Some EmptyString => None
        | Some g => Some [("GOOGLE_ABUSE_EXEMPTION", g)]
        end)
       builtin_url_parameters
       "" "" "" "" ""
       (match arg_proxy a with
        | EmptyString => []
        | p => [("http", p); ("https", p)]
        end)
       []).

(** No user agent was passed to the constructor: [not user_agent] holds. *)
Definition no_user_agent (a : init_args) : Prop :=
  arg_user_agent a = None \/ arg_user_agent a = Some "".

(** The environment with further messages logged. *)
Definition add_log (w : world) (l : list (log_level * string)) : world :=
  mkWorld (script w) (draws w) (trace w) (log w ++ l).

(** The cookies of the session after a response with cookie jar [jar]:
    the consent cookie when the work-around applies, the jar otherwise. *)
Definition cookies_after (jar : dict) : option dict :=
  match consent_cookies jar with
  | Ret (Some yes) => Some yes
  | _ => Some jar
  end.

(** The two warnings of [get_page] with a fixed text. *)
Definition consent_warning : log_level * string :=
  (WARNING, "Looks like your IP address is sourcing from a European Union location...your search results may vary, but I'll try and work around this by updating the cookie.").

Definition blocked_warning : log_level * string :=
  (WARNING, "Google is blocking your IP for making too many requests in a specific time period.").

(** The warnings of [get_page] for one response. *)
Definition response_messages (code : Z) (jar : dict) : list (log_level * string) :=
  ((match consent_cookies jar with
    | Ret (Some _) => [consent_warning]
    | _ => []
    end)
   ++ (if (code =? 200)%Z then []
       else if (code =? 429)%Z then [blocked_warning]
       else [(WARNING, ("HTML response code: " ++ PyStr.of_Z code)%string)]))%list.

(** The page that [get_page] returns for a response that it does not
    retry. *)
Definition page_of (code : Z) (body : string) : string :=
  if (code =? 200)%Z then body
  else if (code =? 429)%Z then HTTP_429_DETECTED else EmptyString.

(** The events of a request that is retried: the first request, then a
    sleep and another request for every entry of [ps]. *)
Definition retry_events (url agent : string) (k0 : option dict)
  (ps : list (pynum * option dict)) : list event :=
  EvGet url k0 agent
  :: flat_map (fun p => [EvSleep (fst p); EvGet url (snd p) agent]) ps.

(** An event of one call of [get_page]: a request of its URL with the
    user agent of the session, or the cool-off sleep of a session that
    manages rate limits. *)
Definition get_page_event (url agent : string) (manages : bool) (ev : event) : Prop :=
  match ev with
  | EvGet u _ a => u = url /\ a = agent
  | EvSleep _ => manages = true
  end.

(** The URL of an element of the result list. *)
Definition item_url (it : result_item) : string :=
  match it with
  | ItemStr s => s
  | ItemDict _ _ _ u => u
  end.

(** The dictionaries of [l] carry the ranks [k], [k + 1], ... in order. *)
Definition ranked_from (k : Z) (l : list result_item) : Prop :=
  forall i it, nth_error l i = Some it ->
    exists t d u, it = ItemDict (k + Z.of_nat i) t d u.

(** The session with which the [k]-th results page from the current one
    is requested. *)
Definition nth_page (c : SearchClient) (k : nat) : SearchClient :=
  update_urls (set_start c (start c + Z.of_nat k * num c)).

(** What the URL of a page is computed from. *)
Definition url_state (c : SearchClient) :=
  (settings c, start c, extra_items c, url_home c, url_search c, url_next_page c,
   url_search_num c, url_next_page_num c).

(** A request of [search] by a session that started as [c]: it carries
    the user agent of [c] and goes to the home page or to one of the
    results pages [start], [start + num], [start + 2 * num], ... *)
Definition session_request (c : SearchClient) (ev : event) : Prop :=
  match ev with
  | EvGet url _ agent =>
      agent = user_agent c /\
      (url = url_home c \/ exists k, url = page_url (nth_page c k))
  | EvSleep _ => True
  end.

(** A pause between two results pages of a session that started as [c]. *)
Definition page_delay (c : SearchClient) (ev : event) : Prop :=
  match ev with
  | EvGet _ _ _ => True
  | EvSleep s =>
      exists i, s = PyInt (minimum_delay_between_paged_results_in_seconds c + i)
                /\ (0 <= i <= 10)%Z
  end.

(** The fields of a [datetime.date] with a year of four digits. *)
Definition four_digit_year (d : date) : Prop :=
  (1000 <= year d <= 9999)%Z /\ (1 <= month d <= 12)%Z /\ (1 <= day d <= 31)%Z.

(** The characters of a date range in [tbs] format. *)
Definition tbs_char (c : ascii) : bool :=
  PyStr.is_digit c || PyStr.is_lower c || PyStr.mem c ":,_/".

(** The integers from [lo] to [hi]. *)
Definition Z_range (lo hi : Z) : list Z :=
  map (fun i => (lo + Z.of_nat i)%Z) (seq 0 (Z.to_nat (hi + 1 - lo))).

(** The integer that a decimal text denotes. *)
Definition read_Z (s : string) : option Z :=
  option_map Z.of_int (NilZero.int_of_string s).

(** ** Notions for the arithmetic of the cool-off times *)

Section FloatNotions.

Local Open Scope Z_scope.

(** The shift record of the quotient [a / b]: its integer part, the bit
    below it and whether anything is left below that bit. *)
Definition rec_of (a b : Z) : shr_record :=
  Build_shr_record (a / b) (b <=? 2 * (a mod b)) (negb ((2 * (a mod b)) mod b =? 0)).

(** The exponent and the mantissa to which [a / b * 2 ^ e] is rounded. *)
Definition round_exp (a b e : Z) : Z :=
  fexp PyNum.prec PyNum.emax (Zdigits2 (a / b) + e).

Definition round_man (a b e : Z) : Z :=
  PyNum.div_half_even a (b * 2 ^ (round_exp a b e - e)).

(** The pair after the rounding, a mantissa of [2 ^ 53] carried into
    the exponent. *)
Definition round_pair (a b e : Z) : Z * Z :=
  if round_man a b e =? 2 ^ 53 then (2 ^ 52, round_exp a b e + 1)
  else (round_man a b e, round_exp a b e).

(** The float with a mantissa and an exponent, zero and overflow
    included. *)
Definition pack (s : bool) (p : Z * Z) : spec_float :=
  match fst p with
  | Z0 => S754_zero s
  | Zpos m =>
      if snd p <=? PyNum.emax - PyNum.prec then S754_finite s m (snd p)
      else S754_infinity s
  | Zneg _ => S754_nan
  end.

(** A mantissa and an exponent of the format. *)
Definition canonical_pair (p : Z * Z) : Prop :=
  fst p = 0 \/
  (0 < fst p < 2 ^ 53 /\ -1074 <= snd p /\
   fexp PyNum.prec PyNum.emax (Zdigits2 (fst p) + snd p) = snd p).

(** The order of two pairs of the format: by exponent, then by
    mantissa; a mantissa of zero is below everything. *)
Definition pair_le (p q : Z * Z) : Prop :=
  fst p = 0 \/
  (0 < fst p /\ 0 < fst q /\ (snd p < snd q \/ (snd p = snd q /\ fst p <= fst q))).

(** The float 1.0. *)
Definition float_one : spec_float := S754_finite false 4503599627370496 (-52).

(** The exponent at which [SFdiv_core_binary] divides [k] by 100, and
    the pair to which the quotient is rounded. *)
Definition hundredths_exp (k : Z) : Z := Z.min (Zdigits2 k - 60) 0.

Definition round2_pair (k : Z) : Z * Z :=
  round_pair (k * 2 ^ (- hundredths_exp k)) 100 (hundredths_exp k).

(** [float(a)] for an integer, [a] itself for a float. *)
Definition to_float (a : pynum) : outcome spec_float :=
  match a with
  | PyInt n => PyNum.float_of_int n
  | PyFloat x => Ret x
  end.

(** A cool-off time that is not negative: an integer, or a float of the
    format (an infinity included, NaN excluded). *)
Definition duration_ok (d : pynum) : Prop :=
  match d with
  | PyInt n => 0 <= n
  | PyFloat x =>
      valid_binary PyNum.prec PyNum.emax x = true /\ SFleb (S754_zero false) x = true
  end.

(** A cool-off factor that is at least one: an integer, or a finite
    float of the format. *)
Definition factor_ok (f : pynum) : Prop :=
  match f with
  | PyInt n => 1 <= n
  | PyFloat y =>
      valid_binary PyNum.prec PyNum.emax y = true /\ SFleb float_one y = true /\
      SFltb y (S754_infinity false) = true
  end.

End FloatNotions.

Section Notions.

Variable L : pylib.

(** [search] returns from inside a page: the list has just been extended
    from a state where [Inv] held, and the cap test succeeded. *)
Definition returned_at_cap (Inv : locals -> SearchClient -> Prop)
  (l : list result_item) (c' : SearchClient) : Prop :=
  exists a u lv0 c0 lv1,
    Inv lv0 c0 /\ u <> EmptyString /\
    (exists h, filter_search_result_urls L h = Ret (Some u)) /\
    accept_link a u lv0 c0 = (lv1, c') /\
    (max_search_result_urls_to_return c'
     <=? Z.of_nat (List.length (search_result_list c')))%Z = true /\
    l = search_result_list c'.

(** How a run of the page loop can end with a list: a page without a new
    link, the sentinel, or the cap. *)
Definition loop_returns (Inv : locals -> SearchClient -> Prop)
  (l : list result_item) (c' : SearchClient) : Prop :=
  (exists lv', Inv lv' c' /\ valid_links_found_in_this_search lv' = 0%Z /\
               l = search_result_list c') \/
  (exists lv0 c0, Inv lv0 c0 /\
     c' = set_search_result_list c0
            (search_result_list c0 ++ [ItemStr HTTP_429_DETECTED])%list /\
     l = search_result_list c') \/
  returned_at_cap Inv l c'.

(** An anchor that yields no link: no [href], or an [href] that the
    filter rejects. *)
Definition rejected (a : Tag) : Prop :=
  href a = None \/
  exists h r, href a = Some h /\ filter_search_result_urls L h = Ret r /\
              (r = None \/ r = Some EmptyString).

(** The second half of the filter, on the link that the first half left. *)
Definition host_check (link : string) : outcome (option string) :=
  obind (Urllib.urlparse L link "http") (fun po =>
    Ret (match Urllib.netloc po with
         | EmptyString => None
         | n => if PyStr.contains "google" (PyStr.lower n) then None else Some link
         end)).

(** A link with a host that does not contain the provider's name. *)
Definition foreign_host (u : string) : Prop :=
  exists po, Urllib.urlparse L u "http" = Ret po /\
             Urllib.netloc po <> "" /\
             PyStr.contains "google" (PyStr.lower (Urllib.netloc po)) = false.

End Notions.

(** * Properties *)

(** ** Strings and the URL parser *)

Ltac solve_trace :=
  simpl; repeat rewrite <- app_assoc; simpl; eexists; reflexivity.

Ltac init_cases H EA :=
  unfold init in H;
  destruct (normalise_lang_result _) as [lang|e|]; try discriminate;
  cbv zeta in H;
  destruct (existsb _ (result_languages_list _));
  destruct (arg_num _ >? 100)%Z eqn:?;
  match type of H with
  | match ?m with _ => _ end = _ => destruct m as [[?|?|] ?] eqn:EA
  end;
  try discriminate;
  inversion H; subst; clear H.

Ltac break_hyps :=
  repeat match goal with
         | H : context [match ?x with _ => _ end] |- _ =>
             destruct x eqn:?; try discriminate
         | E : (_, _) = (_, _) |- _ => inversion E; clear E; subst
         end.

Ltac break_match_in H :=
  match type of H with
  | context [match ?x with _ => _ end] => destruct x eqn:?
  end.

Ltac break_match :=
  match goal with
  | |- context [match ?x with _ => _ end] => destruct x eqn:?
  end.

Lemma split_not_nil (c : ascii) (s : string) : PyStr.split c s <> [].
Proof.
  induction s as [|x r IH]; simpl.
  - discriminate.
  - destruct (Ascii.eqb x c); [discriminate|].
    destruct (PyStr.split c r); discriminate.
Qed.

Lemma startswith_app (s p : string) :
  PyStr.startswith s p = true -> exists r, s = (p ++ r)%string.
Proof.
  unfold PyStr.startswith. revert s.
  induction p as [|a p IH]; intros s H.
  - exists s. reflexivity.
  - destruct s as [|b s]; simpl in H; [discriminate|].
    destruct (ascii_dec a b) as [->|]; [|discriminate].
    destruct (IH s H) as [r ->]. exists r. reflexivity.
Qed.

Lemma getitem_raise {V : Type} (d : list (string * V)) (k : string) (e : exn) :
  Urllib.getitem d k = Raise e -> e = KeyError k.
Proof.
  induction d as [|[k' v] d IH]; simpl.
  - intros H. inversion H. reflexivity.
  - destruct (String.eqb k' k); [discriminate|exact IH].
Qed.

Lemma getitem_not_timeout {V : Type} (d : list (string * V)) (k : string) :
  Urllib.getitem d k <> Timeout.
Proof.
  induction d as [|[k' v] d IH]; simpl.
  - discriminate.
  - destruct (String.eqb k' k); [discriminate|exact IH].
Qed.

Lemma first_not_timeout {V : Type} (l : list V) : Urllib.first l <> Timeout.
Proof. destruct l; discriminate. Qed.

(** ** Rounding in binary64 *)

(** [binary_round_aux] rounds the quotient [a / b * 2 ^ e] to the nearest
    float, ties to even; the lemmas below give what it returns and show
    that rounding, multiplication by a factor of at least one and
    [round(x, 2)] are monotone. *)

Section FloatRounding.

Local Open Scope Z_scope.

Lemma digits_size (p : positive) : digits2_pos p = Pos.size p.
Proof. induction p; simpl; congruence. Qed.

Lemma Zdigits2_log2 (m : Z) : 0 < m -> Zdigits2 m = Z.log2 m + 1.
Proof.
  destruct m as [|p|p]; try lia. intros _. simpl.
  rewrite digits_size. destruct p; simpl; rewrite ?Pos.add_1_r; try reflexivity.
  all: rewrite Pos2Z.inj_succ; reflexivity.
Qed.

Lemma Zdigits2_bounds (m : Z) :
  0 < m -> 2 ^ (Zdigits2 m - 1) <= m < 2 ^ Zdigits2 m.
Proof.
  intros H. rewrite Zdigits2_log2 by exact H.
  replace (Z.log2 m + 1 - 1) with (Z.log2 m) by lia.
  replace (Z.log2 m + 1) with (Z.succ (Z.log2 m)) by lia.
  apply Z.log2_spec. exact H.
Qed.

Lemma Zdigits2_unique (m d : Z) :
  0 < d -> 2 ^ (d - 1) <= m < 2 ^ d -> Zdigits2 m = d.
Proof.
  intros Hd H.
  assert (0 < m) by (pose proof (Z.pow_pos_nonneg 2 (d - 1)); lia).
  rewrite Zdigits2_log2 by assumption.
  assert (Z.log2 m = d - 1); [|lia].
  apply Z.log2_unique; [lia|]. replace (Z.succ (d - 1)) with d by lia. exact H.
Qed.

Lemma Zdigits2_pos (m : Z) : 0 < m -> 0 < Zdigits2 m.
Proof. intros H. rewrite Zdigits2_log2 by exact H. pose proof (Z.log2_nonneg m). lia. Qed.

Lemma Zdigits2_le (m n : Z) : 0 < m -> m <= n -> Zdigits2 m <= Zdigits2 n.
Proof.
  intros H1 H2. rewrite !Zdigits2_log2 by lia.
  pose proof (Z.log2_le_mono m n H2). lia.
Qed.

(** Division with rounding to the nearest, ties to even *)

Lemma div_half_even_bounds (a b : Z) :
  0 < b -> a / b <= PyNum.div_half_even a b <= a / b + 1.
Proof.
  intros Hb. unfold PyNum.div_half_even.
  destruct (2 * (a mod b) ?= b); [destruct (Z.even _)| |]; lia.
Qed.

Lemma div_half_even_scale (a b c : Z) :
  0 < b -> 0 < c -> PyNum.div_half_even (a * c) (b * c) = PyNum.div_half_even a b.
Proof.
  intros Hb Hc. unfold PyNum.div_half_even.
  rewrite Z.div_mul_cancel_r by lia.
  rewrite Z.mul_mod_distr_r by lia.
  replace (2 * (a mod b * c)) with (2 * (a mod b) * c) by ring.
  rewrite <- Zmult_compare_compat_r by lia. reflexivity.
Qed.

Lemma div_half_even_exact (a b : Z) : 0 < b -> PyNum.div_half_even (a * b) b = a.
Proof.
  intros Hb. unfold PyNum.div_half_even.
  rewrite Z.div_mul by lia. rewrite Z.mod_mul by lia.
  change (2 * 0) with 0. rewrite (proj2 (Z.compare_lt_iff 0 b)) by lia. reflexivity.
Qed.

Lemma div_half_even_le (a a' b : Z) :
  0 < b -> a <= a' -> PyNum.div_half_even a b <= PyNum.div_half_even a' b.
Proof.
  intros Hb H.
  assert (Hq : a / b <= a' / b) by (apply Z.div_le_mono; lia).
  destruct (Z.eq_dec (a / b) (a' / b)) as [E|N].
  - assert (Hr : a mod b <= a' mod b).
    { pose proof (Z.div_mod a b ltac:(lia)). pose proof (Z.div_mod a' b ltac:(lia)). nia. }
    unfold PyNum.div_half_even. rewrite <- E.
    destruct (2 * (a mod b) ?= b) eqn:C1; destruct (2 * (a' mod b) ?= b) eqn:C2;
      try (apply Z.compare_eq in C1); try (apply Z.compare_eq in C2);
      rewrite ?Z.compare_lt_iff, ?Z.compare_gt_iff in *;
      try destruct (Z.even (a / b)); lia.
  - pose proof (div_half_even_bounds a b Hb). pose proof (div_half_even_bounds a' b Hb). lia.
Qed.

(** Monotone in the fraction. *)
Lemma div_half_even_mono (a1 c1 a2 c2 : Z) :
  0 < c1 -> 0 < c2 -> a1 * c2 <= a2 * c1 ->
  PyNum.div_half_even a1 c1 <= PyNum.div_half_even a2 c2.
Proof.
  intros H1 H2 H.
  rewrite <- (div_half_even_scale a1 c1 c2) by lia.
  rewrite <- (div_half_even_scale a2 c2 c1) by lia.
  replace (c2 * c1) with (c1 * c2) by ring.
  apply div_half_even_le; nia.
Qed.

(** Shifting a record to the right *)

Lemma rec_of_fields (a b : Z) :
  0 < b ->
  round_nearest_even (shr_m (rec_of a b)) (loc_of_shr_record (rec_of a b))
  = PyNum.div_half_even a b.
Proof.
  intros Hb. unfold rec_of, PyNum.div_half_even. cbv [shr_m loc_of_shr_record].
  pose proof (Z.mod_pos_bound a b Hb) as R.
  set (q := a / b). set (r := a mod b) in *.
  destruct (b <=? 2 * r) eqn:B; [apply Z.leb_le in B|apply Z.leb_gt in B].
  - destruct (2 * r mod b =? 0) eqn:S; cbv [negb round_nearest_even].
    + apply Z.eqb_eq in S.
      assert (H : 2 * r = b).
      { pose proof (Z.div_mod (2 * r) b ltac:(lia)) as H. rewrite S in H.
        assert (2 * r / b = 1) by nia. nia. }
      rewrite (proj2 (Z.compare_eq_iff _ _) H). reflexivity.
    + apply Z.eqb_neq in S.
      assert (b < 2 * r).
      { destruct (Z.eq_dec (2 * r) b) as [E|N]; [|lia].
        exfalso. apply S. rewrite E. apply Z.mod_same. lia. }
      rewrite (proj2 (Z.compare_gt_iff _ _)) by lia. reflexivity.
  - rewrite (proj2 (Z.compare_lt_iff _ _)) by lia.
    destruct (2 * r mod b =? 0); reflexivity.
Qed.

Lemma shr_1_rec_of (a b : Z) : 0 <= a -> 0 < b -> shr_1 (rec_of a b) = rec_of a (2 * b).
Proof.
  intros Ha Hb. unfold rec_of.
  pose proof (Z.div_mod a b ltac:(lia)) as D.
  pose proof (Z.mod_pos_bound a b Hb) as R.
  assert (Q : 0 <= a / b) by (apply Z.div_pos; lia).
  set (q := a / b) in *. set (r := a mod b) in *.
  assert (K : forall t q', 0 <= t < 2 -> q = 2 * q' + t ->
              a / (2 * b) = q' /\ a mod (2 * b) = b * t + r).
  { intros t q' Ht Hq.
    assert (E : a = 2 * b * q' + (b * t + r)) by nia.
    split.
    - symmetry. apply Z.div_unique_pos with (r := b * t + r); [nia|exact E].
    - symmetry. apply Z.mod_unique_pos with (q := q'); [nia|exact E]. }
  assert (S0 : forall x, 0 <= x < b -> (b <=? 2 * x) || negb (2 * x mod b =? 0)
                                     = negb (x =? 0)).
  { intros x Hx. destruct (b <=? 2 * x) eqn:B; [apply Z.leb_le in B|apply Z.leb_gt in B]; cbv [orb].
    - symmetry. apply negb_true_iff. apply Z.eqb_neq. lia.
    - rewrite Z.mod_small by lia. f_equal.
      destruct (Z.eqb_spec (2 * x) 0), (Z.eqb_spec x 0); try reflexivity; lia. }
  assert (S1 : forall t, 0 <= t < 2 -> negb (2 * (b * t + r) mod (2 * b) =? 0) = negb (r =? 0)).
  { intros t Ht. f_equal.
    assert (2 * (b * t + r) mod (2 * b) = 2 * r).
    { symmetry. apply Z.mod_unique_pos with (q := t); [lia|ring]. }
    rewrite H. destruct (Z.eqb_spec (2 * r) 0), (Z.eqb_spec r 0); try reflexivity; lia. }
  clearbody q r.
  destruct q as [|p|p]; [| |lia].
  - destruct (K 0 0 ltac:(lia) ltac:(lia)) as (K1 & K2). rewrite K1, K2.
    cbv beta iota zeta delta [shr_1]. rewrite S0 by lia. f_equal.
    + symmetry. apply Z.leb_gt. lia.
    + rewrite <- (S1 0) by lia. reflexivity.
  - destruct p as [p|p|].
    + destruct (K 1 (Zpos p) ltac:(lia) ltac:(lia)) as (K1 & K2). rewrite K1, K2.
      cbv beta iota zeta delta [shr_1]. rewrite S0 by lia. f_equal.
      * symmetry. apply Z.leb_le. lia.
      * rewrite <- (S1 1) by lia. reflexivity.
    + destruct (K 0 (Zpos p) ltac:(lia) ltac:(lia)) as (K1 & K2). rewrite K1, K2.
      cbv beta iota zeta delta [shr_1]. rewrite S0 by lia. f_equal.
      * symmetry. apply Z.leb_gt. lia.
      * rewrite <- (S1 0) by lia. reflexivity.
    + destruct (K 1 0 ltac:(lia) ltac:(lia)) as (K1 & K2). rewrite K1, K2.
      cbv beta iota zeta delta [shr_1]. rewrite S0 by lia. f_equal.
      * symmetry. apply Z.leb_le. lia.
      * rewrite <- (S1 1) by lia. reflexivity.
Qed.

Lemma iter_shr_1_rec_of (a : Z) (p : positive) :
  0 <= a -> forall b, 0 < b -> iter_pos shr_1 p (rec_of a b) = rec_of a (b * 2 ^ Zpos p).
Proof.
  intros Ha. induction p as [p IH|p IH|]; intros b Hb; cbn [iter_pos].
  - rewrite shr_1_rec_of by lia. rewrite IH by lia.
    rewrite IH by (pose proof (Z.pow_pos_nonneg 2 (Zpos p)); nia).
    f_equal.
    assert (P : 2 ^ Zpos p~1 = 2 * (2 ^ Zpos p * 2 ^ Zpos p)).
    { rewrite <- Z.pow_add_r by lia. rewrite <- Z.pow_succ_r by lia. f_equal. lia. }
    rewrite P. ring.
  - rewrite IH by lia.
    rewrite IH by (pose proof (Z.pow_pos_nonneg 2 (Zpos p)); nia).
    f_equal.
    assert (P : 2 ^ Zpos p~0 = 2 ^ Zpos p * 2 ^ Zpos p).
    { rewrite <- Z.pow_add_r by lia. f_equal. lia. }
    rewrite P. ring.
  - rewrite shr_1_rec_of by lia. f_equal. change (2 ^ 1) with 2. ring.
Qed.

Lemma shr_rec_of (a b e n : Z) :
  0 <= a -> 0 < b -> 0 <= n ->
  shr (rec_of a b) e n = (rec_of a (b * 2 ^ n), e + n).
Proof.
  intros Ha Hb Hn. destruct n as [|p|p]; [| |lia]; simpl shr.
  - rewrite Z.mul_1_r, Z.add_0_r. reflexivity.
  - rewrite iter_shr_1_rec_of by lia. reflexivity.
Qed.

Lemma shr_record_of_loc_rec_of (a b : Z) :
  shr_record_of_loc (a / b) (loc_of_shr_record (rec_of a b)) = rec_of a b.
Proof.
  unfold rec_of. cbv [loc_of_shr_record].
  destruct (b <=? 2 * (a mod b)); destruct (negb _); reflexivity.
Qed.

Lemma fexp_eq (g : Z) : fexp PyNum.prec PyNum.emax g = Z.max (g - 53) (-1074).
Proof. reflexivity. Qed.

Lemma pow2_pos (k : Z) : 0 <= k -> 0 < 2 ^ k.
Proof. intros H. apply Z.pow_pos_nonneg; lia. Qed.

Lemma pow2_le (j k : Z) : 0 <= j <= k -> 2 ^ j <= 2 ^ k.
Proof. intros H. apply Z.pow_le_mono_r; lia. Qed.

Lemma pow2_lt (j k : Z) : 0 <= j < k -> 2 ^ j < 2 ^ k.
Proof. intros H. apply Z.pow_lt_mono_r; lia. Qed.

Lemma pow2_split (j k : Z) : 0 <= j <= k -> 2 ^ k = 2 ^ j * 2 ^ (k - j).
Proof. intros H. rewrite <- Z.pow_add_r by lia. f_equal. lia. Qed.

(** The integer part of a quotient that is shifted to the right. *)
Lemma shifted_bounds (m n : Z) :
  0 < m -> 0 <= n ->
  (Zdigits2 m <= n -> m / 2 ^ n = 0) /\
  (n < Zdigits2 m -> 2 ^ (Zdigits2 m - n - 1) <= m / 2 ^ n < 2 ^ (Zdigits2 m - n)).
Proof.
  intros Hm Hn. pose proof (Zdigits2_bounds m Hm) as (B1 & B2).
  pose proof (Zdigits2_pos m Hm) as Dp.
  pose proof (pow2_pos n Hn) as Pn.
  split; intros H.
  - apply Z.div_small. split; [lia|].
    pose proof (pow2_le (Zdigits2 m) n ltac:(lia)). lia.
  - rewrite (pow2_split n (Zdigits2 m - 1)) in B1 by lia.
    rewrite (pow2_split n (Zdigits2 m)) in B2 by lia.
    replace (Zdigits2 m - 1 - n) with (Zdigits2 m - n - 1) in B1 by lia.
    split.
    + apply Z.div_le_lower_bound; [lia|]. exact B1.
    + apply Z.div_lt_upper_bound; [lia|]. exact B2.
Qed.

(** What the rounding gives: a mantissa of 53 bits at most and the
    exponent of the format. *)
Lemma round_facts (a b e : Z) :
  0 <= a -> 0 < b -> 0 < a / b -> e <= round_exp a b e ->
  -1074 <= round_exp a b e /\
  0 <= round_man a b e <= 2 ^ 53 /\
  (round_exp a b e = Zdigits2 (a / b) + e - 53 -> 2 ^ 52 <= round_man a b e) /\
  (Zdigits2 (a / b) + e - 53 < -1074 -> round_man a b e <= 2 ^ 52).
Proof.
  intros Ha Hb Hm He.
  unfold round_man. set (E := round_exp a b e) in *.
  assert (EE : E = Z.max (Zdigits2 (a / b) + e - 53) (-1074)) by reflexivity.
  set (m := a / b) in *. set (n := E - e).
  assert (Hn : 0 <= n) by (unfold n; lia).
  pose proof (pow2_pos n Hn) as Pn.
  pose proof (div_half_even_bounds a (b * 2 ^ n) ltac:(nia)) as DB.
  assert (F : a / (b * 2 ^ n) = m / 2 ^ n)
    by (unfold m; rewrite Z.div_div by lia; reflexivity).
  rewrite F in DB.
  destruct (shifted_bounds m n Hm Hn) as (S0 & S1).
  split; [lia|].
  assert (U : m / 2 ^ n < 2 ^ 53).
  { destruct (Z_le_gt_dec (Zdigits2 m) n) as [L|G].
    - rewrite (S0 L). reflexivity.
    - destruct (S1 ltac:(lia)) as (_ & S2).
      pose proof (pow2_le (Zdigits2 m - n) 53 ltac:(unfold n; lia)). lia. }
  assert (Z0 : 0 <= m / 2 ^ n) by (apply Z.div_pos; lia).
  split; [lia|]. split.
  - intros N. assert (n = Zdigits2 m - 53) by (unfold n; lia).
    destruct (S1 ltac:(lia)) as (S2 & _).
    replace (Zdigits2 m - n - 1) with 52 in S2 by lia. lia.
  - intros N.
    destruct (Z_le_gt_dec (Zdigits2 m) n) as [L|G].
    + rewrite (S0 L) in DB. change (2 ^ 52) with 4503599627370496. lia.
    + destruct (S1 ltac:(lia)) as (_ & S2).
      pose proof (pow2_le (Zdigits2 m - n) 52 ltac:(unfold n; lia)). lia.
Qed.

Lemma canonical_normal (M E : Z) :
  2 ^ 52 <= M < 2 ^ 53 -> -1074 <= E -> canonical_pair (M, E).
Proof.
  intros HM HE. right. simpl. split; [change (2 ^ 52) with 4503599627370496 in HM; lia|].
  split; [exact HE|].
  rewrite (Zdigits2_unique M 53) by (try lia; exact HM).
  rewrite fexp_eq. lia.
Qed.

Lemma canonical_subnormal (M : Z) :
  0 <= M <= 2 ^ 52 -> canonical_pair (M, -1074).
Proof.
  intros HM. destruct (Z.eq_dec M 0) as [->|N]; [left; reflexivity|].
  right. simpl. split; [change (2 ^ 52) with 4503599627370496 in HM;
                        change (2 ^ 53) with 9007199254740992; lia|].
  split; [lia|].
  assert (Zdigits2 M <= 53).
  { replace 53 with (Zdigits2 (2 ^ 52)) by reflexivity. apply Zdigits2_le; lia. }
  rewrite fexp_eq. lia.
Qed.

Lemma round_pair_canonical (a b e : Z) :
  0 <= a -> 0 < b -> 0 < a / b -> e <= round_exp a b e ->
  canonical_pair (round_pair a b e).
Proof.
  intros Ha Hb Hm He.
  destruct (round_facts a b e Ha Hb Hm He) as (E0 & (M0 & M1) & N1 & N2).
  unfold round_pair.
  destruct (round_man a b e =? 2 ^ 53) eqn:C; [apply Z.eqb_eq in C|apply Z.eqb_neq in C].
  - apply canonical_normal; [change (2 ^ 52) with 4503599627370496;
                             change (2 ^ 53) with 9007199254740992; lia|lia].
  - assert (EE : round_exp a b e = Z.max (Zdigits2 (a / b) + e - 53) (-1074)) by reflexivity.
    destruct (Z_lt_ge_dec (Zdigits2 (a / b) + e - 53) (-1074)) as [L|G].
    + replace (round_exp a b e) with (-1074) by lia.
      apply canonical_subnormal. split; [lia|]. apply N2. exact L.
    + apply canonical_normal; [|lia]. split; [apply N1; lia|lia].
Qed.

(** [binary_round_aux] on a quotient with its remainder. *)
Lemma binary_round_aux_spec (s : bool) (a b e : Z) :
  0 <= a -> 0 < b -> 0 < a / b -> e <= round_exp a b e ->
  binary_round_aux PyNum.prec PyNum.emax s (a / b) e (loc_of_shr_record (rec_of a b))
  = pack s (round_pair a b e).
Proof.
  intros Ha Hb Hm He.
  destruct (round_facts a b e Ha Hb Hm He) as (E0 & (M0 & M1) & N1 & N2).
  pose proof (round_pair_canonical a b e Ha Hb Hm He) as CP. unfold round_pair in CP.
  unfold binary_round_aux, shr_fexp.
  rewrite shr_record_of_loc_rec_of.
  change (fexp PyNum.prec PyNum.emax (Zdigits2 (a / b) + e)) with (round_exp a b e).
  rewrite shr_rec_of by lia.
  replace (e + (round_exp a b e - e)) with (round_exp a b e) by lia.
  rewrite rec_of_fields by (pose proof (pow2_pos (round_exp a b e - e) ltac:(lia)); nia).
  change (PyNum.div_half_even a (b * 2 ^ (round_exp a b e - e))) with (round_man a b e).
  unfold round_pair, pack.
  set (M := round_man a b e) in *. set (E := round_exp a b e) in *.
  clearbody M E.
  destruct (M =? 2 ^ 53) eqn:C; [apply Z.eqb_eq in C|apply Z.eqb_neq in C].
  - subst M. cbv [shr_record_of_loc].
    replace (fexp PyNum.prec PyNum.emax (Zdigits2 (2 ^ 53) + E) - E) with 1
      by (rewrite fexp_eq; change (Zdigits2 (2 ^ 53)) with 54; lia).
    cbn [shr iter_pos]. replace (E + 1) with (E + 1) by reflexivity.
    reflexivity.
  - destruct (Z.eq_dec M 0) as [->|N].
    + cbv [shr_record_of_loc].
      change (Zdigits2 0) with 0.
      destruct (fexp PyNum.prec PyNum.emax (0 + E) - E) as [|p|p] eqn:D;
        [reflexivity| |reflexivity].
      rewrite fexp_eq in D. lia.
    + assert (D : fexp PyNum.prec PyNum.emax (Zdigits2 M + E) - E = 0).
      { destruct CP as [CP|(_ & _ & CP)]; simpl in CP; lia. }
      rewrite D. cbv [shr_record_of_loc]. cbn [shr fst snd shr_m]. reflexivity.
Qed.

(** The magnitude is monotone. *)
Lemma magnitude_le (a1 b1 e1 a2 b2 e2 t : Z) :
  0 <= a1 -> 0 < b1 -> 0 < a1 / b1 ->
  0 <= a2 -> 0 < b2 -> 0 < a2 / b2 ->
  t <= e1 -> t <= e2 ->
  a1 * b2 * 2 ^ (e1 - t) <= a2 * b1 * 2 ^ (e2 - t) ->
  Zdigits2 (a1 / b1) + e1 <= Zdigits2 (a2 / b2) + e2.
Proof.
  intros Ha1 Hb1 Hm1 Ha2 Hb2 Hm2 Ht1 Ht2 H.
  pose proof (Zdigits2_bounds _ Hm1) as (L1 & _).
  pose proof (Zdigits2_bounds _ Hm2) as (_ & U2).
  pose proof (Zdigits2_pos _ Hm1) as D1. pose proof (Zdigits2_pos _ Hm2) as D2.
  pose proof (Z.mul_div_le a1 b1 Hb1) as Q1.
  pose proof (Z.mul_succ_div_gt a2 b2 Hb2) as Q2.
  set (m1 := a1 / b1) in *. set (m2 := a2 / b2) in *.
  set (d1 := Zdigits2 m1) in *. set (d2 := Zdigits2 m2) in *.
  pose proof (pow2_pos (e1 - t) ltac:(lia)) as P1.
  pose proof (pow2_pos (e2 - t) ltac:(lia)) as P2.
  assert (K : 2 ^ (d1 - 1 + (e1 - t)) < 2 ^ (d2 + (e2 - t))).
  { rewrite !Z.pow_add_r by lia.
    set (X := 2 ^ (d1 - 1)) in *. set (Y := 2 ^ (e1 - t)) in *.
    set (Z := 2 ^ d2) in *. set (W := 2 ^ (e2 - t)) in *.
    assert (X * Y * (b1 * b2) < Z * W * (b1 * b2)).
    { assert (X * b1 <= a1) by nia.
      assert (a2 < Z * b2) by nia.
      assert (X * b1 * (b2 * Y) <= a1 * (b2 * Y)) by (apply Z.mul_le_mono_nonneg_r; nia).
      assert (a2 * (b1 * W) < Z * b2 * (b1 * W)) by (apply Z.mul_lt_mono_pos_r; nia).
      nia. }
    apply Z.mul_lt_mono_pos_r with (p := b1 * b2); [nia|exact H0]. }
  apply Z.pow_lt_mono_r_iff in K; lia.
Qed.

Lemma round_pair_mono (a1 b1 e1 a2 b2 e2 t : Z) :
  0 <= a1 -> 0 < b1 -> 0 < a1 / b1 -> e1 <= round_exp a1 b1 e1 ->
  0 <= a2 -> 0 < b2 -> 0 < a2 / b2 -> e2 <= round_exp a2 b2 e2 ->
  t <= e1 -> t <= e2 ->
  a1 * b2 * 2 ^ (e1 - t) <= a2 * b1 * 2 ^ (e2 - t) ->
  pair_le (round_pair a1 b1 e1) (round_pair a2 b2 e2).
Proof.
  intros Ha1 Hb1 Hm1 He1 Ha2 Hb2 Hm2 He2 Ht1 Ht2 H.
  pose proof (magnitude_le _ _ _ _ _ _ _ Ha1 Hb1 Hm1 Ha2 Hb2 Hm2 Ht1 Ht2 H) as G.
  destruct (round_facts a1 b1 e1 Ha1 Hb1 Hm1 He1) as (E1 & (M10 & M11) & N11 & N12).
  destruct (round_facts a2 b2 e2 Ha2 Hb2 Hm2 He2) as (E2 & (M20 & M21) & N21 & N22).
  assert (EE1 : round_exp a1 b1 e1 = Z.max (Zdigits2 (a1 / b1) + e1 - 53) (-1074))
    by reflexivity.
  assert (EE2 : round_exp a2 b2 e2 = Z.max (Zdigits2 (a2 / b2) + e2 - 53) (-1074))
    by reflexivity.
  assert (M : round_exp a1 b1 e1 = round_exp a2 b2 e2 -> round_man a1 b1 e1 <= round_man a2 b2 e2).
  { intros EQ. unfold round_man. rewrite <- EQ.
    set (E := round_exp a1 b1 e1) in *.
    pose proof (pow2_pos (E - e1) ltac:(lia)) as Q1.
    pose proof (pow2_pos (E - e2) ltac:(lia)) as Q2.
    pose proof (pow2_pos (e1 - t) ltac:(lia)) as P1.
    pose proof (pow2_pos (e2 - t) ltac:(lia)) as P2.
    apply div_half_even_mono; [nia|nia|].
    assert (S1 : 2 ^ (e1 - t) * 2 ^ (E - e1) = 2 ^ (E - t))
      by (rewrite <- Z.pow_add_r by lia; f_equal; lia).
    assert (S2 : 2 ^ (e2 - t) * 2 ^ (E - e2) = 2 ^ (E - t))
      by (rewrite <- Z.pow_add_r by lia; f_equal; lia).
    set (p1 := 2 ^ (e1 - t)) in *. set (p2 := 2 ^ (e2 - t)) in *.
    set (q1 := 2 ^ (E - e1)) in *. set (q2 := 2 ^ (E - e2)) in *.
    set (K := 2 ^ (E - t)) in *.
    apply Z.mul_le_mono_pos_r with (p := p1 * p2); [nia|].
    replace (a1 * (b2 * q2) * (p1 * p2)) with (a1 * b2 * p1 * (p2 * q2)) by ring.
    replace (a2 * (b1 * q1) * (p1 * p2)) with (a2 * b1 * p2 * (p1 * q1)) by ring.
    rewrite S1, S2. apply Z.mul_le_mono_nonneg_r; [nia|exact H]. }
  unfold pair_le, round_pair.
  destruct (Z.eq_dec (round_man a1 b1 e1) 0) as [Z1|NZ1].
  { left. rewrite Z1. reflexivity. }
  right.
  destruct (Z_lt_ge_dec (round_exp a1 b1 e1) (round_exp a2 b2 e2)) as [LT|GE].
  - assert (B2 : 2 ^ 52 <= round_man a2 b2 e2) by (apply N21; lia).
    change (2 ^ 52) with 4503599627370496 in *.
    change (2 ^ 53) with 9007199254740992 in *.
    destruct (round_man a1 b1 e1 =? 9007199254740992) eqn:C1;
      destruct (round_man a2 b2 e2 =? 9007199254740992) eqn:C2;
      rewrite ?Z.eqb_eq, ?Z.eqb_neq in *; simpl; lia.
  - assert (EQ : round_exp a1 b1 e1 = round_exp a2 b2 e2) by lia.
    specialize (M EQ).
    change (2 ^ 52) with 4503599627370496 in *.
    change (2 ^ 53) with 9007199254740992 in *.
    destruct (round_man a1 b1 e1 =? 9007199254740992) eqn:C1;
      destruct (round_man a2 b2 e2 =? 9007199254740992) eqn:C2;
      rewrite ?Z.eqb_eq, ?Z.eqb_neq in *; simpl; lia.
Qed.

(** The order of the floats of two ordered pairs. *)
Lemma pack_le (p q : Z * Z) :
  pair_le p q -> 0 <= fst q -> SFleb (pack false p) (pack false q) = true.
Proof.
  intros [Z|(P1 & P2 & O)] N; destruct p as [m1 e1], q as [m2 e2];
    cbn [fst snd] in *; unfold pack; cbn [fst snd].
  - subst m1.
    destruct m2 as [|m2|m2]; [reflexivity| |lia].
    destruct (e2 <=? _); reflexivity.
  - destruct m1 as [|m1|m1]; try lia. destruct m2 as [|m2|m2]; try lia.
    destruct (e1 <=? _) eqn:B1; destruct (e2 <=? _) eqn:B2;
      rewrite ?Z.leb_le, ?Z.leb_gt in *; try reflexivity.
    + unfold SFleb, SFcompare.
      destruct O as [O|(O1 & O2)].
      * rewrite (proj2 (Z.compare_lt_iff e1 e2) O). reflexivity.
      * subst e2. rewrite Z.compare_refl.
        destruct (Pos.compare_cont Eq m1 m2) eqn:C; try reflexivity.
        exfalso. change (Pos.compare_cont Eq m1 m2) with (Pos.compare m1 m2) in C.
        apply Pos.compare_gt_iff in C. lia.
    + lia.
Qed.

(** Floats of the format *)

Lemma valid_canonical (s : bool) (m : positive) (e : Z) :
  valid_binary PyNum.prec PyNum.emax (S754_finite s m e) = true ->
  canonical_pair (Zpos m, e) /\ e <= 971.
Proof.
  unfold valid_binary, bounded, canonical_mantissa. intros H.
  apply andb_true_iff in H. destruct H as (C & B).
  apply Z.eqb_eq in C. apply Z.leb_le in B.
  change (PyNum.emax - PyNum.prec) with 971 in B. split; [|exact B].
  right. cbn [fst snd].
  change (Zpos (digits2_pos m)) with (Zdigits2 (Zpos m)) in C.
  pose proof C as C'. rewrite fexp_eq in C'.
  pose proof (Zdigits2_bounds (Zpos m) ltac:(lia)) as (_ & U).
  pose proof (Zdigits2_pos (Zpos m) ltac:(lia)) as Dp.
  pose proof (pow2_le (Zdigits2 (Zpos m)) 53 ltac:(lia)).
  repeat split; try lia; exact C.
Qed.

Lemma canonical_normal_mantissa (m e : Z) :
  canonical_pair (m, e) -> 0 < m -> -1074 < e -> 2 ^ 52 <= m.
Proof.
  intros [Z|(B & E & C)] Hm He; cbn [fst snd] in *; [lia|].
  rewrite fexp_eq in C.
  assert (D : Zdigits2 m = 53) by lia.
  pose proof (Zdigits2_bounds m Hm) as (L & _). rewrite D in L. exact L.
Qed.

Lemma pack_valid (s : bool) (p : Z * Z) :
  canonical_pair p -> valid_binary PyNum.prec PyNum.emax (pack s p) = true.
Proof.
  destruct p as [m e]. intros [Z|(B & E & C)]; cbn [fst snd] in *; unfold pack; cbn [fst snd].
  - subst m. reflexivity.
  - destruct m as [|m|m]; try lia.
    destruct (e <=? _) eqn:L; [|reflexivity].
    unfold valid_binary, bounded, canonical_mantissa.
    rewrite L. rewrite andb_true_r. apply Z.eqb_eq. exact C.
Qed.

Lemma pack_nonneg (p : Z * Z) :
  canonical_pair p -> SFleb (S754_zero false) (pack false p) = true.
Proof.
  intros C. change (S754_zero false) with (pack false (0, 0)).
  apply pack_le; [left; reflexivity|].
  destruct C as [Z|(B & _)]; lia.
Qed.

Lemma pack_not_nan (s : bool) (p : Z * Z) :
  canonical_pair p -> pack s p <> S754_nan.
Proof.
  destruct p as [m e]. intros [Z|(B & E & C)]; cbn [fst snd] in *; unfold pack; cbn [fst snd].
  - subst m. discriminate.
  - destruct m as [|m|m]; try lia. destruct (e <=? _); discriminate.
Qed.

(** Rounding a float of the format gives the float. *)
Lemma round_pair_id (m e : Z) :
  canonical_pair (m, e) -> 0 < m ->
  round_pair m 1 e = (m, e) /\ 0 < m / 1 /\ e <= round_exp m 1 e.
Proof.
  intros [Z|(B & E & C)] Hm; cbn [fst snd] in *; [lia|].
  assert (RE : round_exp m 1 e = e) by (unfold round_exp; rewrite Z.div_1_r; exact C).
  assert (RM : round_man m 1 e = m).
  { unfold round_man. rewrite RE. replace (e - e) with 0 by lia.
    change (1 * 2 ^ 0) with 1. rewrite <- (Z.mul_1_r m) at 1.
    apply div_half_even_exact. lia. }
  unfold round_pair. rewrite RM, RE.
  rewrite Z.div_1_r.
  destruct (m =? 2 ^ 53) eqn:K; [apply Z.eqb_eq in K; lia|].
  repeat split; lia.
Qed.

(** The values of two ordered floats of the format. *)
Lemma canonical_value_le (m1 e1 m2 e2 t : Z) :
  canonical_pair (m1, e1) -> canonical_pair (m2, e2) -> 0 < m1 ->
  pair_le (m1, e1) (m2, e2) -> t <= e1 -> t <= e2 ->
  m1 * 2 ^ (e1 - t) <= m2 * 2 ^ (e2 - t).
Proof.
  intros C1 C2 Hm1 [Z|(_ & Hm2 & O)] T1 T2; cbn [fst snd] in *; [lia|].
  pose proof (pow2_pos (e1 - t) ltac:(lia)) as P1.
  destruct O as [O|(-> & O)].
  - pose proof (canonical_normal_mantissa m2 e2 C2 Hm2) as N2.
    destruct C1 as [Z|(B1 & E1 & _)]; cbn [fst snd] in *; [lia|].
    specialize (N2 ltac:(lia)).
    rewrite (pow2_split (e1 - t) (e2 - t)) by lia.
    replace (e2 - t - (e1 - t)) with (e2 - e1) by lia.
    pose proof (pow2_le 1 (e2 - e1) ltac:(lia)) as P2. change (2 ^ 1) with 2 in P2.
    change (2 ^ 52) with 4503599627370496 in *.
    change (2 ^ 53) with 9007199254740992 in *.
    set (X := 2 ^ (e1 - t)) in *. set (Y := 2 ^ (e2 - e1)) in *.
    assert (A1 : m1 * X <= 9007199254740992 * X) by nia.
    assert (A2 : 9007199254740992 * X <= m2 * 2 * X) by nia.
    assert (A3 : m2 * 2 * X <= m2 * Y * X).
    { apply Z.mul_le_mono_nonneg_r; [lia|]. apply Z.mul_le_mono_nonneg_l; lia. }
    replace (m2 * (X * Y)) with (m2 * Y * X) by ring. lia.
  - apply Z.mul_le_mono_nonneg_r; lia.
Qed.

(** Multiplication *)

Lemma digits_mul (m1 m2 : Z) :
  0 < m1 -> 0 < m2 -> Zdigits2 m1 + Zdigits2 m2 - 1 <= Zdigits2 (m1 * m2).
Proof.
  intros H1 H2.
  pose proof (Zdigits2_bounds m1 H1) as (L1 & _).
  pose proof (Zdigits2_bounds m2 H2) as (L2 & _).
  pose proof (Zdigits2_pos m1 H1). pose proof (Zdigits2_pos m2 H2).
  assert (L : 2 ^ (Zdigits2 m1 - 1 + (Zdigits2 m2 - 1)) <= m1 * m2).
  { rewrite Z.pow_add_r by lia.
    pose proof (pow2_pos (Zdigits2 m1 - 1) ltac:(lia)).
    pose proof (pow2_pos (Zdigits2 m2 - 1) ltac:(lia)). nia. }
  set (k := Zdigits2 m1 - 1 + (Zdigits2 m2 - 1)) in *.
  assert (Zdigits2 (2 ^ k) = k + 1).
  { apply Zdigits2_unique; [lia|]. replace (k + 1 - 1) with k by lia.
    split; [lia|]. apply pow2_lt. lia. }
  pose proof (Zdigits2_le (2 ^ k) (m1 * m2) (pow2_pos k ltac:(lia)) L). lia.
Qed.

Lemma rec_of_one (a : Z) : loc_of_shr_record (rec_of a 1) = loc_Exact.
Proof. unfold rec_of. rewrite Z.mod_1_r. reflexivity. Qed.

Lemma SFmul_finite (sx sy : bool) (mx my : positive) (ex ey : Z) :
  valid_binary PyNum.prec PyNum.emax (S754_finite sx mx ex) = true ->
  valid_binary PyNum.prec PyNum.emax (S754_finite sy my ey) = true ->
  SFmul PyNum.prec PyNum.emax (S754_finite sx mx ex) (S754_finite sy my ey)
  = pack (xorb sx sy) (round_pair (Zpos mx * Zpos my) 1 (ex + ey)) /\
  0 < Zpos mx * Zpos my / 1 /\
  ex + ey <= round_exp (Zpos mx * Zpos my) 1 (ex + ey).
Proof.
  intros Vx Vy.
  destruct (valid_canonical _ _ _ Vx) as (Cx & _).
  destruct (valid_canonical _ _ _ Vy) as (Cy & _).
  assert (P : 0 < Zpos mx * Zpos my / 1) by (rewrite Z.div_1_r; lia).
  assert (E : ex + ey <= round_exp (Zpos mx * Zpos my) 1 (ex + ey)).
  { unfold round_exp. rewrite Z.div_1_r, fexp_eq.
    pose proof (digits_mul (Zpos mx) (Zpos my) ltac:(lia) ltac:(lia)) as D.
    pose proof (Zdigits2_pos (Zpos mx) ltac:(lia)).
    pose proof (Zdigits2_pos (Zpos my) ltac:(lia)).
    destruct Cx as [Z|(_ & _ & Cx)], Cy as [Z'|(_ & _ & Cy)]; cbn [fst snd] in *; try lia.
    rewrite fexp_eq in Cx, Cy. lia. }
  split; [|split; assumption].
  cbn [SFmul]. change (Zpos (mx * my)) with (Zpos mx * Zpos my).
  rewrite <- (Z.div_1_r (Zpos mx * Zpos my)) at 1.
  rewrite <- (rec_of_one (Zpos mx * Zpos my)).
  apply binary_round_aux_spec; try lia; assumption.
Qed.

(** A float of the format that is at least one. *)
Lemma at_least_one_facts (my : positive) (ey : Z) :
  valid_binary PyNum.prec PyNum.emax (S754_finite false my ey) = true ->
  SFleb float_one (S754_finite false my ey) = true ->
  -52 <= ey /\ 2 ^ 52 <= Zpos my.
Proof.
  intros V H. destruct (valid_canonical _ _ _ V) as (C & _).
  unfold SFleb, float_one, SFcompare in H.
  destruct (-52 ?= ey) eqn:K.
  - apply Z.compare_eq in K. subst ey. split; [lia|].
    apply (canonical_normal_mantissa _ _ C); lia.
  - rewrite Z.compare_lt_iff in K. split; [lia|].
    apply canonical_normal_mantissa with (e := ey); [exact C|lia|lia].
  - discriminate.
Qed.

(** Multiplying by a float that is at least one does not lower a float
    that is not negative. *)
Lemma SFmul_not_below (mx my : positive) (ex ey : Z) :
  valid_binary PyNum.prec PyNum.emax (S754_finite false mx ex) = true ->
  valid_binary PyNum.prec PyNum.emax (S754_finite false my ey) = true ->
  SFleb float_one (S754_finite false my ey) = true ->
  exists p,
    SFmul PyNum.prec PyNum.emax (S754_finite false mx ex) (S754_finite false my ey)
    = pack false p /\
    canonical_pair p /\ pair_le (Zpos mx, ex) p.
Proof.
  intros Vx Vy H1.
  destruct (SFmul_finite false false mx my ex ey Vx Vy) as (E & P & R).
  destruct (valid_canonical _ _ _ Vx) as (Cx & _).
  destruct (at_least_one_facts my ey Vy H1) as (Y1 & Y2).
  exists (round_pair (Zpos mx * Zpos my) 1 (ex + ey)).
  split; [exact E|]. split.
  - apply round_pair_canonical; try lia; assumption.
  - destruct (round_pair_id (Zpos mx) ex Cx ltac:(lia)) as (I1 & I2 & I3).
    rewrite <- I1.
    apply round_pair_mono with (t := ex + Z.min 0 ey); try lia; try assumption.
    rewrite !Z.mul_1_r.
    destruct (Z_lt_ge_dec ey 0) as [N|N].
    + replace (ex + Z.min 0 ey) with (ex + ey) by lia.
      replace (ex + ey - (ex + ey)) with 0 by lia.
      replace (ex - (ex + ey)) with (- ey) by lia.
      pose proof (pow2_le (- ey) 52 ltac:(lia)).
      change (2 ^ 0) with 1. rewrite Z.mul_1_r.
      apply Z.mul_le_mono_nonneg_l; lia.
    + replace (ex + Z.min 0 ey) with ex by lia.
      replace (ex - ex) with 0 by lia.
      replace (ex + ey - ex) with ey by lia.
      pose proof (pow2_pos ey ltac:(lia)).
      change (2 ^ 0) with 1. rewrite <- Z.mul_assoc.
      apply Z.mul_le_mono_nonneg_l; [lia|]. nia.
Qed.

(** Rounding to two decimals *)

Lemma hundredths_spec (m : positive) (e u : Z) :
  0 <= u -> 0 <= e + u ->
  PyNum.hundredths m e = PyNum.div_half_even (Zpos m * 100 * 2 ^ (e + u)) (2 ^ u).
Proof.
  intros Hu He. unfold PyNum.hundredths.
  pose proof (pow2_pos (e + u) He) as P.
  destruct e as [|p|p].
  - rewrite Z.add_0_l. change (2 ^ 0) with 1. rewrite Z.mul_1_r.
    rewrite div_half_even_exact by (apply pow2_pos; lia). ring.
  - rewrite Z.pow_add_r by lia. rewrite Z.mul_assoc.
    rewrite div_half_even_exact by (apply pow2_pos; lia). ring.
  - rewrite Z.pow_pos_fold.
    rewrite (pow2_split (Zpos p) u) by lia.
    replace (Zneg p + u) with (u - Zpos p) by lia.
    rewrite div_half_even_scale; [reflexivity|apply pow2_pos; lia|apply pow2_pos; lia].
Qed.

Lemma hundredths_nonneg (m : positive) (e : Z) : 0 <= PyNum.hundredths m e.
Proof.
  rewrite (hundredths_spec m e (Z.abs e)) by lia.
  pose proof (pow2_pos (Z.abs e) ltac:(lia)).
  pose proof (pow2_pos (e + Z.abs e) ltac:(lia)).
  pose proof (div_half_even_bounds (Zpos m * 100 * 2 ^ (e + Z.abs e)) (2 ^ Z.abs e) ltac:(lia)).
  assert (0 <= Zpos m * 100 * 2 ^ (e + Z.abs e) / 2 ^ Z.abs e) by (apply Z.div_pos; nia).
  lia.
Qed.

Lemma hundredths_mono (m1 m2 : positive) (e1 e2 : Z) :
  canonical_pair (Zpos m1, e1) -> canonical_pair (Zpos m2, e2) ->
  pair_le (Zpos m1, e1) (Zpos m2, e2) ->
  PyNum.hundredths m1 e1 <= PyNum.hundredths m2 e2.
Proof.
  intros C1 C2 O.
  set (t := Z.min 0 (Z.min e1 e2)).
  rewrite (hundredths_spec m1 e1 (- t)) by (unfold t; lia).
  rewrite (hundredths_spec m2 e2 (- t)) by (unfold t; lia).
  apply div_half_even_le; [apply pow2_pos; unfold t; lia|].
  pose proof (canonical_value_le _ _ _ _ t C1 C2 ltac:(lia) O
                ltac:(unfold t; lia) ltac:(unfold t; lia)) as V.
  replace (e1 + - t) with (e1 - t) by lia. replace (e2 + - t) with (e2 - t) by lia.
  nia.
Qed.

Lemma new_location_100 (a : Z) :
  new_location 100 (a mod 100) = loc_of_shr_record (rec_of a 100).
Proof.
  pose proof (Z.mod_pos_bound a 100 ltac:(lia)) as R.
  unfold rec_of, new_location. cbn [Z.even]. unfold new_location_even.
  cbv [loc_of_shr_record]. set (r := a mod 100) in *. clearbody r.
  destruct (r =? 0) eqn:Z0; [apply Z.eqb_eq in Z0|apply Z.eqb_neq in Z0].
  - subst r. reflexivity.
  - destruct (2 * r ?= 100) eqn:C.
    + apply Z.compare_eq in C.
      rewrite (proj2 (Z.leb_le 100 (2 * r))) by lia. rewrite C. reflexivity.
    + rewrite Z.compare_lt_iff in C.
      rewrite (proj2 (Z.leb_gt 100 (2 * r))) by lia.
      rewrite Z.mod_small by lia.
      rewrite (proj2 (Z.eqb_neq (2 * r) 0)) by lia. reflexivity.
    + rewrite Z.compare_gt_iff in C.
      rewrite (proj2 (Z.leb_le 100 (2 * r))) by lia.
      assert (M : (2 * r) mod 100 = 2 * r - 100).
      { symmetry. apply Z.mod_unique_pos with (q := 1); lia. }
      rewrite M. rewrite (proj2 (Z.eqb_neq (2 * r - 100) 0)) by lia. reflexivity.
Qed.

Lemma hundredths_exp_facts (k : Z) :
  0 < k ->
  hundredths_exp k <= 0 /\ -59 <= hundredths_exp k /\
  2 ^ 59 <= k * 2 ^ (- hundredths_exp k).
Proof.
  intros Hk. unfold hundredths_exp.
  pose proof (Zdigits2_bounds k Hk) as (L & _). pose proof (Zdigits2_pos k Hk) as Dp.
  split; [lia|]. split; [lia|].
  destruct (Z_le_gt_dec (Zdigits2 k) 60) as [S|G].
  - replace (- Z.min (Zdigits2 k - 60) 0) with (60 - Zdigits2 k) by lia.
    rewrite (pow2_split (Zdigits2 k - 1) 59) by lia.
    replace (59 - (Zdigits2 k - 1)) with (60 - Zdigits2 k) by lia.
    apply Z.mul_le_mono_nonneg_r; [|exact L].
    pose proof (pow2_pos (60 - Zdigits2 k) ltac:(lia)). lia.
  - replace (- Z.min (Zdigits2 k - 60) 0) with 0 by lia.
    change (2 ^ 0) with 1. rewrite Z.mul_1_r.
    pose proof (pow2_le 59 (Zdigits2 k - 1) ltac:(lia)). lia.
Qed.

Lemma round2_pair_pre (k : Z) :
  0 < k ->
  0 <= k * 2 ^ (- hundredths_exp k) /\
  0 < k * 2 ^ (- hundredths_exp k) / 100 /\
  hundredths_exp k <= round_exp (k * 2 ^ (- hundredths_exp k)) 100 (hundredths_exp k).
Proof.
  intros Hk. destruct (hundredths_exp_facts k Hk) as (E0 & E1 & A).
  set (a := k * 2 ^ (- hundredths_exp k)) in *.
  assert (Q : 2 ^ 52 <= a / 100).
  { apply Z.div_le_lower_bound; [lia|].
    change (2 ^ 59) with 576460752303423488 in A.
    change (2 ^ 52) with 4503599627370496. lia. }
  change (2 ^ 52) with 4503599627370496 in Q.
  change (2 ^ 59) with 576460752303423488 in A.
  split; [lia|]. split; [lia|].
  unfold round_exp. rewrite fexp_eq.
  assert (53 <= Zdigits2 (a / 100)).
  { replace 53 with (Zdigits2 4503599627370496) by reflexivity.
    apply Zdigits2_le; lia. }
  lia.
Qed.

Lemma SFdiv_core_100 (k : positive) :
  SFdiv_core_binary PyNum.prec PyNum.emax (Zpos k) 0 100 0
  = (Zpos k * 2 ^ (- hundredths_exp (Zpos k)) / 100, hundredths_exp (Zpos k),
     loc_of_shr_record (rec_of (Zpos k * 2 ^ (- hundredths_exp (Zpos k))) 100)).
Proof.
  destruct (hundredths_exp_facts (Zpos k) ltac:(lia)) as (E0 & E1 & _).
  unfold SFdiv_core_binary.
  change (Zdigits2 100) with 7.
  assert (EE : Z.min (fexp PyNum.prec PyNum.emax (Zdigits2 (Zpos k) + 0 - (7 + 0))) (0 - 0)
               = hundredths_exp (Zpos k)).
  { rewrite fexp_eq. unfold hundredths_exp.
    pose proof (Zdigits2_pos (Zpos k) ltac:(lia)). lia. }
  rewrite EE. cbv zeta.
  set (e' := hundredths_exp (Zpos k)) in *. clearbody e'.
  assert (M : match 0 - 0 - e' with
              | 0 => Zpos k
              | Zpos _ => Z.shiftl (Zpos k) (0 - 0 - e')
              | Zneg _ => 0
              end = Zpos k * 2 ^ (- e')).
  { replace (0 - 0 - e') with (- e') by lia.
    destruct (- e') as [|p|p] eqn:D; [|rewrite Z.shiftl_mul_pow2 by lia; reflexivity|lia].
    change (2 ^ 0) with 1. lia. }
  rewrite M.
  unfold Z.div, Z.modulo.
  destruct (Z.div_eucl (Zpos k * 2 ^ (- e')) 100) as [q r] eqn:DE.
  cbn [fst snd].
  assert (R : r = (Zpos k * 2 ^ (- e')) mod 100) by (unfold Z.modulo; rewrite DE; reflexivity).
  rewrite R. rewrite new_location_100. unfold rec_of at 2.
  reflexivity.
Qed.

Lemma float_round2_finite (s : bool) (m : positive) (e : Z) :
  PyNum.float_round2 (S754_finite s m e) = pack s (round2_pair (PyNum.hundredths m e)).
Proof.
  unfold PyNum.float_round2.
  pose proof (hundredths_nonneg m e) as N.
  destruct (PyNum.hundredths m e) as [|k|k]; [reflexivity| |lia].
  rewrite SFdiv_core_100.
  destruct (round2_pair_pre (Zpos k) ltac:(lia)) as (A & Q & E).
  apply binary_round_aux_spec; try lia; assumption.
Qed.

Lemma round2_pair_canonical (k : Z) : 0 <= k -> canonical_pair (round2_pair k).
Proof.
  intros Hk. destruct (Z.eq_dec k 0) as [->|N]; [left; reflexivity|].
  destruct (round2_pair_pre k ltac:(lia)) as (A & Q & E).
  apply round_pair_canonical; try lia; assumption.
Qed.

Lemma round2_pair_mono (k1 k2 : Z) :
  0 <= k1 <= k2 -> pair_le (round2_pair k1) (round2_pair k2).
Proof.
  intros Hk. destruct (Z.eq_dec k1 0) as [->|N]; [left; reflexivity|].
  destruct (round2_pair_pre k1 ltac:(lia)) as (A1 & Q1 & E1).
  destruct (round2_pair_pre k2 ltac:(lia)) as (A2 & Q2 & E2).
  destruct (hundredths_exp_facts k1 ltac:(lia)) as (F1 & _).
  destruct (hundredths_exp_facts k2 ltac:(lia)) as (F2 & _).
  unfold round2_pair.
  set (e1 := hundredths_exp k1) in *. set (e2 := hundredths_exp k2) in *.
  apply round_pair_mono with (t := Z.min e1 e2); try lia; try assumption.
  set (t := Z.min e1 e2).
  assert (S1 : 2 ^ (- e1) * 2 ^ (e1 - t) = 2 ^ (- t))
    by (rewrite <- Z.pow_add_r by lia; f_equal; lia).
  assert (S2 : 2 ^ (- e2) * 2 ^ (e2 - t) = 2 ^ (- t))
    by (rewrite <- Z.pow_add_r by lia; f_equal; lia).
  replace (k1 * 2 ^ (- e1) * 100 * 2 ^ (e1 - t))
    with (k1 * 100 * (2 ^ (- e1) * 2 ^ (e1 - t))) by ring.
  replace (k2 * 2 ^ (- e2) * 100 * 2 ^ (e2 - t))
    with (k2 * 100 * (2 ^ (- e2) * 2 ^ (e2 - t))) by ring.
  rewrite S1, S2.
  apply Z.mul_le_mono_nonneg_r; [|lia].
  pose proof (pow2_pos (- t) ltac:(unfold t; lia)). lia.
Qed.

Lemma pair_fst_nonneg (p : Z * Z) : canonical_pair p -> 0 <= fst p.
Proof. intros [Z|(B & _)]; lia. Qed.

Lemma pack_le_infinity (p : Z * Z) :
  canonical_pair p -> SFleb (pack false p) (S754_infinity false) = true.
Proof.
  intros C. pose proof (pair_fst_nonneg p C). unfold pack.
  destruct (fst p) as [|m|m]; [reflexivity| |lia].
  destruct (snd p <=? _); reflexivity.
Qed.

(** Rounding to two decimals is monotone, and gives a float of the
    format that is not negative. *)
Lemma float_round2_pack (p : Z * Z) :
  canonical_pair p ->
  PyNum.float_round2 (pack false p) = S754_infinity false \/
  exists q, PyNum.float_round2 (pack false p) = pack false q /\ canonical_pair q /\
            forall (m : positive) (e : Z),
              canonical_pair (Zpos m, e) -> pair_le (Zpos m, e) p ->
              pair_le (round2_pair (PyNum.hundredths m e)) q.
Proof.
  intros C. destruct p as [M E]. unfold pack. cbn [fst snd].
  pose proof (pair_fst_nonneg _ C) as N. cbn [fst] in N.
  destruct M as [|M|M]; [| |lia].
  - right. exists (0, 0). split; [reflexivity|]. split; [left; reflexivity|].
    intros m e _ [Z|(_ & Z & _)]; cbn [fst] in Z; lia.
  - destruct (E <=? _); [|left; reflexivity].
    right. exists (round2_pair (PyNum.hundredths M E)).
    split; [apply float_round2_finite|].
    split; [apply round2_pair_canonical, hundredths_nonneg|].
    intros m e Cm O. apply round2_pair_mono.
    split; [apply hundredths_nonneg|]. apply hundredths_mono; assumption.
Qed.

Lemma SFleb_zero_sign (s : bool) (y : spec_float) :
  SFleb (S754_zero s) y = SFleb (S754_zero false) y.
Proof. destruct y; reflexivity. Qed.

(** One step of the policy on floats. *)
Lemma float_step_not_below (x y : spec_float) :
  valid_binary PyNum.prec PyNum.emax x = true ->
  SFleb (S754_zero false) x = true ->
  valid_binary PyNum.prec PyNum.emax y = true ->
  SFleb float_one y = true ->
  SFltb y (S754_infinity false) = true ->
  SFleb (PyNum.float_round2 x)
        (PyNum.float_round2 (SFmul PyNum.prec PyNum.emax x y)) = true /\
  valid_binary PyNum.prec PyNum.emax
    (PyNum.float_round2 (SFmul PyNum.prec PyNum.emax x y)) = true /\
  SFleb (S754_zero false) (PyNum.float_round2 (SFmul PyNum.prec PyNum.emax x y)) = true.
Proof.
  intros Vx Nx Vy Oy Fy.
  destruct y as [sy|sy| |sy my ey];
    [simpl in Oy; discriminate Oy
    |destruct sy; [simpl in Oy; discriminate Oy|simpl in Fy; discriminate Fy]
    |simpl in Oy; discriminate Oy
    |].
  destruct sy; [simpl in Oy; discriminate Oy|].
  destruct x as [sx|sx| |sx mx ex]; try (simpl in Nx; discriminate Nx).
  - repeat split; destruct sx; reflexivity.
  - destruct sx; [simpl in Nx; discriminate Nx|]. repeat split; reflexivity.
  - destruct sx; [simpl in Nx; discriminate Nx|].
    destruct (SFmul_not_below mx my ex ey Vx Vy Oy) as (p & E & Cp & O).
    destruct (valid_canonical _ _ _ Vx) as (Cx & _).
    rewrite E. rewrite float_round2_finite.
    destruct (float_round2_pack p Cp) as [I|(q & Q & Cq & M)].
    + rewrite I. split; [|split; reflexivity].
      apply pack_le_infinity. apply round2_pair_canonical, hundredths_nonneg.
    + rewrite Q. split; [|split].
      * apply pack_le; [apply M; assumption|apply pair_fst_nonneg; exact Cq].
      * apply pack_valid. exact Cq.
      * apply pack_nonneg. exact Cq.
Qed.

(** Integers as floats *)

Lemma iter_xO (m d : positive) : Zpos (Pos.iter xO m d) = Zpos m * 2 ^ Zpos d.
Proof.
  induction d as [|d IH] using Pos.peano_ind.
  - simpl. lia.
  - rewrite Pos.iter_succ. rewrite Pos2Z.inj_xO, IH.
    rewrite Pos2Z.inj_succ. rewrite Z.pow_succ_r by lia. ring.
Qed.

Lemma digits_shift (m k : Z) :
  0 < m -> 0 <= k -> Zdigits2 (m * 2 ^ k) = Zdigits2 m + k.
Proof.
  intros Hm Hk. pose proof (Zdigits2_bounds m Hm) as (L & U).
  pose proof (Zdigits2_pos m Hm) as Dp. pose proof (pow2_pos k Hk) as P.
  apply Zdigits2_unique; [lia|].
  replace (Zdigits2 m + k - 1) with (Zdigits2 m - 1 + k) by lia.
  rewrite !Z.pow_add_r by lia. split.
  - apply Z.mul_le_mono_nonneg_r; lia.
  - apply Z.mul_lt_mono_pos_r; lia.
Qed.

(** The float of a positive integer. *)
Lemma binary_round_int (m : positive) :
  exists a e,
    binary_round PyNum.prec PyNum.emax false m 0 = pack false (round_pair a 1 e) /\
    0 <= a /\ 0 < a / 1 /\ e <= round_exp a 1 e /\ e <= 0 /\ -52 <= e /\
    a * 2 ^ (e + 52) = Zpos m * 2 ^ 52.
Proof.
  unfold binary_round, shl_align.
  change (Zpos (digits2_pos m)) with (Zdigits2 (Zpos m)).
  rewrite fexp_eq.
  pose proof (Zdigits2_pos (Zpos m) ltac:(lia)) as Dp.
  set (d := Zdigits2 (Zpos m)) in *.
  destruct (Z.max (d + 0 - 53) (-1074) - 0) as [|k|k] eqn:K.
  - exists (Zpos m), 0. rewrite <- (Z.div_1_r (Zpos m)) at 1.
    rewrite <- (rec_of_one (Zpos m)).
    assert (E : 0 <= round_exp (Zpos m) 1 0).
    { unfold round_exp. rewrite Z.div_1_r, fexp_eq. fold d. lia. }
    split; [apply binary_round_aux_spec; try lia; rewrite ?Z.div_1_r; try lia; exact E|].
    rewrite Z.div_1_r. repeat split; try lia; try exact E.
  - exists (Zpos m), 0. rewrite <- (Z.div_1_r (Zpos m)) at 1.
    rewrite <- (rec_of_one (Zpos m)).
    assert (E : 0 <= round_exp (Zpos m) 1 0).
    { unfold round_exp. rewrite Z.div_1_r, fexp_eq. fold d. lia. }
    split; [apply binary_round_aux_spec; try lia; rewrite ?Z.div_1_r; try lia; exact E|].
    rewrite Z.div_1_r. repeat split; try lia; try exact E.
  - exists (Zpos m * 2 ^ Zpos k), (Zneg k).
    replace (Z.max (d + 0 - 53) (-1074)) with (Zneg k) by lia.
    rewrite iter_xO.
    assert (Dk : Zpos k = 53 - d) by lia.
    assert (P : 0 < 2 ^ Zpos k) by (apply pow2_pos; lia).
    assert (A : 0 < Zpos m * 2 ^ Zpos k) by nia.
    assert (E : Zneg k <= round_exp (Zpos m * 2 ^ Zpos k) 1 (Zneg k)).
    { unfold round_exp. rewrite Z.div_1_r, fexp_eq.
      rewrite digits_shift by lia. fold d. lia. }
    rewrite <- (Z.div_1_r (Zpos m * 2 ^ Zpos k)) at 1.
    rewrite <- (rec_of_one (Zpos m * 2 ^ Zpos k)).
    split; [apply binary_round_aux_spec; try lia; rewrite ?Z.div_1_r; try lia; exact E|].
    rewrite Z.div_1_r. repeat split; try lia; try exact E.
    rewrite <- Z.mul_assoc. f_equal. rewrite <- Z.pow_add_r by lia. f_equal. lia.
Qed.

Lemma float_of_int_nonneg (n : Z) (x : spec_float) :
  0 <= n -> PyNum.float_of_int n = Ret x ->
  valid_binary PyNum.prec PyNum.emax x = true /\ SFleb (S754_zero false) x = true.
Proof.
  intros Hn. unfold PyNum.float_of_int, binary_normalize.
  destruct n as [|m|m]; [| |lia].
  - intros H. injection H as <-. split; reflexivity.
  - destruct (binary_round_int m) as (a & e & -> & A & Q & E & _).
    pose proof (round_pair_canonical a 1 e A ltac:(lia) Q E) as C.
    pose proof (pack_valid false _ C) as V. pose proof (pack_nonneg _ C) as N.
    destruct (pack false (round_pair a 1 e)); try discriminate;
      intros H; injection H as <-; split; assumption.
Qed.

Lemma float_of_int_at_least_one (n : Z) (y : spec_float) :
  1 <= n -> PyNum.float_of_int n = Ret y ->
  valid_binary PyNum.prec PyNum.emax y = true /\ SFleb float_one y = true /\
  SFltb y (S754_infinity false) = true.
Proof.
  intros Hn. unfold PyNum.float_of_int, binary_normalize.
  destruct n as [|m|m]; try lia.
  destruct (binary_round_int m) as (a & e & -> & A & Q & E & E0 & E1 & V).
  pose proof (round_pair_canonical a 1 e A ltac:(lia) Q E) as C.
  assert (O : pair_le (2 ^ 52, -52) (round_pair a 1 e)).
  { assert (C1 : canonical_pair (2 ^ 52, -52)) by (apply canonical_normal; [split; reflexivity|lia]).
    destruct (round_pair_id _ _ C1 ltac:(reflexivity)) as (I1 & I2 & I3).
    rewrite <- I1.
    apply round_pair_mono with (t := -52); try lia; try assumption.
    rewrite !Z.mul_1_r. replace (-52 - -52) with 0 by lia. change (2 ^ 0) with 1.
    replace (e - -52) with (e + 52) by lia. rewrite V.
    change (2 ^ 52) with 4503599627370496. lia. }
  pose proof (pack_valid false _ C) as Vp.
  pose proof (pack_le _ _ O (pair_fst_nonneg _ C)) as L.
  change (pack false (2 ^ 52, -52)) with float_one in L.
  destruct (pack false (round_pair a 1 e)) as [s|s| |s mm ee] eqn:P; try discriminate;
    intros H; injection H as <-; split; [assumption|split; [assumption|]];
    try (exfalso; unfold float_one in L; simpl in L; discriminate L).
  unfold pack in P. destruct (fst (round_pair a 1 e)); try discriminate.
  destruct (snd _ <=? _); try discriminate. injection P as <- _ _. reflexivity.
Qed.

(** One event of the policy *)

Lemma mul_floats (d f : pynum) (p : spec_float) :
  PyNum.mul d f = Ret (PyFloat p) ->
  exists x y, to_float d = Ret x /\ to_float f = Ret y /\
              p = SFmul PyNum.prec PyNum.emax x y /\
              (forall n, d = PyInt n -> exists y', f = PyFloat y') /\
              (forall n, f = PyInt n -> exists x', d = PyFloat x').
Proof.
  destruct d as [m|x], f as [n|y]; simpl.
  - discriminate.
  - destruct (PyNum.float_of_int m) as [x| |] eqn:F; simpl; try discriminate.
    intros H. injection H as <-. exists x, y. repeat split; eauto; discriminate.
  - destruct (PyNum.float_of_int n) as [y| |] eqn:F; simpl; try discriminate.
    intros H. injection H as <-. exists x, y. repeat split; eauto; discriminate.
  - intros H. injection H as <-. exists x, y. repeat split; eauto; discriminate.
Qed.

(** One rate-limit event under a factor of at least one: the new time is
    not below the old one rounded to two decimals, and is again a time
    that is not negative. *)
Lemma cool_off_step_not_below (d f : pynum) (x y : spec_float) :
  duration_ok d -> factor_ok f ->
  to_float d = Ret x ->
  cool_off_after 1 d f = Ret (PyFloat y) ->
  SFleb (PyNum.float_round2 x) y = true /\
  (PyNum.float_round2 x = x -> SFleb x y = true) /\
  duration_ok (PyFloat y).
Proof.
  intros Hd Hf Tx H. cbn [cool_off_after] in H.
  destruct (PyNum.mul d f) as [p| |] eqn:M; simpl in H; try discriminate.
  injection H as H. destruct p as [z|p]; simpl in H; [discriminate|].
  injection H as <-.
  destruct (mul_floats d f p M) as (x' & y' & Tx' & Ty & -> & _).
  rewrite Tx in Tx'. injection Tx' as <-.
  assert (Dx : valid_binary PyNum.prec PyNum.emax x = true /\
               SFleb (S754_zero false) x = true).
  { destruct d as [n|x0]; simpl in Tx, Hd.
    - eapply float_of_int_nonneg; eassumption.
    - injection Tx as <-. exact Hd. }
  assert (Fy : valid_binary PyNum.prec PyNum.emax y' = true /\
               SFleb float_one y' = true /\ SFltb y' (S754_infinity false) = true).
  { destruct f as [n|y0]; simpl in Ty, Hf.
    - eapply float_of_int_at_least_one; eassumption.
    - injection Ty as <-. exact Hf. }
  destruct Dx as (Vx & Nx). destruct Fy as (Vy & Oy & Iy).
  destruct (float_step_not_below x y' Vx Nx Vy Oy Iy) as (S1 & S2 & S3).
  split; [exact S1|]. split; [|split; assumption].
  intros R. rewrite R in S1. exact S1.
Qed.

End FloatRounding.

Section Proofs.

Variable L : pylib.

Lemma checknetloc_not_timeout (n : string) : Urllib.checknetloc L n <> Timeout.
Proof.
  unfold Urllib.checknetloc. destruct n; [discriminate|].
  destruct (PyStr.isascii _); [discriminate|].
  destruct (nfkc_netloc_ok L _); discriminate.
Qed.

Lemma urlparse_not_timeout (url sch : string) : Urllib.urlparse L url sch <> Timeout.
Proof.
  unfold Urllib.urlparse, obind.
  repeat break_match; try discriminate;
    try (exfalso; eapply checknetloc_not_timeout; eassumption).
  match goal with
  | H : _ = Timeout |- _ => repeat break_match_in H; discriminate
  end.
Qed.

Lemma filter_body_not_timeout (link : string) : filter_body L link <> Timeout.
Proof.
  unfold filter_body, obind.
  repeat break_match; try discriminate;
    repeat match goal with
           | H : Urllib.urlparse L _ _ = Timeout |- _ =>
               exfalso; exact (urlparse_not_timeout _ _ H)
           | H : Urllib.getitem _ _ = Timeout |- _ =>
               exfalso; exact (getitem_not_timeout _ _ H)
           | H : Urllib.first _ = Timeout |- _ =>
               exfalso; exact (first_not_timeout _ H)
           | H : _ = Timeout |- _ => repeat break_match_in H; try discriminate
           end.
Qed.

(** ** The link filter *)

Lemma filter_returns (link : string) :
  exists r : option string, filter_search_result_urls L link = Ret r.
Proof.
  pose proof (filter_body_not_timeout link) as H.
  unfold filter_search_result_urls.
  destruct (filter_body L link) as [l|e|]; try congruence; eauto.
Qed.

(** C8: [filter_search_result_urls] never lets an exception out: on every
    input string it returns, and what it returns is the link computed by
    its [try] block when the block ends normally and [None] when the block
    raises, whatever it raises. *)
Theorem filter_search_result_urls_never_raises (link : string) :
  (exists r : option string, filter_search_result_urls L link = Ret r) /\
  filter_search_result_urls L link =
    match filter_body L link with
    | Ret l => Ret l
    | _ => Ret None
    end.
Proof.
  split; [apply filter_returns|].
  pose proof (filter_body_not_timeout link) as H.
  unfold filter_search_result_urls.
  destruct (filter_body L link) as [l|e|]; congruence.
Qed.

(** C5: the four links of the specification: the [q] parameter of a
    redirect wrapper, the [url] parameter when there is no [q], a host that
    contains the provider's name, and a relative path without host. *)
Theorem filter_search_result_urls_examples :
  filter_search_result_urls L "/url?q=https://example.com/page&sa=U"
    = Ret (Some "https://example.com/page") /\
  filter_search_result_urls L "/url?url=https://example.org"
    = Ret (Some "https://example.org") /\
  filter_search_result_urls L "https://accounts.google.com/foo" = Ret None /\
  filter_search_result_urls L "relative/path" = Ret None.
Proof. repeat split; vm_compute; reflexivity. Qed.

(** Why the last two are rejected: the host of the third contains
    [google], and the fourth has no host at all. *)
Lemma filter_examples_reasons :
  (exists po, Urllib.urlparse L "https://accounts.google.com/foo" "http" = Ret po /\
              Urllib.netloc po = "accounts.google.com" /\
              PyStr.contains "google" (PyStr.lower (Urllib.netloc po)) = true) /\
  (exists po, Urllib.urlparse L "relative/path" "http" = Ret po /\
              Urllib.netloc po = "").
Proof.
  split; eexists; (split; [vm_compute; reflexivity|]); repeat split.
Qed.

(** The [try] block does raise: a wrapper with neither [q] nor [url] ends
    in [KeyError], an unbalanced bracket in the host in [ValueError]; the
    filter turns both into [None]. *)
Lemma filter_body_raises :
  filter_body L "/url?sa=U" = Raise (KeyError "url") /\
  filter_search_result_urls L "/url?sa=U" = Ret None /\
  filter_body L "//[example/" = Raise (ValueError "Invalid IPv6 URL") /\
  filter_search_result_urls L "//[example/" = Ret None.
Proof. repeat split; vm_compute; reflexivity. Qed.

(** ** Frame properties of [get_page] *)

Lemma float_of_int_not_timeout (n : Z) : PyNum.float_of_int n <> Timeout.
Proof. unfold PyNum.float_of_int. destruct (binary_normalize _ _ _ _ _); discriminate. Qed.

Lemma mul_not_timeout (a b : pynum) : PyNum.mul a b <> Timeout.
Proof.
  destruct a as [m|x], b as [n|y]; simpl; try discriminate.
  - pose proof (float_of_int_not_timeout m).
    destruct (PyNum.float_of_int m); simpl; congruence.
  - pose proof (float_of_int_not_timeout n).
    destruct (PyNum.float_of_int n); simpl; congruence.
Qed.

Lemma http_429_detected_not_timeout (c : SearchClient) : http_429_detected c <> Timeout.
Proof.
  unfold http_429_detected.
  pose proof (mul_not_timeout (http_429_cool_off_time_in_minutes c) (http_429_cool_off_factor c)).
  destruct (PyNum.mul _ _); simpl; congruence.
Qed.

Lemma consent_cookies_total (jar : dict) : exists r, consent_cookies jar = Ret r.
Proof.
  unfold consent_cookies.
  destruct (Urllib.getitem jar "CONSENT") as [v|e|] eqn:G.
  - destruct (PyStr.startswith v "PENDING+") eqn:P; [|eauto].
    apply startswith_app in P. destruct P as [r ->]. simpl.
    pose proof (split_not_nil "+" r) as N.
    destruct (PyStr.split "+" r); [congruence|eauto].
  - apply getitem_raise in G. subst e. eauto.
  - exfalso. exact (getitem_not_timeout _ _ G).
Qed.


Lemma get_page_frame_refl (c : SearchClient) : get_page_frame c c.
Proof.
  exists (http_429_cool_off_time_in_minutes c), (cookies c). destruct c; reflexivity.
Qed.

Lemma get_page_frame_trans (c1 c2 c3 : SearchClient) :
  get_page_frame c1 c2 -> get_page_frame c2 c3 -> get_page_frame c1 c3.
Proof.
  intros (d & k & ->) (d' & k' & ->). exists d', k'. destruct c1; reflexivity.
Qed.

Lemma get_page_frame_cookies (c : SearchClient) (k : option dict) :
  get_page_frame c (set_cookies c k).
Proof. exists (http_429_cool_off_time_in_minutes c), k. destruct c; reflexivity. Qed.

Lemma http_429_detected_frame (c c' : SearchClient) :
  http_429_detected c = Ret c' -> get_page_frame c c'.
Proof.
  unfold http_429_detected. destruct (PyNum.mul _ _) as [p|e|]; simpl; try discriminate.
  intros H. injection H as <-. exists (PyNum.round2 p), (cookies c).
  destruct c; reflexivity.
Qed.

Lemma get_page_aux_props (sc : list exchange) :
  forall url c w r c' w',
    get_page_aux L sc url c w = (r, c', w') -> script w = sc ->
    r <> Timeout /\
    get_page_frame c c' /\
    draws w' = draws w /\
    (exists used, sc = (used ++ script w')%list /\
                  forall html, r = Ret html -> used <> []) /\
    (exists evs, trace w' = (trace w ++ EvGet url (cookies c) (user_agent c) :: evs)%list).
Proof.
  induction sc as [|x rest IH]; intros url c w r c' w' H Hs.
  - simpl in H. inversion H; subst. simpl.
    repeat split; try discriminate.
    + apply get_page_frame_refl.
    + exists []. rewrite Hs. split; [reflexivity|discriminate].
    + solve_trace.
  - simpl in H. destruct x as [code jar body|e].
    + destruct (consent_cookies_total jar) as [consent Hc]. rewrite Hc in H.
      set (c1 := match consent with
                 | Some yes => set_cookies (set_cookies c (Some jar)) (Some yes)
                 | None => set_cookies c (Some jar)
                 end).
      assert (F1 : get_page_frame c c1).
      { subst c1. destruct consent.
        - eapply get_page_frame_trans; apply get_page_frame_cookies.
        - apply get_page_frame_cookies. }
      destruct consent as [yes|]; fold c1 in H;
        (destruct (code =? 200)%Z;
         [inversion H; subst; simpl; repeat split;
          [discriminate | exact F1 | exists [Response code jar body]; split;
             [reflexivity|discriminate] | solve_trace]|]);
        (destruct (code =? 429)%Z;
         [|inversion H; subst; simpl; repeat split;
          [discriminate | exact F1 | exists [Response code jar body]; split;
             [reflexivity|discriminate] | solve_trace]]).
      all: replace (yagooglesearch_manages_http_429s _)
             with (yagooglesearch_manages_http_429s c) in H by (destruct c; reflexivity).
      all: destruct (yagooglesearch_manages_http_429s c); simpl in H;
        [|inversion H; subst; simpl; repeat split;
          [discriminate | exact F1 | exists [Response code jar body]; split;
             [reflexivity|discriminate] | solve_trace]].
      all: match type of H with
           | context [PyNum.mul ?a ?b] =>
               pose proof (mul_not_timeout a b) as Hm; destruct (PyNum.mul a b) as [secs|e|];
               [|inversion H; subst; simpl; repeat split;
                 [discriminate | exact F1 | exists [Response code jar body]; split;
                    [reflexivity|discriminate] | solve_trace]
                |congruence]
           end.
      all: destruct (time_sleep_error L secs);
        [inversion H; subst; simpl; repeat split;
          [discriminate | exact F1 | exists [Response code jar body]; split;
             [reflexivity|discriminate] | solve_trace]|].
      all: match type of H with
           | context [http_429_detected ?x] =>
               pose proof (http_429_detected_not_timeout x) as Hn;
               pose proof (http_429_detected_frame x) as Hf;
               destruct (http_429_detected x) as [c2|e|];
               [|inversion H; subst; simpl; repeat split;
                 [discriminate | exact F1 | exists [Response code jar body]; split;
                    [reflexivity|discriminate] | solve_trace]
                |congruence]
           end.
      all: apply IH in H; [|reflexivity];
        destruct H as (H1 & H2 & H3 & (used & H4 & H5) & (evs & H6));
        repeat split;
        [exact H1
        |eapply get_page_frame_trans; [exact F1|];
         eapply get_page_frame_trans; [apply Hf; reflexivity|exact H2]
        |rewrite H3; reflexivity
        |exists (Response code jar body :: used); split;
         [simpl; rewrite <- H4; reflexivity|discriminate]
        |rewrite H6; solve_trace].
    + inversion H; subst; simpl. repeat split; try discriminate.
      * apply get_page_frame_refl.
      * exists [Fails e]. split; [reflexivity|discriminate].
      * solve_trace.
Qed.

(** ** The loop over the anchors of a page *)

Lemma set_search_result_list_same (c : SearchClient) :
  set_search_result_list c (search_result_list c) = c.
Proof. destruct c; reflexivity. Qed.

Lemma set_search_result_list_twice (c : SearchClient) (l l' : list result_item) :
  set_search_result_list (set_search_result_list c l) l' = set_search_result_list c l'.
Proof. destruct c; reflexivity. Qed.


Lemma process_anchors_nil (lv : locals) (c : SearchClient) (w : world) :
  process_anchors L [] lv c w = (Ret (Next lv), c, w).
Proof. reflexivity. Qed.

Lemma process_anchors_no_href (a : Tag) (rest : list Tag) (lv : locals)
  (c : SearchClient) (w : world) :
  href a = None ->
  process_anchors L (a :: rest) lv c w =
    match link lv with
    | None =>
        (Raise (UnboundLocalError
                  "cannot access local variable 'link' where it is not associated with a value"),
         c, w)
    | Some l =>
        process_anchors L rest lv c
          (logged w WARNING ("No href for link: " ++ format_link l))
    end.
Proof. intros H. simpl. rewrite H. reflexivity. Qed.

Lemma process_anchors_filtered (a : Tag) (rest : list Tag) (lv : locals)
  (c : SearchClient) (w : world) (h : string) (r : option string) :
  href a = Some h ->
  filter_search_result_urls L h = Ret r ->
  r = None \/ r = Some EmptyString ->
  process_anchors L (a :: rest) lv c w = process_anchors L rest (set_link lv r) c w.
Proof.
  intros H F [->| ->]; simpl; rewrite H, F; reflexivity.
Qed.

Lemma process_anchors_accepted (a : Tag) (rest : list Tag) (lv : locals)
  (c : SearchClient) (w : world) (h u : string) :
  href a = Some h ->
  filter_search_result_urls L h = Ret (Some u) ->
  u <> EmptyString ->
  exists w1,
    script w1 = script w /\ draws w1 = draws w /\ trace w1 = trace w /\
    process_anchors L (a :: rest) lv c w =
      let '(lv1, c1) := accept_link a u lv c in
      if (max_search_result_urls_to_return c1
          <=? Z.of_nat (List.length (search_result_list c1)))%Z
      then (Ret (Return (search_result_list c1)), c1, w1)
      else process_anchors L rest lv1 c1 w1.
Proof.
  intros H F N. simpl. rewrite H, F.
  destruct u as [|x u]; [congruence|].
  unfold accept_link.
  destruct (verbose_output c) eqn:V.
  - destruct (description_of a) as [d|] eqn:D.
    + exists w. repeat split;
        try (destruct (negb (py_in _ _)); simpl; reflexivity).
    + eexists (logged w WARNING _). repeat split;
        try (destruct (negb (py_in _ _)); simpl; reflexivity).
  - exists w. repeat split;
      try (destruct (negb (py_in _ _)); simpl; reflexivity).
Qed.

(** Every anchor falls in one of the three cases. *)
Lemma anchor_cases (a : Tag) :
  href a = None \/
  (exists h r, href a = Some h /\ filter_search_result_urls L h = Ret r /\
               (r = None \/ r = Some EmptyString)) \/
  (exists h u, href a = Some h /\ filter_search_result_urls L h = Ret (Some u) /\
               u <> EmptyString).
Proof.
  destruct (href a) as [h|]; [|left; reflexivity]. right.
  destruct (filter_returns h) as [r Hr].
  destruct r as [[|x u]|].
  - left. exists h, (Some EmptyString). auto.
  - right. exists h, (String x u). repeat split; auto; discriminate.
  - left. exists h, None. auto.
Qed.

(** The loop touches neither the network nor the random draws, and it
    never runs out of fuel. *)
Lemma process_anchors_world (anchors : list Tag) :
  forall lv c w r c' w',
    process_anchors L anchors lv c w = (r, c', w') ->
    r <> Timeout /\ script w' = script w /\ draws w' = draws w /\ trace w' = trace w.
Proof.
  induction anchors as [|a rest IH]; intros lv c w r c' w' H.
  - rewrite process_anchors_nil in H. inversion H; subst.
    repeat split; discriminate.
  - destruct (anchor_cases a) as [E|[(h & f & E & F & N)|(h & u & E & F & N)]].
    + rewrite (process_anchors_no_href _ _ _ _ _ E) in H.
      destruct (link lv).
      * apply IH in H. exact H.
      * inversion H; subst. repeat split; discriminate.
    + rewrite (process_anchors_filtered _ _ _ _ _ _ _ E F N) in H.
      apply IH in H. exact H.
    + destruct (process_anchors_accepted a rest lv c w _ _ E F N)
        as (w1 & S1 & D1 & T1 & Eq).
      rewrite Eq in H. clear Eq.
      destruct (accept_link a u lv c) as [lv1 c1].
      destruct (_ <=? _)%Z.
      * inversion H; subst. repeat split; try discriminate; assumption.
      * apply IH in H. destruct H as (H1 & H2 & H3 & H4).
        repeat split; congruence.
Qed.

(** An invariant of the loop: it is kept by rebinding [link] and by every
    accepted link after which the loop goes on. When the loop ends or
    raises, the invariant holds; when [search] returns from inside it, the
    returned list is the one just extended from a state where the invariant
    held. *)
Lemma process_anchors_invariant (Inv : locals -> SearchClient -> Prop) :
  (forall lv c l, Inv lv c -> Inv (set_link lv l) c) ->
  (forall a u lv c lv1 c1,
      Inv lv c -> u <> EmptyString ->
      (exists h, filter_search_result_urls L h = Ret (Some u)) ->
      accept_link a u lv c = (lv1, c1) ->
      (max_search_result_urls_to_return c1
       <=? Z.of_nat (List.length (search_result_list c1)))%Z = false ->
      Inv lv1 c1) ->
  forall anchors lv c w r c' w',
    Inv lv c ->
    process_anchors L anchors lv c w = (r, c', w') ->
    match r with
    | Ret (Next lv') => Inv lv' c'
    | Ret (Return l) => returned_at_cap L Inv l c'
    | Raise _ => exists lv', Inv lv' c'
    | Timeout => True
    end.
Proof.
  intros Hlink Hacc.
  induction anchors as [|a rest IH]; intros lv c w r c' w' HI H.
  - rewrite process_anchors_nil in H. inversion H; subst. exact HI.
  - destruct (anchor_cases a) as [E|[(h & f & E & F & N)|(h & u & E & F & N)]].
    + rewrite (process_anchors_no_href _ _ _ _ _ E) in H.
      destruct (link lv).
      * eapply IH; eassumption.
      * inversion H; subst. exists lv. exact HI.
    + rewrite (process_anchors_filtered _ _ _ _ _ _ _ E F N) in H.
      eapply IH; [|eassumption]. apply Hlink. exact HI.
    + destruct (process_anchors_accepted a rest lv c w _ _ E F N)
        as (w1 & S1 & D1 & T1 & Eq).
      rewrite Eq in H. clear Eq.
      destruct (accept_link a u lv c) as [lv1 c1] eqn:A.
      destruct (_ <=? _)%Z eqn:C.
      * inversion H; subst.
        exists a, u, lv, c, lv1. repeat split; eauto.
      * eapply IH; [|eassumption]. eapply Hacc; eauto.
Qed.

(** ** The loop over the pages *)

Lemma search_loop_invariant_gen (G : SearchClient -> SearchClient -> Prop)
  (Inv : locals -> SearchClient -> Prop) :
  (forall url c w r c' w', get_page L url c w = (r, c', w') -> G c c') ->
  (forall lv c c', Inv lv c -> G c c' -> Inv lv c') ->
  (forall lv c l, Inv lv c -> Inv (set_link lv l) c) ->
  (forall a u lv c lv1 c1,
      Inv lv c -> u <> EmptyString ->
      (exists h, filter_search_result_urls L h = Ret (Some u)) ->
      accept_link a u lv c = (lv1, c1) ->
      (max_search_result_urls_to_return c1
       <=? Z.of_nat (List.length (search_result_list c1)))%Z = false ->
      Inv lv1 c1) ->
  (forall lv c, Inv lv c ->
      Inv (mkLocals (total_valid_links_found lv) 0 (link lv)) c) ->
  (forall lv c, Inv lv c -> Inv lv (update_urls (set_start c (start c + num c)%Z))) ->
  forall fuel lv c w r c' w',
    Inv lv c ->
    search_loop L fuel lv c w = (r, c', w') ->
    match r with
    | Ret (Some l) => loop_returns L Inv l c'
    | Ret None =>
        exists lv', Inv lv' c' /\
          (total_valid_links_found lv' <=? max_search_result_urls_to_return c')%Z = false
    | Raise _ => exists lv', Inv lv' c'
    | Timeout => True
    end.
Proof.
  intros HG Hget Hlink Hacc Hreset Hnext.
  induction fuel as [|fuel IH]; intros lv c w r c' w' HI H; simpl in H.
  - inversion H; subst. exact I.
  - destruct (_ <=? _)%Z eqn:Guard.
    2:{ inversion H; subst. exists lv. split; assumption. }
    destruct (get_page L (page_url c) c w) as [[r1 c1] w1] eqn:GP.
    apply HG in GP.
    assert (HI1 : Inv lv c1) by (eapply Hget; eassumption).
    destruct r1 as [html|e|].
    + destruct (String.eqb html HTTP_429_DETECTED).
      * inversion H; subst. right. left. exists lv, c1. auto.
      * destruct (process_anchors L _ _ c1 w1) as [[r2 c2] w2] eqn:PA.
        pose proof (process_anchors_invariant Inv Hlink Hacc _ _ _ _ _ _ _
                      (Hreset _ _ HI1) PA) as P.
        destruct r2 as [[lv2|l]|e|].
        -- destruct (_ =? 0)%Z eqn:Z0.
           ++ inversion H; subst. left. exists lv2.
              apply Z.eqb_eq in Z0. auto.
           ++ destruct (random_index w2 11) as [i w3].
              destruct (time_sleep_error L _).
              ** inversion H; subst. exists lv2. apply Hnext. exact P.
              ** eapply IH; [|exact H]. apply Hnext. exact P.
        -- inversion H; subst. right. right. exact P.
        -- inversion H; subst. exact P.
        -- inversion H; subst. exact I.
    + inversion H; subst. exists lv. exact HI1.
    + inversion H; subst. exact I.
Qed.

Lemma get_page_frame_holds (url : string) (c : SearchClient) (w : world)
  (r : outcome string) (c' : SearchClient) (w' : world) :
  get_page L url c w = (r, c', w') -> get_page_frame c c'.
Proof.
  unfold get_page. intros GP.
  apply get_page_aux_props in GP; [|reflexivity]. tauto.
Qed.

Lemma search_loop_invariant (Inv : locals -> SearchClient -> Prop) :
  (forall lv c c', Inv lv c -> get_page_frame c c' -> Inv lv c') ->
  (forall lv c l, Inv lv c -> Inv (set_link lv l) c) ->
  (forall a u lv c lv1 c1,
      Inv lv c -> u <> EmptyString ->
      (exists h, filter_search_result_urls L h = Ret (Some u)) ->
      accept_link a u lv c = (lv1, c1) ->
      (max_search_result_urls_to_return c1
       <=? Z.of_nat (List.length (search_result_list c1)))%Z = false ->
      Inv lv1 c1) ->
  (forall lv c, Inv lv c ->
      Inv (mkLocals (total_valid_links_found lv) 0 (link lv)) c) ->
  (forall lv c, Inv lv c -> Inv lv (update_urls (set_start c (start c + num c)%Z))) ->
  forall fuel lv c w r c' w',
    Inv lv c ->
    search_loop L fuel lv c w = (r, c', w') ->
    match r with
    | Ret (Some l) => loop_returns L Inv l c'
    | Ret None =>
        exists lv', Inv lv' c' /\
          (total_valid_links_found lv' <=? max_search_result_urls_to_return c')%Z = false
    | Raise _ => exists lv', Inv lv' c'
    | Timeout => True
    end.
Proof.
  intros Hget. apply (search_loop_invariant_gen get_page_frame Inv get_page_frame_holds Hget).
Qed.

(** Fuel: every iteration that goes on has consumed an exchange, so one
    unit more than the length of the script is never used up. *)
Lemma search_loop_fuel :
  forall fuel lv c w,
    (List.length (script w) < fuel)%nat ->
    fst (fst (search_loop L fuel lv c w)) <> Timeout.
Proof.
  induction fuel as [|fuel IH]; intros lv c w Hf; [lia|]. simpl.
  destruct (_ <=? _)%Z; [|discriminate].
  unfold get_page.
  destruct (get_page_aux L (script w) (page_url c) c w) as [[r1 c1] w1] eqn:GP.
  apply get_page_aux_props in GP; [|reflexivity].
  destruct GP as (NT & _ & _ & (used & Hu & Hne) & _).
  destruct r1 as [html|e|]; simpl; try discriminate; try congruence.
  destruct (String.eqb html HTTP_429_DETECTED); [discriminate|].
  destruct (process_anchors L _ _ c1 w1) as [[r2 c2] w2] eqn:PA.
  apply process_anchors_world in PA. destruct PA as (NT2 & S2 & D2 & T2).
  destruct r2 as [[lv2|l]|e|]; simpl; try discriminate; try congruence.
  destruct (_ =? 0)%Z; [discriminate|].
  unfold random_index.
  assert (Hlen : (List.length (script w2) < fuel)%nat).
  { rewrite S2. specialize (Hne html eq_refl).
    rewrite Hu in Hf. rewrite length_app in Hf.
    destruct used; [congruence|]. simpl in Hf. lia. }
  destruct (draws w2) as [|d ds].
  - destruct (time_sleep_error L _); [discriminate|]. apply IH. exact Hlen.
  - destruct (time_sleep_error L _); [discriminate|]. apply IH. exact Hlen.
Qed.

Lemma search_unfold (c : SearchClient) (w : world) :
  search L c w =
    match check_extra_params (url_parameters c) (extra_items (search_start c)) with
    | Raise e => (Raise e, search_start c, w)
    | Timeout => (Timeout, search_start c, w)
    | Ret _ =>
        match get_page L (url_home c) (search_start c) w with
        | (Raise e, c1, w1) => (Raise e, c1, w1)
        | (Timeout, c1, w1) => (Timeout, c1, w1)
        | (Ret _, c1, w1) =>
            search_loop L (S (List.length (script w1))) (mkLocals 0 0 None) c1 w1
        end
    end.
Proof.
  unfold search, search_start, extra_items, items_of.
  destruct c; simpl. destruct extra_params0 as [[|kv d]|]; reflexivity.
Qed.

Lemma check_extra_params_not_timeout (ps : list string) (d : dict) :
  check_extra_params ps d <> Timeout.
Proof.
  induction ps as [|p ps IH]; simpl; [discriminate|].
  destruct (existsb _ _); [discriminate|exact IH].
Qed.

(** [search] always ends: with a value or with an exception. *)
Lemma search_never_times_out (c : SearchClient) (w : world) :
  fst (fst (search L c w)) <> Timeout.
Proof.
  rewrite search_unfold.
  pose proof (check_extra_params_not_timeout (url_parameters c)
                (extra_items (search_start c))) as NT.
  destruct (check_extra_params _ _); simpl; try discriminate; try congruence.
  unfold get_page.
  destruct (get_page_aux L (script w) (url_home c) (search_start c) w)
    as [[r1 c1] w1] eqn:GP.
  apply get_page_aux_props in GP; [|reflexivity].
  destruct GP as (NT1 & _).
  destruct r1 as [html|e|]; [|simpl; discriminate|congruence].
  exact (search_loop_fuel (S (List.length (script w1))) (mkLocals 0 0 None) c1 w1
           (Nat.lt_succ_diag_r _)).
Qed.

(** The trace only grows and the script is only consumed. *)
Lemma search_loop_world :
  forall fuel lv c w r c' w',
    search_loop L fuel lv c w = (r, c', w') ->
    (exists evs, trace w' = (trace w ++ evs)%list) /\
    (exists used, script w = (used ++ script w')%list).
Proof.
  induction fuel as [|fuel IH]; intros lv c w r c' w' H; simpl in H.
  - inversion H; subst. split; [exists []; rewrite app_nil_r|exists []]; reflexivity.
  - destruct (_ <=? _)%Z.
    2:{ inversion H; subst.
        split; [exists []; rewrite app_nil_r|exists []]; reflexivity. }
    unfold get_page in H.
    destruct (get_page_aux L (script w) (page_url c) c w) as [[r1 c1] w1] eqn:GP.
    apply get_page_aux_props in GP; [|reflexivity].
    destruct GP as (_ & _ & _ & (used & Hu & _) & (evs & He)).
    assert (base : (exists evs0, trace w1 = (trace w ++ evs0)%list) /\
                   (exists used0, script w = (used0 ++ script w1)%list)).
    { split; [rewrite He; eexists; reflexivity|exists used; exact Hu]. }
    destruct r1 as [html|e|]; try (inversion H; subst; exact base).
    destruct (String.eqb html HTTP_429_DETECTED);
      [inversion H; subst; exact base|].
    destruct (process_anchors L _ _ c1 w1) as [[r2 c2] w2] eqn:PA.
    apply process_anchors_world in PA. destruct PA as (_ & S2 & D2 & T2).
    assert (base2 : (exists evs0, trace w2 = (trace w ++ evs0)%list) /\
                    (exists used0, script w = (used0 ++ script w2)%list)).
    { rewrite S2, T2. exact base. }
    destruct r2 as [[lv2|l]|e|]; try (inversion H; subst; exact base2).
    destruct (_ =? 0)%Z; [inversion H; subst; exact base2|].
    assert (base3 : forall w3, w3 = snd (random_index w2 11) ->
              (exists evs0, trace w3 = (trace w ++ evs0)%list) /\
              (exists used0, script w = (used0 ++ script w3)%list)).
    { intros w3 ->. unfold random_index. destruct (draws w2); exact base2. }
    destruct (random_index w2 11) as [i w3].
    specialize (base3 w3 eq_refl).
    destruct (time_sleep_error L _); [inversion H; subst; exact base3|].
    apply IH in H. destruct H as ((evs1 & H1) & (used1 & H2)).
    destruct base3 as ((evs0 & B1) & (used0 & B2)). simpl in H1, H2.
    split.
    + rewrite H1, B1. repeat rewrite <- app_assoc. eexists; reflexivity.
    + rewrite B2, H2. rewrite app_assoc. eexists; reflexivity.
Qed.

Lemma search_loop_S (fuel : nat) (lv : locals) (c : SearchClient) (w : world) :
  search_loop L (S fuel) lv c w =
    if (total_valid_links_found lv <=? max_search_result_urls_to_return c)%Z then
      match get_page L (page_url c) c w with
      | (Raise e, c, w) => (Raise e, c, w)
      | (Timeout, c, w) => (Timeout, c, w)
      | (Ret html, c, w) =>
          if String.eqb html HTTP_429_DETECTED then
            (Ret (Some (search_result_list c ++ [ItemStr HTTP_429_DETECTED])%list),
             set_search_result_list c
               (search_result_list c ++ [ItemStr HTTP_429_DETECTED])%list, w)
          else
            match process_anchors L (anchors_of (BeautifulSoup L html))
                    (mkLocals (total_valid_links_found lv) 0 (link lv)) c w with
            | (Raise e, c, w) => (Raise e, c, w)
            | (Timeout, c, w) => (Timeout, c, w)
            | (Ret (Return l), c, w) => (Ret (Some l), c, w)
            | (Ret (Next lv), c, w) =>
                if (valid_links_found_in_this_search lv =? 0)%Z
                then (Ret (Some (search_result_list c)), c, w)
                else
                  let c := update_urls (set_start c (start c + num c)%Z) in
                  let '(i, w) := random_index w 11 in
                  let random_sleep_time :=
                    PyInt (minimum_delay_between_paged_results_in_seconds c
                           + Z.of_nat i) in
                  match time_sleep_error L random_sleep_time with
                  | Some e => (Raise e, c, w)
                  | None => search_loop L fuel lv c (emit w (EvSleep random_sleep_time))
                  end
            end
      end
    else (Ret None, c, w).
Proof. reflexivity. Qed.

Arguments search_loop : simpl never.

(** ** What the methods leave unchanged *)

Lemma settings_get_page_frame (c c' : SearchClient) :
  get_page_frame c c' -> settings c' = settings c.
Proof. intros (d & k & ->). destruct c; reflexivity. Qed.

Lemma settings_accept_link (a : Tag) (u : string) (lv lv1 : locals)
  (c c1 : SearchClient) :
  accept_link a u lv c = (lv1, c1) -> settings c1 = settings c.
Proof.
  unfold accept_link. destruct (negb _); intros H; injection H as _ <-;
    destruct c; reflexivity.
Qed.

Lemma settings_search_start (c : SearchClient) : settings (search_start c) = settings c.
Proof. destruct c as []. unfold search_start; simpl. destruct extra_params0 as [[|kv d]|]; reflexivity. Qed.

Lemma search_loop_settings (fuel : nat) (lv : locals) (c : SearchClient) (w : world) :
  fst (fst (search_loop L fuel lv c w)) <> Timeout ->
  settings (snd (fst (search_loop L fuel lv c w))) = settings c.
Proof.
  destruct (search_loop L fuel lv c w) as [[r c'] w'] eqn:H. simpl. intros NT.
  pose proof (search_loop_invariant (fun _ x => settings x = settings c)) as P.
  specialize (P (fun lv0 c0 c1 I F => eq_trans (settings_get_page_frame _ _ F) I)).
  specialize (P (fun lv0 c0 l I => I)).
  specialize (P (fun a u lv0 c0 lv1 c1 I _ _ A _ =>
                   eq_trans (settings_accept_link _ _ _ _ _ _ A) I)).
  specialize (P (fun lv0 c0 I => I)).
  assert (N : forall (lv0 : locals) c0, settings c0 = settings c ->
                settings (update_urls (set_start c0 (start c0 + num c0)%Z)) = settings c).
  { intros lv0 c0 <-. destruct c0; reflexivity. }
  specialize (P N fuel lv c w r c' w' eq_refl H).
  destruct r as [[l|]|e|]; try congruence.
  - destruct P as [(lv' & I & _)|[(lv0 & c0 & I & -> & _)|(a & u & lv0 & c0 & lv1 & I & _ & _ & A & _)]].
    + exact I.
    + rewrite <- I. destruct c0; reflexivity.
    + rewrite <- I. eapply settings_accept_link. exact A.
  - destruct P as (lv' & I & _). exact I.
  - destruct P as (lv' & I). exact I.
Qed.

Lemma get_page_settings (url : string) (c : SearchClient) (w : world) :
  settings (snd (fst (get_page L url c w))) = settings c.
Proof.
  unfold get_page.
  destruct (get_page_aux L (script w) url c w) as [[r c'] w'] eqn:GP.
  apply get_page_aux_props in GP; [|reflexivity].
  destruct GP as (_ & F & _). simpl. apply settings_get_page_frame. exact F.
Qed.

Lemma search_settings (c : SearchClient) (w : world) :
  settings (snd (fst (search L c w))) = settings c.
Proof.
  pose proof (search_never_times_out c w) as NT.
  rewrite search_unfold in *.
  destruct (check_extra_params _ _); simpl; try apply settings_search_start.
  pose proof (get_page_settings (url_home c) (search_start c) w) as G.
  destruct (get_page L (url_home c) (search_start c) w) as [[r1 c1] w1].
  simpl in G. rewrite settings_search_start in G.
  destruct r1 as [html|e|]; try exact G.
  rewrite <- G. apply search_loop_settings. exact NT.
Qed.

(** ** The constructor *)

Lemma assign_random_user_agent_log (w w' : world) (r : outcome string) :
  assign_random_user_agent L w = (r, w') -> log w' = log w.
Proof.
  unfold assign_random_user_agent, random_index. intros H.
  break_hyps; reflexivity.
Qed.

Lemma init_fields (a : init_args) (w0 w1 : world) (c : SearchClient) :
  init L a w0 = (Ret c, w1) ->
  num c = (if (arg_num a >? 100)%Z then 100%Z else arg_num a) /\
  url_parameters c = builtin_url_parameters /\
  extra_params c = arg_extra_params a /\
  max_search_result_urls_to_return c = arg_max_search_result_urls_to_return a /\
  verbose_output c = arg_verbose_output a /\
  yagooglesearch_manages_http_429s c = arg_yagooglesearch_manages_http_429s a /\
  http_429_cool_off_time_in_minutes c = arg_http_429_cool_off_time_in_minutes a /\
  http_429_cool_off_factor c = arg_http_429_cool_off_factor a /\
  start c = arg_start a.
Proof.
  intros H. init_cases H EA; simpl; repeat split; reflexivity.
Qed.

Lemma init_num_warning (a : init_args) (w0 w1 : world) (c : SearchClient) :
  init L a w0 = (Ret c, w1) ->
  (arg_num a >? 100)%Z = true -> In num_warning (log w1).
Proof.
  intros H G. init_cases H EA; try discriminate;
    match goal with
    | |- In _ (log ?w) =>
        assert (K : exists w2, log w = log w2 /\ In num_warning (log w2));
        [|destruct K as (w2 & -> & K); exact K]
    end.
  - destruct (arg_user_agent a) as [[|x ua']|];
      try (apply assign_random_user_agent_log in EA);
      try (inversion EA; subst);
      (eexists; split; [try eassumption; reflexivity|]);
      destruct (400 <? _)%Z; simpl; repeat rewrite in_app_iff; simpl;
      unfold num_warning; tauto.
  - destruct (arg_user_agent a) as [[|x ua']|];
      try (apply assign_random_user_agent_log in EA);
      try (inversion EA; subst);
      (eexists; split; [try eassumption; reflexivity|]);
      destruct (400 <? _)%Z; simpl; repeat rewrite in_app_iff; simpl;
      unfold num_warning; tauto.
Qed.

Lemma settings_num (c c' : SearchClient) : settings c' = settings c -> num c' = num c.
Proof. unfold settings. intros H. congruence. Qed.

Lemma settings_max (c c' : SearchClient) :
  settings c' = settings c ->
  max_search_result_urls_to_return c' = max_search_result_urls_to_return c.
Proof. unfold settings. intros H. congruence. Qed.

Lemma settings_verbose (c c' : SearchClient) :
  settings c' = settings c -> verbose_output c' = verbose_output c.
Proof. unfold settings. intros H. congruence. Qed.

Lemma settings_manages (c c' : SearchClient) :
  settings c' = settings c ->
  yagooglesearch_manages_http_429s c' = yagooglesearch_manages_http_429s c.
Proof. unfold settings. intros H. congruence. Qed.

Lemma settings_factor (c c' : SearchClient) :
  settings c' = settings c -> http_429_cool_off_factor c' = http_429_cool_off_factor c.
Proof. unfold settings. intros H. congruence. Qed.

(** C9: after construction [num] is at most 100: a larger argument is
    replaced by 100 and the logger is sent the warning, an argument of at
    most 100 is kept; and no method ([search], [get_page],
    [http_429_detected], [update_urls]) changes [num] afterwards. *)
Theorem num_never_above_100 (a : init_args) (w0 w1 : world) (c : SearchClient) :
  init L a w0 = (Ret c, w1) ->
  (num c <= 100)%Z /\
  ((100 < arg_num a)%Z -> num c = 100%Z /\ In num_warning (log w1)) /\
  ((arg_num a <= 100)%Z -> num c = arg_num a) /\
  (forall c2 w, num (snd (fst (search L c2 w))) = num c2) /\
  (forall c2 url w, num (snd (fst (get_page L url c2 w))) = num c2) /\
  (forall c2 c3, http_429_detected c2 = Ret c3 -> num c3 = num c2) /\
  (forall c2, num (update_urls c2) = num c2).
Proof.
  intros H.
  pose proof (init_fields a w0 w1 c H) as (N & _).
  pose proof (init_num_warning a w0 w1 c H) as W.
  destruct (arg_num a >? 100)%Z eqn:G.
  - apply Z.gtb_lt in G. repeat split; try lia; auto.
    + intros. apply settings_num, search_settings.
    + intros. apply settings_num, get_page_settings.
    + intros c2 c3 K. apply settings_num, settings_get_page_frame.
      apply http_429_detected_frame. exact K.
  - assert (arg_num a <= 100)%Z by (rewrite Z.gtb_ltb in G; apply Z.ltb_ge in G; lia).
    repeat split; try lia; auto.
    + intros. apply settings_num, search_settings.
    + intros. apply settings_num, get_page_settings.
    + intros c2 c3 K. apply settings_num, settings_get_page_frame.
      apply http_429_detected_frame. exact K.
Qed.

(** ** The collision check *)

Lemma existsb_eqb_In (p : string) (keys : list string) :
  existsb (String.eqb p) keys = true <-> In p keys.
Proof.
  rewrite existsb_exists. split.
  - intros (x & Hin & E). apply String.eqb_eq in E. subst. exact Hin.
  - intros Hin. exists p. split; [exact Hin|apply String.eqb_refl].
Qed.

Lemma check_extra_params_spec (ps : list string) (d : dict) :
  (check_extra_params ps d = Ret tt /\ forall k, In k ps -> ~ In k (map fst d)) \/
  (exists p, In p ps /\ In p (map fst d) /\
             check_extra_params ps d = Raise (ValueError (overlap_message p))).
Proof.
  induction ps as [|p ps IH]; simpl.
  - left. split; [reflexivity|tauto].
  - destruct (existsb (String.eqb p) (map fst d)) eqn:E.
    + right. exists p. apply existsb_eqb_In in E. auto.
    + destruct IH as [[H1 H2]|(q & Hq & Hk & Hc)].
      * left. split; [exact H1|]. intros k [<-|Hin].
        -- intros K. apply existsb_eqb_In in K. congruence.
        -- apply H2. exact Hin.
      * right. exists q. auto.
Qed.

Lemma extra_items_search_start (c : SearchClient) :
  extra_items (search_start c) = extra_items c.
Proof.
  destruct c. unfold extra_items, items_of, search_start; simpl.
  destruct extra_params0 as [[|kv d]|]; reflexivity.
Qed.

Lemma search_start_cookies (c : SearchClient) :
  cookies (search_start c) = cookies c /\ user_agent (search_start c) = user_agent c /\
  url_home (search_start c) = url_home c /\ search_result_list (search_start c) = [].
Proof.
  destruct c. unfold search_start; simpl.
  destruct extra_params0 as [[|kv d]|]; repeat split; reflexivity.
Qed.

Lemma page_url_frame (c c' : SearchClient) :
  get_page_frame c c' -> page_url c' = page_url c.
Proof. intros (d & k & ->). destruct c; reflexivity. Qed.

Lemma page_url_search_start (c : SearchClient) :
  page_url (search_start c) = page_url c.
Proof.
  destruct c. unfold search_start; simpl.
  destruct extra_params0 as [[|kv d]|]; reflexivity.
Qed.

(** C3: a key of the extra parameters that is one of the built-in names
    makes [search] raise the [ValueError] of the check before anything is
    requested: the environment is left as it was. When no key is a
    built-in name the check passes and the first thing [search] does is
    the request of the home page. *)
Theorem extra_params_collision (a : init_args) (w0 w1 w : world) (c : SearchClient) :
  init L a w0 = (Ret c, w1) ->
  ((exists k, In k builtin_url_parameters /\
              In k (map fst (items_of (arg_extra_params a)))) ->
   exists p, In p builtin_url_parameters /\
             In p (map fst (items_of (arg_extra_params a))) /\
             search L c w = (Raise (ValueError (overlap_message p)), search_start c, w)) /\
  ((forall k, In k builtin_url_parameters ->
              ~ In k (map fst (items_of (arg_extra_params a)))) ->
   check_extra_params (url_parameters c) (extra_items (search_start c)) = Ret tt /\
   exists evs,
     trace (snd (search L c w))
     = (trace w ++ EvGet (url_home c) (cookies c) (user_agent c) :: evs)%list).
Proof.
  intros H.
  pose proof (init_fields a w0 w1 c H) as (_ & P & X & _).
  assert (E : extra_items (search_start c)
              = items_of (arg_extra_params a)).
  { rewrite extra_items_search_start. unfold extra_items. rewrite X. reflexivity. }
  rewrite <- E. rewrite <- P.
  destruct (check_extra_params_spec (url_parameters c) (extra_items (search_start c)))
    as [[C N]|(p & Hp & Hk & C)].
  - split.
    + intros (k & Hk & Hin). exfalso. exact (N k Hk Hin).
    + intros _. split; [exact C|].
      rewrite search_unfold. rewrite C.
      destruct (search_start_cookies c) as (K1 & K2 & _).
      unfold get_page.
      destruct (get_page_aux L (script w) (url_home c) (search_start c) w)
        as [[r1 c1] w1'] eqn:GP.
      apply get_page_aux_props in GP; [|reflexivity].
      destruct GP as (_ & _ & _ & _ & (evs & T)).
      rewrite K1, K2 in T.
      destruct r1 as [html|e|]; simpl; try (exists evs; exact T).
      destruct (search_loop L _ _ c1 w1') as [[r2 c2] w2] eqn:SL.
      apply search_loop_world in SL. destruct SL as ((evs2 & T2) & _).
      simpl. rewrite T2, T. rewrite <- app_assoc. simpl. eexists. reflexivity.
  - split.
    + intros _. exists p. repeat split; auto.
      rewrite search_unfold. rewrite C. reflexivity.
    + intros N. exfalso. exact (N p Hp Hk).
Qed.

(** ** One exchange *)

(** The page that [get_page] returns for a response it does not retry. *)
Lemma get_page_single (url : string) (c : SearchClient) (w : world)
  (code : Z) (jar : dict) (body : string) (rest : list exchange) :
  script w = Response code jar body :: rest ->
  (code =? 429)%Z = false \/ yagooglesearch_manages_http_429s c = false ->
  exists c' w',
    get_page L url c w =
      (Ret (if (code =? 200)%Z then body
            else if (code =? 429)%Z then HTTP_429_DETECTED else EmptyString),
       c', w') /\
    script w' = rest /\ draws w' = draws w /\
    trace w' = (trace w ++ [EvGet url (cookies c) (user_agent c)])%list /\
    (exists k, c' = set_cookies c k).
Proof.
  intros Hs Hno. unfold get_page. rewrite Hs. simpl.
  destruct (consent_cookies_total jar) as [consent ->].
  assert (M : forall k, yagooglesearch_manages_http_429s (set_cookies c k)
                        = yagooglesearch_manages_http_429s c)
    by (intros; destruct c; reflexivity).
  assert (T : forall k k', set_cookies (set_cookies c k) k' = set_cookies c k')
    by (intros; destruct c; reflexivity).
  destruct consent as [yes|]; destruct (code =? 200)%Z;
    try (eexists; eexists; repeat split; eauto; rewrite ?T; eauto; fail);
    destruct (code =? 429)%Z;
    try (eexists; eexists; repeat split; eauto; rewrite ?T; eauto; fail);
    rewrite ?T, M; destruct Hno as [Hno|Hno]; try discriminate; rewrite Hno; simpl;
    eexists; eexists; repeat split; eauto.
Qed.

(** C2: when the session does not manage rate limits and the answer to a
    request has status 429, [get_page] returns the sentinel after that one
    request, without sleeping, without a second request and without
    touching the cool-off time; and [search], whose request of a results
    page is answered so, returns the results found so far followed by the
    sentinel: no anchor is processed and nothing more is requested. In
    particular, when the first results page is answered so, [search]
    returns the list that holds the sentinel alone, after the request of the
    home page and that of the page. *)
Theorem unmanaged_429_ends_search (c : SearchClient) (w : world)
  (jar : dict) (body : string) (rest : list exchange) :
  yagooglesearch_manages_http_429s c = false ->
  script w = Response 429 jar body :: rest ->
  (forall url, exists c' w',
      get_page L url c w = (Ret HTTP_429_DETECTED, c', w') /\
      script w' = rest /\
      trace w' = (trace w ++ [EvGet url (cookies c) (user_agent c)])%list /\
      http_429_cool_off_time_in_minutes c' = http_429_cool_off_time_in_minutes c /\
      search_result_list c' = search_result_list c) /\
  (forall fuel lv,
      (total_valid_links_found lv <= max_search_result_urls_to_return c)%Z ->
      exists c' w',
        search_loop L (S fuel) lv c w =
          (Ret (Some (search_result_list c ++ [ItemStr HTTP_429_DETECTED])%list), c', w') /\
        search_result_list c' = (search_result_list c ++ [ItemStr HTTP_429_DETECTED])%list /\
        script w' = rest /\
        trace w' = (trace w ++ [EvGet (page_url c) (cookies c) (user_agent c)])%list) /\
  (forall w0 code0 jar0 body0,
      script w0 = Response code0 jar0 body0 :: Response 429 jar body :: rest ->
      check_extra_params (url_parameters c) (extra_items (search_start c)) = Ret tt ->
      (0 <= max_search_result_urls_to_return c)%Z ->
      exists c' w' k,
        search L c w0 = (Ret (Some [ItemStr HTTP_429_DETECTED]), c', w') /\
        script w' = rest /\
        trace w' = (trace w0 ++ [EvGet (url_home c) (cookies c) (user_agent c);
                                 EvGet (page_url c) k (user_agent c)])%list).
Proof.
  intros Hm Hs. split; [|split].
  - intros url.
    destruct (get_page_single url c w 429 jar body rest Hs (or_intror Hm))
      as (c' & w' & G & S & _ & T & (k & ->)).
    exists (set_cookies c k), w'. simpl in G. repeat split; auto;
      destruct c; reflexivity.
  - intros fuel lv Hg.
    destruct (get_page_single (page_url c) c w 429 jar body rest Hs (or_intror Hm))
      as (c' & w' & G & S & _ & T & (k & ->)).
    simpl in G. rewrite search_loop_S.
    apply Z.leb_le in Hg. rewrite Hg. rewrite G.
    change (String.eqb HTTP_429_DETECTED HTTP_429_DETECTED) with true.
    cbv iota.
    replace (search_result_list (set_cookies c k)) with (search_result_list c)
      by (destruct c; reflexivity).
    eexists; eexists; repeat split; eauto.
  - intros w0 code0 jar0 body0 Hs0 Hc Hmax.
    rewrite search_unfold, Hc.
    destruct (search_start_cookies c) as (K1 & K2 & _ & E0).
    assert (Hm0 : yagooglesearch_manages_http_429s (search_start c) = false)
      by (rewrite (settings_manages _ _ (settings_search_start c)); exact Hm).
    destruct (get_page_single (url_home c) (search_start c) w0 code0 jar0 body0 _ Hs0
                (or_intror Hm0)) as (c1 & w1 & G1 & S1 & _ & T1 & (k1 & ->)).
    rewrite G1.
    assert (Hm1 : yagooglesearch_manages_http_429s (set_cookies (search_start c) k1) = false)
      by (rewrite <- Hm0; destruct (search_start c); reflexivity).
    destruct (get_page_single (page_url (set_cookies (search_start c) k1))
                (set_cookies (search_start c) k1) w1 429 jar body rest S1
                (or_intror Hm1)) as (c2 & w2 & G2 & S2 & _ & T2 & (k2 & ->)).
    simpl in G2. rewrite search_loop_S.
    assert (Hg : (total_valid_links_found (mkLocals 0 0 None)
                  <=? max_search_result_urls_to_return (set_cookies (search_start c) k1))%Z
                 = true).
    { apply Z.leb_le. simpl.
      pose proof (settings_max _ _ (settings_search_start c)) as M.
      replace (max_search_result_urls_to_return (set_cookies (search_start c) k1))
        with (max_search_result_urls_to_return (search_start c))
        by (destruct (search_start c); reflexivity).
      lia. }
    rewrite Hg, G2.
    change (String.eqb HTTP_429_DETECTED HTTP_429_DETECTED) with true.
    cbv iota.
    assert (R : search_result_list (set_cookies (set_cookies (search_start c) k1) k2) = [])
      by (rewrite <- E0; destruct (search_start c); reflexivity).
    rewrite R. simpl app.
    eexists; exists w2, k1. split; [reflexivity|]. split; [exact S2|].
    rewrite T2, T1, K1, K2. rewrite <- app_assoc. simpl.
    replace (page_url (set_cookies (search_start c) k1)) with (page_url c)
      by (rewrite <- (page_url_search_start c); destruct (search_start c); reflexivity).
    replace (cookies (set_cookies (search_start c) k1)) with k1
      by (destruct (search_start c); reflexivity).
    replace (user_agent (set_cookies (search_start c) k1))
      with (user_agent (search_start c)) by (destruct (search_start c); reflexivity).
    rewrite K2. reflexivity.
Qed.

(** ** The cap on the number of results *)

Lemma accept_link_results (a : Tag) (u : string) (lv lv1 : locals) (c c1 : SearchClient) :
  accept_link a u lv c = (lv1, c1) ->
  max_search_result_urls_to_return c1 = max_search_result_urls_to_return c /\
  exists added,
    search_result_list c1 = (search_result_list c ++ added)%list /\
    (List.length added <= 1)%nat.
Proof.
  unfold accept_link. destruct (negb _); intros H; injection H as _ <-.
  - split; [destruct c; reflexivity|]. eexists. split.
    + destruct c; reflexivity.
    + simpl. lia.
  - split; [reflexivity|]. exists []. rewrite app_nil_r. split; [reflexivity|simpl; lia].
Qed.

Lemma process_anchors_app (pre post : list Tag) :
  forall lv c w,
    process_anchors L (pre ++ post) lv c w =
      match process_anchors L pre lv c w with
      | (Ret (Next lv1), c1, w1) => process_anchors L post lv1 c1 w1
      | other => other
      end.
Proof.
  induction pre as [|a pre IH]; intros lv c w.
  - reflexivity.
  - rewrite <- app_comm_cons.
    destruct (anchor_cases a) as [E|[(h & f & E & F & N)|(h & u & E & F & N)]].
    + rewrite !(process_anchors_no_href _ _ _ _ _ E).
      destruct (link lv); [apply IH|reflexivity].
    + rewrite !(process_anchors_filtered _ _ _ _ _ _ _ E F N). apply IH.
    + simpl. rewrite E, F.
      destruct u as [|x u]; [congruence|].
      destruct (if verbose_output c then _ else _) as [description w1].
      destruct (if negb (py_in _ _) then _ else _) as [lv1 c1].
      destruct (_ <=? _)%Z; [reflexivity|apply IH].
Qed.

(** The length of the result list, as [len] computes it. *)
Lemma cap_invariant_search_loop (fuel : nat) (lv : locals) (c : SearchClient) (w : world)
  (l : list result_item) (c' : SearchClient) (w' : world) :
  (Z.of_nat (List.length (search_result_list c)) < max_search_result_urls_to_return c)%Z ->
  search_loop L fuel lv c w = (Ret (Some l), c', w') ->
  (Z.of_nat (List.length l) <= max_search_result_urls_to_return c')%Z /\
  (returned_at_cap L
     (fun _ x => (Z.of_nat (List.length (search_result_list x))
                  < max_search_result_urls_to_return x)%Z) l c' ->
   Z.of_nat (List.length l) = max_search_result_urls_to_return c').
Proof.
  intros HI H.
  pose proof (search_loop_invariant
                (fun _ x => (Z.of_nat (List.length (search_result_list x))
                             < max_search_result_urls_to_return x)%Z)) as P.
  assert (Hget : forall (lv0 : locals) c0 c1,
             (Z.of_nat (List.length (search_result_list c0))
              < max_search_result_urls_to_return c0)%Z ->
             get_page_frame c0 c1 ->
             (Z.of_nat (List.length (search_result_list c1))
              < max_search_result_urls_to_return c1)%Z).
  { intros lv0 c0 c1 I (d & k & ->). destruct c0; exact I. }
  specialize (P Hget (fun lv0 c0 l0 I => I)).
  assert (Hacc : forall (a : Tag) (u : string) (lv0 : locals) c0 (lv1 : locals) c1,
             (Z.of_nat (List.length (search_result_list c0))
              < max_search_result_urls_to_return c0)%Z ->
             u <> EmptyString ->
             (exists h, filter_search_result_urls L h = Ret (Some u)) ->
             accept_link a u lv0 c0 = (lv1, c1) ->
             (max_search_result_urls_to_return c1
              <=? Z.of_nat (List.length (search_result_list c1)))%Z = false ->
             (Z.of_nat (List.length (search_result_list c1))
              < max_search_result_urls_to_return c1)%Z).
  { intros a u lv0 c0 lv1 c1 _ _ _ _ C. apply Z.leb_gt in C. exact C. }
  specialize (P Hacc (fun lv0 c0 I => I)).
  assert (Hnext : forall (lv0 : locals) c0,
             (Z.of_nat (List.length (search_result_list c0))
              < max_search_result_urls_to_return c0)%Z ->
             (Z.of_nat (List.length
                          (search_result_list (update_urls (set_start c0 (start c0 + num c0)%Z))))
              < max_search_result_urls_to_return
                  (update_urls (set_start c0 (start c0 + num c0)%Z)))%Z).
  { intros lv0 c0 I. destruct c0; exact I. }
  specialize (P Hnext fuel lv c w _ c' w' HI H). simpl in P.
  assert (K : forall a u lv0 c0 lv1,
             (Z.of_nat (List.length (search_result_list c0))
              < max_search_result_urls_to_return c0)%Z ->
             accept_link a u lv0 c0 = (lv1, c') ->
             (max_search_result_urls_to_return c'
              <=? Z.of_nat (List.length (search_result_list c')))%Z = true ->
             Z.of_nat (List.length (search_result_list c'))
             = max_search_result_urls_to_return c').
  { intros a u lv0 c0 lv1 I A C.
    apply accept_link_results in A. destruct A as (M & added & R & Len).
    apply Z.leb_le in C. rewrite R in *. rewrite length_app in *. lia. }
  split.
  - destruct P as [(lv' & I & _ & ->)|[(lv0 & c0 & I & -> & ->)|
                   (a & u & lv0 & c0 & lv1 & I & _ & _ & A & C & ->)]].
    + lia.
    + destruct c0; simpl in *. rewrite length_app. simpl. lia.
    + rewrite (K a u lv0 c0 lv1 I A C). lia.
  - intros (a & u & lv0 & c0 & lv1 & I & _ & _ & A & C & ->).
    exact (K a u lv0 c0 lv1 I A C).
Qed.

Lemma get_page_results (url : string) (c : SearchClient) (w : world)
  (r : outcome string) (c1 : SearchClient) (w1 : world) :
  get_page L url c w = (r, c1, w1) ->
  search_result_list c1 = search_result_list c /\
  max_search_result_urls_to_return c1 = max_search_result_urls_to_return c /\
  verbose_output c1 = verbose_output c.
Proof.
  unfold get_page. intros GP.
  apply get_page_aux_props in GP; [|reflexivity].
  destruct GP as (_ & (d & k & ->) & _). destruct c; repeat split; reflexivity.
Qed.

(** C6: with a cap of at least one, a list returned by [search] never has
    more elements than the cap; and when an accepted link of a page brings
    the list to the cap, [search] returns that list at once: the anchors
    after it are not looked at, nothing is requested or slept afterwards,
    and the list has exactly as many elements as the cap. *)
Theorem cap_reached_mid_page (c : SearchClient) (w : world) :
  (1 <= max_search_result_urls_to_return c)%Z ->
  (forall l c' w',
      search L c w = (Ret (Some l), c', w') ->
      (Z.of_nat (List.length l) <= max_search_result_urls_to_return c)%Z) /\
  (forall fuel lv c0 w0 html c1 w1 pre a post lv2 c2 w2 h u lv3 c3,
      (total_valid_links_found lv <= max_search_result_urls_to_return c0)%Z ->
      (Z.of_nat (List.length (search_result_list c0))
       < max_search_result_urls_to_return c0)%Z ->
      get_page L (page_url c0) c0 w0 = (Ret html, c1, w1) ->
      String.eqb html HTTP_429_DETECTED = false ->
      anchors_of (BeautifulSoup L html) = (pre ++ a :: post)%list ->
      process_anchors L pre (mkLocals (total_valid_links_found lv) 0 (link lv)) c1 w1
        = (Ret (Next lv2), c2, w2) ->
      href a = Some h ->
      filter_search_result_urls L h = Ret (Some u) ->
      u <> EmptyString ->
      accept_link a u lv2 c2 = (lv3, c3) ->
      (max_search_result_urls_to_return c0
       <= Z.of_nat (List.length (search_result_list c3)))%Z ->
      exists w3,
        search_loop L (S fuel) lv c0 w0 = (Ret (Some (search_result_list c3)), c3, w3) /\
        script w3 = script w1 /\ trace w3 = trace w1 /\
        Z.of_nat (List.length (search_result_list c3))
        = max_search_result_urls_to_return c0).
Proof.
  intros Hcap. split.
  - intros l c' w' H.
    pose proof (search_settings c w) as SS. rewrite H in SS. simpl in SS.
    apply settings_max in SS. rewrite <- SS.
    rewrite search_unfold in H.
    destruct (check_extra_params _ _); try discriminate.
    destruct (get_page L (url_home c) (search_start c) w) as [[r1 c1] w1] eqn:GP.
    destruct r1 as [html|e|]; try discriminate.
    apply get_page_results in GP. destruct GP as (R & M & _).
    destruct (search_start_cookies c) as (_ & _ & _ & E).
    eapply cap_invariant_search_loop; [|exact H].
    rewrite R, E, M. simpl.
    pose proof (settings_max _ _ (settings_search_start c)) as M2. lia.
  - intros fuel lv c0 w0 html c1 w1 pre a post lv2 c2 w2 h u lv3 c3
           Hg Hlen GP Hs Han Hpre Hh Hf Hu Hacc Hreach.
    rewrite search_loop_S.
    apply Z.leb_le in Hg. rewrite Hg, GP, Hs, Han.
    rewrite process_anchors_app, Hpre.
    destruct (process_anchors_accepted a post lv2 c2 w2 h u Hh Hf Hu)
      as (w3 & S3 & D3 & T3 & Eq).
    rewrite Eq, Hacc. clear Eq.
    apply get_page_results in GP. destruct GP as (R1 & M1 & _).
    pose proof (process_anchors_world pre _ _ _ _ _ _ Hpre) as (_ & S2 & D2 & T2).
    pose proof (process_anchors_invariant
                  (fun _ x => max_search_result_urls_to_return x
                              = max_search_result_urls_to_return c0 /\
                              (Z.of_nat (List.length (search_result_list x))
                               < max_search_result_urls_to_return x)%Z)) as P.
    assert (I2 : max_search_result_urls_to_return c2
                 = max_search_result_urls_to_return c0 /\
                 (Z.of_nat (List.length (search_result_list c2))
                  < max_search_result_urls_to_return c2)%Z).
    { refine (P _ _ pre _ c1 w1 _ c2 w2 _ Hpre).
      - intros; assumption.
      - intros a0 u0 lv0 x lv1 x1 (Mx & _) _ _ A C.
        apply accept_link_results in A. destruct A as (Mx1 & _).
        apply Z.leb_gt in C. split; [congruence|exact C].
      - split; [exact M1|]. rewrite R1, M1. exact Hlen. }
    destruct I2 as (M2 & L2).
    pose proof (accept_link_results _ _ _ _ _ _ Hacc) as (M3 & added & R3 & Len).
    assert (C : (max_search_result_urls_to_return c3
                 <=? Z.of_nat (List.length (search_result_list c3)))%Z = true).
    { apply Z.leb_le. rewrite M3, M2. exact Hreach. }
    rewrite C. exists w3. repeat split; try congruence.
    rewrite R3 in *. rewrite length_app in *. lia.
Qed.

(** ** A page without a new link *)

Lemma process_anchors_rejected (anchors : list Tag) :
  forall lv c w,
    Forall (rejected L) anchors ->
    link lv <> None \/ Forall (fun a => href a <> None) anchors ->
    exists lv' w',
      process_anchors L anchors lv c w = (Ret (Next lv'), c, w') /\
      valid_links_found_in_this_search lv' = valid_links_found_in_this_search lv /\
      total_valid_links_found lv' = total_valid_links_found lv /\
      script w' = script w /\ draws w' = draws w /\ trace w' = trace w.
Proof.
  induction anchors as [|a rest IH]; intros lv c w HR HB.
  - exists lv, w. repeat split; reflexivity.
  - inversion HR as [|? ? Ra Rrest]; subst.
    destruct Ra as [E|(h & r & E & F & N)].
    + rewrite (process_anchors_no_href _ _ _ _ _ E).
      destruct HB as [HB|HB]; [|inversion HB; congruence].
      destruct (link lv) as [l|] eqn:El; [|congruence].
      destruct (IH lv c (logged w WARNING ("No href for link: " ++ format_link l))
                  Rrest)
        as (lv' & w' & P & V & T & S1 & D1 & T1).
      { left. rewrite El. discriminate. }
      exists lv', w'. repeat split; auto.
    + rewrite (process_anchors_filtered _ _ _ _ _ _ _ E F N).
      destruct (IH (set_link lv r) c w Rrest) as (lv' & w' & P & V & T & S1 & D1 & T1).
      { left. discriminate. }
      exists lv', w'. repeat split; auto.
Qed.

(** A page all of whose anchors are rejected ends the search with the
    results found so far, provided the name [link] is bound when an anchor
    without [href] is met. *)
Lemma zero_yield_page_ends_search (fuel : nat) (lv : locals) (c : SearchClient)
  (w : world) (html : string) (c1 : SearchClient) (w1 : world) :
  (total_valid_links_found lv <= max_search_result_urls_to_return c)%Z ->
  get_page L (page_url c) c w = (Ret html, c1, w1) ->
  String.eqb html HTTP_429_DETECTED = false ->
  Forall (rejected L) (anchors_of (BeautifulSoup L html)) ->
  link lv <> None \/ Forall (fun a => href a <> None) (anchors_of (BeautifulSoup L html)) ->
  exists w2,
    search_loop L (S fuel) lv c w = (Ret (Some (search_result_list c)), c1, w2) /\
    script w2 = script w1 /\ trace w2 = trace w1.
Proof.
  intros Hg GP Hs HR HB.
  rewrite search_loop_S. apply Z.leb_le in Hg. rewrite Hg, GP, Hs.
  destruct (process_anchors_rejected _ (mkLocals (total_valid_links_found lv) 0 (link lv))
              c1 w1 HR HB) as (lv' & w' & P & V & T & S1 & D1 & T1).
  rewrite P. simpl in V. rewrite V. simpl.
  apply get_page_results in GP. destruct GP as (R & _).
  exists w'. rewrite R. auto.
Qed.

(** ** A cap of zero *)

(** C10, for a cap of exactly zero: [search] does not return at once. Whenever it returns, it has requested the home page and then
    at least one results page, and what it returns is a list of at most
    one element, one more than the cap when the first page has an
    acceptable link. *)
Theorem cap_zero_search (c : SearchClient) (w : world)
  (r : option (list result_item)) (c' : SearchClient) (w' : world) :
  max_search_result_urls_to_return c = 0%Z ->
  search L c w = (Ret r, c', w') ->
  exists l,
    r = Some l /\ (List.length l <= 1)%nat /\
    exists evs1 k agent evs2,
      trace w' = (trace w ++ EvGet (url_home c) (cookies c) (user_agent c) :: evs1
                          ++ EvGet (page_url c) k agent :: evs2)%list.
Proof.
  intros Hmax H.
  rewrite search_unfold in H.
  destruct (check_extra_params _ _); try discriminate.
  destruct (get_page L (url_home c) (search_start c) w) as [[r1 c1] w1] eqn:GP.
  destruct r1 as [html0|e|]; try discriminate.
  pose proof (get_page_results _ _ _ _ _ _ GP) as (R1 & M1 & _).
  unfold get_page in GP. apply get_page_aux_props in GP; [|reflexivity].
  destruct GP as (_ & F1 & _ & _ & (evs1 & T1)).
  destruct (search_start_cookies c) as (K1 & K2 & _ & E0).
  rewrite K1, K2 in T1. rewrite E0 in R1.
  pose proof (settings_max _ _ (settings_search_start c)) as M0.
  rewrite M0, Hmax in M1.
  rewrite search_loop_S in H. simpl total_valid_links_found in H.
  rewrite M1 in H. simpl in H.
  destruct (get_page L (page_url c1) c1 w1) as [[r2 c2] w2] eqn:GP2.
  pose proof (get_page_results _ _ _ _ _ _ GP2) as (R2 & M2 & _).
  unfold get_page in GP2. apply get_page_aux_props in GP2; [|reflexivity].
  destruct GP2 as (_ & F2 & _ & _ & (evs2 & T2)).
  rewrite (page_url_frame _ _ F1), page_url_search_start in T2.
  rewrite R1 in R2. rewrite M1 in M2.
  assert (TR : forall w3, trace w3 = trace w2 ->
            exists evs1 k agent evs2,
              trace w3 = (trace w ++ EvGet (url_home c) (cookies c) (user_agent c) :: evs1
                          ++ EvGet (page_url c) k agent :: evs2)%list).
  { intros w3 ->. rewrite T2, T1. rewrite <- app_assoc. simpl.
    exists evs1, (cookies c1), (user_agent c1), evs2. reflexivity. }
  destruct r2 as [html|e|]; try discriminate.
  destruct (String.eqb html HTTP_429_DETECTED).
  - inversion H; subst. rewrite R2. simpl.
    exists [ItemStr HTTP_429_DETECTED]. repeat split; auto.
  - destruct (process_anchors L _ _ c2 w2) as [[r3 c3] w3] eqn:PA.
    pose proof (process_anchors_world _ _ _ _ _ _ _ PA) as (_ & _ & _ & T3).
    pose proof (process_anchors_invariant
                  (fun lv x => search_result_list x = [] /\
                               max_search_result_urls_to_return x = 0%Z /\
                               valid_links_found_in_this_search lv = 0%Z)) as P.
    assert (Hacc : forall (a : Tag) (u : string) (lv0 : locals) x (lv1 : locals) x1,
               search_result_list x = [] /\
               max_search_result_urls_to_return x = 0%Z /\
               valid_links_found_in_this_search lv0 = 0%Z ->
               u <> EmptyString ->
               (exists h, filter_search_result_urls L h = Ret (Some u)) ->
               accept_link a u lv0 x = (lv1, x1) ->
               (max_search_result_urls_to_return x1
                <=? Z.of_nat (List.length (search_result_list x1)))%Z = false ->
               search_result_list x1 = [] /\
               max_search_result_urls_to_return x1 = 0%Z /\
               valid_links_found_in_this_search lv1 = 0%Z).
    { intros a0 u lv0 x lv1 x1 (Rx & Mx & Vx) _ _ A C.
      apply accept_link_results in A. destruct A as (Mx1 & _).
      apply Z.leb_gt in C. lia. }
    cbv beta in P.
    assert (Hlink : forall (lv0 : locals) (x : SearchClient) (l0 : option string),
               search_result_list x = [] /\
               max_search_result_urls_to_return x = 0%Z /\
               valid_links_found_in_this_search lv0 = 0%Z ->
               search_result_list x = [] /\
               max_search_result_urls_to_return x = 0%Z /\
               valid_links_found_in_this_search (set_link lv0 l0) = 0%Z)
      by (intros lv0 x l0 I; exact I).
    specialize (P Hlink Hacc _ (mkLocals 0 0 None) _ _ _ _ _
                  (conj R2 (conj M2 (eq_refl 0%Z))) PA).
    destruct r3 as [[lv3|l]|e|]; try discriminate.
    + destruct P as (R3 & M3 & V3). rewrite V3 in H. simpl in H.
      inversion H; subst. rewrite R3. exists []. repeat split; auto.
    + inversion H; subst.
      destruct P as (a0 & u & lv0 & x & lv1 & (Rx & _) & _ & _ & A & _ & ->).
      apply accept_link_results in A. destruct A as (_ & added & Ra & Len).
      rewrite Rx in Ra. simpl in Ra.
      exists (search_result_list c'). rewrite Ra. repeat split; auto.
Qed.

(** ** Duplicates in plain output *)

Lemma filter_some_netloc (h u : string) :
  filter_search_result_urls L h = Ret (Some u) ->
  exists po, Urllib.urlparse L u "http" = Ret po /\ Urllib.netloc po <> EmptyString.
Proof.
  unfold filter_search_result_urls. intros H.
  destruct (filter_body L h) as [l|e|] eqn:B; try discriminate.
  injection H as ->. unfold filter_body, obind in B.
  match type of B with
  | match ?x with _ => _ end = _ => destruct x as [link|e|]; try discriminate
  end.
  destruct (Urllib.urlparse L link "http") as [po|e|] eqn:U; try discriminate.
  remember (PyStr.contains "google") as g eqn:G. clear G.
  destruct (Urllib.netloc po) as [|x n] eqn:N; [discriminate|].
  destruct (g (PyStr.lower (String x n))); [discriminate|].
  injection B as ->. exists po. split; [exact U|rewrite N; discriminate].
Qed.

Lemma sentinel_is_no_link (h : string) :
  filter_search_result_urls L h <> Ret (Some HTTP_429_DETECTED).
Proof.
  intros H. apply filter_some_netloc in H. destruct H as (po & U & N).
  vm_compute in U. injection U as <-. apply N. reflexivity.
Qed.

Lemma py_in_In (u : string) (l : list result_item) :
  In (ItemStr u) l -> py_in u l = true.
Proof.
  intros H. unfold py_in. apply existsb_exists. exists (ItemStr u).
  split; [exact H|apply String.eqb_refl].
Qed.

Lemma NoDup_snoc {A : Type} (l : list A) (a : A) :
  NoDup l -> ~ In a l -> NoDup (l ++ [a]).
Proof.
  induction l as [|x l IH]; intros ND NI; simpl.
  - constructor; [intros []|constructor].
  - inversion ND; subst. constructor.
    + rewrite in_app_iff. simpl. intros [K|[K|[]]]; [contradiction|].
      subst. apply NI. left. reflexivity.
    + apply IH; [assumption|]. intros K. apply NI. right. exact K.
Qed.

(** With plain output no string occurs twice in a list that [search]
    returns, the sentinel included. *)
Lemma plain_results_no_duplicates (c : SearchClient) (w : world)
  (l : list result_item) (c' : SearchClient) (w' : world) :
  verbose_output c = false ->
  search L c w = (Ret (Some l), c', w') ->
  NoDup l.
Proof.
  intros V H. rewrite search_unfold in H.
  destruct (check_extra_params _ _); try discriminate.
  destruct (get_page L (url_home c) (search_start c) w) as [[r1 c1] w1] eqn:GP.
  destruct r1 as [html0|e|]; try discriminate.
  apply get_page_results in GP. destruct GP as (R1 & _ & V1).
  destruct (search_start_cookies c) as (_ & _ & _ & E0).
  pose proof (settings_verbose _ _ (settings_search_start c)) as V0.
  pose proof (search_loop_invariant
                (fun _ x => verbose_output x = false /\ NoDup (search_result_list x) /\
                            ~ In (ItemStr HTTP_429_DETECTED) (search_result_list x))) as P.
  cbv beta in P.
  assert (Hget : forall (lv : locals) (x x' : SearchClient),
             verbose_output x = false /\ NoDup (search_result_list x) /\
             ~ In (ItemStr HTTP_429_DETECTED) (search_result_list x) ->
             get_page_frame x x' ->
             verbose_output x' = false /\ NoDup (search_result_list x') /\
             ~ In (ItemStr HTTP_429_DETECTED) (search_result_list x')).
  { intros lv x x' I (d & k & ->). destruct x; exact I. }
  assert (Hlink : forall (lv : locals) (x : SearchClient) (l0 : option string),
             verbose_output x = false /\ NoDup (search_result_list x) /\
             ~ In (ItemStr HTTP_429_DETECTED) (search_result_list x) ->
             verbose_output x = false /\ NoDup (search_result_list x) /\
             ~ In (ItemStr HTTP_429_DETECTED) (search_result_list x))
    by (intros; assumption).
  assert (Hacc' : forall (a : Tag) (u : string) (lv : locals) (x : SearchClient)
                         (lv1 : locals) (x1 : SearchClient),
             verbose_output x = false /\ NoDup (search_result_list x) /\
             ~ In (ItemStr HTTP_429_DETECTED) (search_result_list x) ->
             (exists h, filter_search_result_urls L h = Ret (Some u)) ->
             accept_link a u lv x = (lv1, x1) ->
             verbose_output x1 = false /\ NoDup (search_result_list x1) /\
             ~ In (ItemStr HTTP_429_DETECTED) (search_result_list x1)).
  { intros a0 u lv x lv1 x1 (Vx & Nx & Sx) (h & F) A.
    unfold accept_link in A. rewrite Vx in A.
    destruct (py_in u (search_result_list x)) eqn:PI; simpl in A;
      injection A as _ <-.
    - auto.
    - replace (verbose_output (set_search_result_list x _)) with (verbose_output x)
        by (destruct x; reflexivity).
      replace (search_result_list (set_search_result_list x
                 (search_result_list x ++ [ItemStr u])%list))
        with (search_result_list x ++ [ItemStr u])%list by (destruct x; reflexivity).
      split; [exact Vx|]. split.
      + apply NoDup_snoc; [exact Nx|]. intros K. apply py_in_In in K. congruence.
      + rewrite in_app_iff. simpl. intros [K|[K|[]]]; [contradiction|].
        injection K as ->. exact (sentinel_is_no_link h F). }
  assert (Hacc : forall (a : Tag) (u : string) (lv : locals) (x : SearchClient)
                        (lv1 : locals) (x1 : SearchClient),
             verbose_output x = false /\ NoDup (search_result_list x) /\
             ~ In (ItemStr HTTP_429_DETECTED) (search_result_list x) ->
             u <> EmptyString ->
             (exists h, filter_search_result_urls L h = Ret (Some u)) ->
             accept_link a u lv x = (lv1, x1) ->
             (max_search_result_urls_to_return x1
              <=? Z.of_nat (List.length (search_result_list x1)))%Z = false ->
             verbose_output x1 = false /\ NoDup (search_result_list x1) /\
             ~ In (ItemStr HTTP_429_DETECTED) (search_result_list x1))
    by (intros; eapply Hacc'; eassumption).
  assert (Hreset : forall (lv : locals) (x : SearchClient),
             verbose_output x = false /\ NoDup (search_result_list x) /\
             ~ In (ItemStr HTTP_429_DETECTED) (search_result_list x) ->
             verbose_output x = false /\ NoDup (search_result_list x) /\
             ~ In (ItemStr HTTP_429_DETECTED) (search_result_list x))
    by (intros; assumption).
  assert (Hnext : forall (lv : locals) (x : SearchClient),
             verbose_output x = false /\ NoDup (search_result_list x) /\
             ~ In (ItemStr HTTP_429_DETECTED) (search_result_list x) ->
             verbose_output (update_urls (set_start x (start x + num x)%Z)) = false /\
             NoDup (search_result_list (update_urls (set_start x (start x + num x)%Z))) /\
             ~ In (ItemStr HTTP_429_DETECTED)
                 (search_result_list (update_urls (set_start x (start x + num x)%Z)))).
  { intros lv x I. destruct x; exact I. }
  assert (I1 : verbose_output c1 = false /\ NoDup (search_result_list c1) /\
               ~ In (ItemStr HTTP_429_DETECTED) (search_result_list c1)).
  { rewrite V1, V0, R1, E0. repeat split; [exact V|constructor|intros []]. }
  specialize (P Hget Hlink Hacc Hreset Hnext _ _ _ _ _ _ _ I1 H). simpl in P.
  destruct P as [(lv' & (_ & N & _) & _ & ->)|[(lv0 & x & (Vx & Nx & Sx) & -> & ->)|
                 (a0 & u & lv0 & x & lv1 & I & _ & F & A & _ & ->)]].
  - exact N.
  - replace (search_result_list (set_search_result_list x _))
      with (search_result_list x ++ [ItemStr HTTP_429_DETECTED])%list
      by (destruct x; reflexivity).
    apply NoDup_snoc; assumption.
  - destruct (Hacc' a0 u lv0 x lv1 c' I F A) as (_ & N & _). exact N.
Qed.

(** ** The cool-off policy *)

Lemma cool_off_after_add (n m : nat) (d f : pynum) :
  cool_off_after (n + m) d f
  = obind (cool_off_after n d f) (fun d' => cool_off_after m d' f).
Proof.
  revert d. induction n as [|n IH]; intros d; simpl.
  - reflexivity.
  - destruct (PyNum.mul d f); simpl; [apply IH|reflexivity|reflexivity].
Qed.

Lemma cool_off_after_snoc (n : nat) (d f d1 p : pynum) :
  cool_off_after n d f = Ret d1 ->
  PyNum.mul d1 f = Ret p ->
  cool_off_after (S n) d f = Ret (PyNum.round2 p).
Proof.
  intros H1 H2. replace (S n) with (n + 1)%nat by lia.
  rewrite cool_off_after_add, H1. simpl. rewrite H2. reflexivity.
Qed.

(** A managed 429: the sleep, the step and the second request. *)
Lemma get_page_429_managed (url : string) (c : SearchClient) (w : world)
  (jar : dict) (body : string) (rest : list exchange)
  (r : outcome string) (c' : SearchClient) (w' : world) :
  script w = Response 429 jar body :: rest ->
  yagooglesearch_manages_http_429s c = true ->
  get_page L url c w = (r, c', w') ->
  (exists e k, r = Raise e /\ c' = set_cookies c k) \/
  (exists k secs p w2,
      PyNum.mul (http_429_cool_off_time_in_minutes c) (PyInt 60) = Ret secs /\
      time_sleep_error L secs = None /\
      PyNum.mul (http_429_cool_off_time_in_minutes c) (http_429_cool_off_factor c) = Ret p /\
      script w2 = rest /\
      trace w2 = (trace w ++ [EvGet url (cookies c) (user_agent c); EvSleep secs])%list /\
      get_page L url
        (set_http_429_cool_off_time_in_minutes (set_cookies c k) (PyNum.round2 p)) w2
      = (r, c', w')).
Proof.
  intros Hs Hm. unfold get_page. rewrite Hs. simpl.
  destruct (consent_cookies_total jar) as [consent ->].
  assert (M : forall k, yagooglesearch_manages_http_429s (set_cookies c k)
                        = yagooglesearch_manages_http_429s c)
    by (intros; destruct c; reflexivity).
  assert (D : forall k, http_429_cool_off_time_in_minutes (set_cookies c k)
                        = http_429_cool_off_time_in_minutes c)
    by (intros; destruct c; reflexivity).
  assert (F : forall k, http_429_cool_off_factor (set_cookies c k)
                        = http_429_cool_off_factor c)
    by (intros; destruct c; reflexivity).
  assert (T : forall k k', set_cookies (set_cookies c k) k' = set_cookies c k')
    by (intros; destruct c; reflexivity).
  unfold http_429_detected.
  destruct consent as [yes|]; rewrite ?T, M, Hm, D, F; simpl;
    (pose proof (mul_not_timeout (http_429_cool_off_time_in_minutes c) (PyInt 60)) as N1;
     destruct (PyNum.mul (http_429_cool_off_time_in_minutes c) (PyInt 60)) as [secs|e|];
     [|intros H; injection H as <- <- <-; left; eauto|congruence]);
    (destruct (time_sleep_error L secs) as [e|] eqn:TS;
     [intros H; injection H as <- <- <-; left; eauto|]);
    (pose proof (mul_not_timeout (http_429_cool_off_time_in_minutes c)
                   (http_429_cool_off_factor c)) as N2;
     destruct (PyNum.mul (http_429_cool_off_time_in_minutes c)
                 (http_429_cool_off_factor c)) as [p|e|];
     [|simpl; intros H; injection H as <- <- <-; left; eauto|congruence]);
    simpl; intros H; right; eexists _, secs, p, _;
    repeat split; try reflexivity; try exact TS; try exact H;
    simpl; rewrite <- ?app_assoc; reflexivity.
Qed.

Lemma get_page_retries (retries : list exchange) :
  forall (final : exchange) (rest : list exchange) (url : string)
         (c : SearchClient) (w : world) (html : string) (c' : SearchClient) (w' : world),
    yagooglesearch_manages_http_429s c = true ->
    Forall (fun x => is_429 x = true) retries ->
    is_429 final = false ->
    script w = (retries ++ final :: rest)%list ->
    get_page L url c w = (Ret html, c', w') ->
    cool_off_after (List.length retries) (http_429_cool_off_time_in_minutes c)
      (http_429_cool_off_factor c)
    = Ret (http_429_cool_off_time_in_minutes c') /\
    http_429_cool_off_factor c' = http_429_cool_off_factor c /\
    script w' = rest.
Proof.
  induction retries as [|x retries IH];
    intros final rest url c w html c' w' Hm Hall Hfin Hs GP.
  - simpl in Hs. destruct final as [code jar body|e].
    + simpl in Hfin.
      destruct (get_page_single url c w code jar body rest Hs (or_introl Hfin))
        as (c1 & w1 & G & S1 & _ & _ & (k & ->)).
      rewrite G in GP. injection GP as _ <- <-.
      simpl. repeat split; auto; destruct c; reflexivity.
    + unfold get_page in GP. rewrite Hs in GP. simpl in GP. discriminate.
  - inversion Hall as [|? ? Hx Hrest]; subst.
    destruct x as [code jar body|e]; simpl in Hx; [|discriminate].
    apply Z.eqb_eq in Hx. subst code. simpl in Hs.
    destruct (get_page_429_managed url c w jar body _ _ _ _ Hs Hm GP)
      as [(e & k & E & _)|(k & secs & p & w2 & M1 & TS & M2 & S2 & T2 & GP2)];
      [discriminate|].
    apply IH with (final := final) (rest := rest) in GP2; auto;
      try (destruct c; exact Hm).
    destruct GP2 as (C & F & S3).
    replace (http_429_cool_off_time_in_minutes
               (set_http_429_cool_off_time_in_minutes (set_cookies c k) (round2 p)))
      with (round2 p) in C by (destruct c; reflexivity).
    replace (http_429_cool_off_factor
               (set_http_429_cool_off_time_in_minutes (set_cookies c k) (round2 p)))
      with (http_429_cool_off_factor c) in C, F by (destruct c; reflexivity).
    simpl. rewrite M2. simpl. auto.
Qed.

Lemma get_page_aux_cool_off_step (sc : list exchange) :
  forall url c w r c' w',
    get_page_aux L sc url c w = (r, c', w') -> script w = sc -> cool_off_step c c'.
Proof.
  assert (Z0 : forall c k, cool_off_step c (set_cookies c k)).
  { intros c k. split; [destruct c; reflexivity|].
    exists O. split; [destruct c; reflexivity|auto]. }
  assert (R0 : forall c, cool_off_step c c).
  { intros c. split; [reflexivity|]. exists O. split; [reflexivity|auto]. }
  induction sc as [|x rest IH]; intros url c w r c' w' H Hs.
  - simpl in H. injection H as _ <- _. apply R0.
  - destruct x as [code jar body|e].
    2:{ simpl in H. injection H as _ <- _. apply R0. }
    assert (GP : get_page L url c w = (r, c', w')) by (unfold get_page; rewrite Hs; exact H).
    destruct (code =? 429)%Z eqn:C.
    + destruct (yagooglesearch_manages_http_429s c) eqn:Hm.
      * apply Z.eqb_eq in C. subst code.
        destruct (get_page_429_managed url c w jar body _ _ _ _ Hs Hm GP)
          as [(e & k & E & ->)|(k & secs & p & w2 & M1 & TS & M2 & S2 & T2 & GP2)];
          [apply Z0|].
        unfold get_page in GP2. rewrite S2 in GP2.
        apply IH in GP2; [|exact S2].
        destruct GP2 as (F & n & Cn & _).
        replace (http_429_cool_off_time_in_minutes
                   (set_http_429_cool_off_time_in_minutes (set_cookies c k) (round2 p)))
          with (round2 p) in Cn by (destruct c; reflexivity).
        replace (http_429_cool_off_factor
                   (set_http_429_cool_off_time_in_minutes (set_cookies c k) (round2 p)))
          with (http_429_cool_off_factor c) in Cn, F by (destruct c; reflexivity).
        split; [exact F|]. exists (S n). split; [|congruence].
        simpl. rewrite M2. simpl. exact Cn.
      * destruct (get_page_single url c w code jar body rest Hs (or_intror Hm))
          as (c1 & w1 & G & _ & _ & _ & (k & ->)).
        rewrite G in GP. injection GP as _ <- _. apply Z0.
    + destruct (get_page_single url c w code jar body rest Hs (or_introl C))
        as (c1 & w1 & G & _ & _ & _ & (k & ->)).
      rewrite G in GP. injection GP as _ <- _. apply Z0.
Qed.

Lemma get_page_cool_off_step (url : string) (c : SearchClient) (w : world)
  (r : outcome string) (c' : SearchClient) (w' : world) :
  get_page L url c w = (r, c', w') -> cool_off_step c c'.
Proof.
  unfold get_page. intros H. eapply get_page_aux_cool_off_step; [exact H|reflexivity].
Qed.

Lemma cool_off_step_trans (c1 c2 c3 : SearchClient) :
  yagooglesearch_manages_http_429s c2 = yagooglesearch_manages_http_429s c1 ->
  cool_off_step c1 c2 -> cool_off_step c2 c3 -> cool_off_step c1 c3.
Proof.
  intros M (F1 & n & C1 & Z1) (F2 & m & C2 & Z2).
  split; [congruence|]. exists (n + m)%nat. split.
  - rewrite cool_off_after_add, C1. simpl. rewrite <- F1. exact C2.
  - intros K. rewrite (Z1 K). rewrite Z2 by congruence. reflexivity.
Qed.

Lemma cool_off_step_same (c0 c c1 : SearchClient) :
  http_429_cool_off_time_in_minutes c1 = http_429_cool_off_time_in_minutes c ->
  http_429_cool_off_factor c1 = http_429_cool_off_factor c ->
  cool_off_step c0 c -> cool_off_step c0 c1.
Proof.
  intros D F (F0 & n & C & Z0). split; [congruence|].
  exists n. split; [congruence|exact Z0].
Qed.

Lemma accept_link_cool_off (a : Tag) (u : string) (lv lv1 : locals) (c c1 : SearchClient) :
  accept_link a u lv c = (lv1, c1) ->
  http_429_cool_off_time_in_minutes c1 = http_429_cool_off_time_in_minutes c /\
  http_429_cool_off_factor c1 = http_429_cool_off_factor c /\
  yagooglesearch_manages_http_429s c1 = yagooglesearch_manages_http_429s c.
Proof.
  unfold accept_link. destruct (negb _); intros H; injection H as _ <-;
    destruct c; repeat split; reflexivity.
Qed.

(** Over a whole [search] the cool-off time is an iterate of the step on
    its value at the start: nothing else writes it, nothing resets it. *)
Lemma search_cool_off_step (c : SearchClient) (w : world) :
  cool_off_step c (snd (fst (search L c w))).
Proof.
  assert (R0 : forall x, cool_off_step x x).
  { intros x. split; [reflexivity|]. exists O. split; [reflexivity|auto]. }
  assert (S0 : cool_off_step c (search_start c)).
  { apply cool_off_step_same with (c := c); [| |apply R0];
      destruct c as []; unfold search_start; simpl;
      destruct extra_params0 as [[|kv d]|]; reflexivity. }
  assert (M0 : yagooglesearch_manages_http_429s (search_start c)
               = yagooglesearch_manages_http_429s c)
    by (apply settings_manages, settings_search_start).
  pose proof (search_never_times_out c w) as NT.
  rewrite search_unfold in *.
  destruct (check_extra_params _ _) as [[]|e0|]; simpl; try exact S0.
  destruct (get_page L (url_home c) (search_start c) w) as [[r1 c1] w1] eqn:GP.
  pose proof (get_page_cool_off_step _ _ _ _ _ _ GP) as G1.
  pose proof (settings_manages _ _ (settings_get_page_frame _ _
                (get_page_frame_holds _ _ _ _ _ _ GP))) as M1.
  assert (I1 : cool_off_step c c1 /\
               yagooglesearch_manages_http_429s c1 = yagooglesearch_manages_http_429s c).
  { split; [|congruence]. eapply cool_off_step_trans; [|exact S0|exact G1]. exact M0. }
  destruct r1 as [html|e|]; simpl; try exact (proj1 I1).
  destruct (search_loop L _ _ c1 w1) as [[r c'] w'] eqn:SL. simpl in *.
  pose proof (search_loop_invariant_gen
                (fun x x' => cool_off_step x x' /\ get_page_frame x x')
                (fun _ x => cool_off_step c x /\
                            yagooglesearch_manages_http_429s x
                            = yagooglesearch_manages_http_429s c)) as P.
  cbv beta in P.
  assert (HG : forall url x w0 r0 x' w0',
             get_page L url x w0 = (r0, x', w0') ->
             cool_off_step x x' /\ get_page_frame x x').
  { intros url x w0 r0 x' w0' K. split.
    - eapply get_page_cool_off_step; exact K.
    - eapply get_page_frame_holds; exact K. }
  assert (Hget : forall (lv : locals) x x',
             cool_off_step c x /\
             yagooglesearch_manages_http_429s x = yagooglesearch_manages_http_429s c ->
             cool_off_step x x' /\ get_page_frame x x' ->
             cool_off_step c x' /\
             yagooglesearch_manages_http_429s x' = yagooglesearch_manages_http_429s c).
  { intros lv x x' (Cx & Mx) (Sx & Fx).
    pose proof (settings_manages _ _ (settings_get_page_frame _ _ Fx)) as Mx'.
    split; [|congruence]. eapply cool_off_step_trans; [|exact Cx|exact Sx]. exact Mx. }
  assert (Hlink : forall (lv : locals) (x : SearchClient) (l : option string),
             cool_off_step c x /\
             yagooglesearch_manages_http_429s x = yagooglesearch_manages_http_429s c ->
             cool_off_step c x /\
             yagooglesearch_manages_http_429s x = yagooglesearch_manages_http_429s c)
    by (intros; assumption).
  assert (Hacc' : forall (a : Tag) (u : string) (lv : locals) x (lv1 : locals) x1,
             cool_off_step c x /\
             yagooglesearch_manages_http_429s x = yagooglesearch_manages_http_429s c ->
             accept_link a u lv x = (lv1, x1) ->
             cool_off_step c x1 /\
             yagooglesearch_manages_http_429s x1 = yagooglesearch_manages_http_429s c).
  { intros a u lv x lv1 x1 (Cx & Mx) A.
    apply accept_link_cool_off in A. destruct A as (D & F & M).
    split; [|congruence]. eapply cool_off_step_same; eassumption. }
  assert (Hacc : forall (a : Tag) (u : string) (lv : locals) x (lv1 : locals) x1,
             cool_off_step c x /\
             yagooglesearch_manages_http_429s x = yagooglesearch_manages_http_429s c ->
             u <> EmptyString ->
             (exists h, filter_search_result_urls L h = Ret (Some u)) ->
             accept_link a u lv x = (lv1, x1) ->
             (max_search_result_urls_to_return x1
              <=? Z.of_nat (List.length (search_result_list x1)))%Z = false ->
             cool_off_step c x1 /\
             yagooglesearch_manages_http_429s x1 = yagooglesearch_manages_http_429s c)
    by (intros; eapply Hacc'; eassumption).
  assert (Hnext : forall (lv : locals) x,
             cool_off_step c x /\
             yagooglesearch_manages_http_429s x = yagooglesearch_manages_http_429s c ->
             cool_off_step c (update_urls (set_start x (start x + num x)%Z)) /\
             yagooglesearch_manages_http_429s (update_urls (set_start x (start x + num x)%Z))
             = yagooglesearch_manages_http_429s c).
  { intros lv x (Cx & Mx). split.
    - eapply cool_off_step_same; [| |exact Cx]; destruct x; reflexivity.
    - rewrite <- Mx. destruct x; reflexivity. }
  assert (Hreset : forall (lv : locals) (x : SearchClient),
             cool_off_step c x /\
             yagooglesearch_manages_http_429s x = yagooglesearch_manages_http_429s c ->
             cool_off_step c x /\
             yagooglesearch_manages_http_429s x = yagooglesearch_manages_http_429s c)
    by (intros; assumption).
  specialize (P HG Hget Hlink Hacc Hreset Hnext _ _ _ _ _ _ _ I1 SL).
  destruct r as [[l|]|e|]; try congruence.
  - destruct P as [(lv' & (C & _) & _)|[(lv0 & x & (C & _) & -> & _)|
                   (a & u & lv0 & x & lv1 & I & _ & _ & A & _)]].
    + exact C.
    + eapply cool_off_step_same; [| |exact C]; destruct x; reflexivity.
    + exact (proj1 (Hacc' a u lv0 x lv1 c' I A)).
  - destruct P as (lv' & (C & _) & _). exact C.
  - destruct P as (lv' & (C & _)). exact C.
Qed.


Lemma cool_off_after_int_monotone (n : nat) :
  forall d f : Z,
    (0 <= d)%Z -> (1 <= f)%Z ->
    exists z, cool_off_after n (PyInt d) (PyInt f) = Ret (PyInt z) /\ (d <= z)%Z.
Proof.
  induction n as [|n IH]; intros d f Hd Hf; simpl.
  - exists d. split; [reflexivity|lia].
  - destruct (IH (d * f)%Z f) as (z & E & Hz); [nia|exact Hf|].
    exists z. split; [exact E|nia].
Qed.

(** C4, with the clause on lowering made exact: when the session manages
    rate limits and a request is answered by [N] responses with status 429
    and then by another answer, the cool-off time with which [get_page]
    returns is the [N]-fold iterate of [d |-> round(d * f, 2)] on the time
    it started with, rounded after every event, and the factor is
    unchanged. Over a whole [search] the time is always such an iterate of
    its initial value: no other operation writes it and nothing resets it.
    Integer times under an integer factor of at least one are exact
    products and are never lowered. An event under a finite factor of at
    least one, integer or float, gives a time that is not below the old
    time rounded to two decimals and that is again not negative: it lowers
    a time by that rounding only, and never a time that has at most two
    decimals. *)
Theorem cool_off_after_rate_limits (c : SearchClient) (w : world)
  (retries : list exchange) (final : exchange) (rest : list exchange)
  (url html : string) (c' : SearchClient) (w' : world) :
  yagooglesearch_manages_http_429s c = true ->
  Forall (fun x => is_429 x = true) retries ->
  is_429 final = false ->
  script w = (retries ++ final :: rest)%list ->
  get_page L url c w = (Ret html, c', w') ->
  cool_off_after (List.length retries) (http_429_cool_off_time_in_minutes c)
    (http_429_cool_off_factor c)
  = Ret (http_429_cool_off_time_in_minutes c') /\
  http_429_cool_off_factor c' = http_429_cool_off_factor c /\
  (forall c2 w2, cool_off_step c2 (snd (fst (search L c2 w2)))) /\
  (forall (n : nat) (d f : Z),
      (0 <= d)%Z -> (1 <= f)%Z ->
      exists z, cool_off_after n (PyInt d) (PyInt f) = Ret (PyInt z) /\ (d <= z)%Z) /\
  (forall (d f : pynum) (x y : spec_float),
      duration_ok d -> factor_ok f ->
      to_float d = Ret x ->
      cool_off_after 1 d f = Ret (PyFloat y) ->
      SFleb (PyNum.float_round2 x) y = true /\
      (PyNum.float_round2 x = x -> SFleb x y = true) /\
      duration_ok (PyFloat y)).
Proof.
  intros Hm Hall Hfin Hs GP.
  destruct (get_page_retries retries final rest url c w html c' w' Hm Hall Hfin Hs GP)
    as (C & F & _).
  split; [exact C|]. split; [exact F|].
  split; [intros c2 w2; apply search_cool_off_step|].
  split; [intros n d f; apply cool_off_after_int_monotone|].
  intros d f x y. apply cool_off_step_not_below.
Qed.

(** A first page all of whose anchors have an [href] that the filter
    rejects (or a page without anchors): [search] returns the empty list
    after the request of the home page and that of the page. *)
Lemma zero_yield_first_page (c : SearchClient) (w : world)
  (code0 code1 : Z) (jar0 jar1 : dict) (body0 body1 : string) (rest : list exchange) :
  check_extra_params (url_parameters c) (extra_items (search_start c)) = Ret tt ->
  (0 <= max_search_result_urls_to_return c)%Z ->
  script w = Response code0 jar0 body0 :: Response code1 jar1 body1 :: rest ->
  (code0 =? 429)%Z = false ->
  (code1 =? 429)%Z = false ->
  String.eqb (if (code1 =? 200)%Z then body1 else EmptyString) HTTP_429_DETECTED = false ->
  Forall (rejected L)
    (anchors_of (BeautifulSoup L (if (code1 =? 200)%Z then body1 else EmptyString))) ->
  Forall (fun a => href a <> None)
    (anchors_of (BeautifulSoup L (if (code1 =? 200)%Z then body1 else EmptyString))) ->
  exists c' w' k,
    search L c w = (Ret (Some []), c', w') /\
    script w' = rest /\
    trace w' = (trace w ++ [EvGet (url_home c) (cookies c) (user_agent c);
                            EvGet (page_url c) k (user_agent c)])%list.
Proof.
  intros Hc Hmax Hs H0 H1 Hsent HR HB.
  rewrite search_unfold, Hc.
  destruct (search_start_cookies c) as (K1 & K2 & _ & E0).
  destruct (get_page_single (url_home c) (search_start c) w code0 jar0 body0 _ Hs
              (or_introl H0)) as (c1 & w1 & G1 & S1 & _ & T1 & (k1 & ->)).
  rewrite G1.
  destruct (get_page_single (page_url (set_cookies (search_start c) k1))
              (set_cookies (search_start c) k1) w1 code1 jar1 body1 rest S1
              (or_introl H1)) as (c2 & w2 & G2 & S2 & _ & T2 & (k2 & ->)).
  rewrite H1 in G2.
  assert (Hg : (total_valid_links_found (mkLocals 0 0 None)
                <= max_search_result_urls_to_return (set_cookies (search_start c) k1))%Z).
  { simpl. pose proof (settings_max _ _ (settings_search_start c)) as M.
    replace (max_search_result_urls_to_return (set_cookies (search_start c) k1))
      with (max_search_result_urls_to_return (search_start c))
      by (destruct (search_start c); reflexivity).
    lia. }
  destruct (zero_yield_page_ends_search (List.length (script w1)) (mkLocals 0 0 None)
              (set_cookies (search_start c) k1) w1 _ _ w2 Hg G2 Hsent HR (or_intror HB))
    as (w3 & E & S3 & T3).
  rewrite E.
  exists (set_cookies (set_cookies (search_start c) k1) k2), w3, k1.
  split; [|split].
  - assert (R : search_result_list (set_cookies (search_start c) k1) = [])
      by (rewrite <- E0; destruct (search_start c); reflexivity).
    rewrite R. reflexivity.
  - congruence.
  - rewrite T3, T2, T1, K1, K2. rewrite <- app_assoc. simpl.
    replace (page_url (set_cookies (search_start c) k1)) with (page_url c)
      by (rewrite <- (page_url_search_start c); destruct (search_start c); reflexivity).
    replace (cookies (set_cookies (search_start c) k1)) with k1
      by (destruct (search_start c); reflexivity).
    replace (user_agent (set_cookies (search_start c) k1))
      with (user_agent (search_start c)) by (destruct (search_start c); reflexivity).
    rewrite K2. reflexivity.
Qed.

(** Why verbose output repeats URLs: a string is never found in a list of
    dictionaries. *)
Lemma py_in_dicts (u : string) (l : list result_item) :
  Forall (fun it => exists r t d v, it = ItemDict r t d v) l -> py_in u l = false.
Proof.
  induction 1 as [|it l (r & t & d & v & ->) _ IH]; simpl; [reflexivity|exact IH].
Qed.

End Proofs.

(** * Closed instances *)

Local Open Scope string_scope.

(** C1: with verbose output the membership test compares the URL with the
    dictionaries of the list and never finds it: the anchor of
    [page_example], served on two consecutive pages, is entered twice
    (ranks 1 and 2), where plain output keeps one entry. *)
Theorem verbose_output_repeats_url :
  fst (fst (search ex_lib (ex_client true true 100)
              (ex_world [home_ok; Response 200 [] page_example;
                         Response 200 [] page_example; Response 200 [] ""])))
  = Ret (Some [ItemDict 1 "Example" "About example" "https://example.com/";
               ItemDict 2 "Example" "About example" "https://example.com/"]) /\
  fst (fst (search ex_lib (ex_client false true 100)
              (ex_world [home_ok; Response 200 [] page_example;
                         Response 200 [] page_example; Response 200 [] ""])))
  = Ret (Some [ItemStr "https://example.com/"]).
Proof. split; vm_compute; reflexivity. Qed.

(** C7: a first page whose only anchor has no [href] yields no link, yet
    [search] does not return the empty list: formatting the warning reads
    the local [link] before any assignment and [UnboundLocalError] leaves
    [search], after the home page and that one page were requested. *)
Theorem first_anchor_without_href_raises :
  Forall (rejected ex_lib) (anchors_of (BeautifulSoup ex_lib page_no_href)) /\
  exists c' w',
    search ex_lib (ex_client false true 100)
      (ex_world [home_ok; Response 200 [] page_no_href])
    = (Raise (UnboundLocalError
                "cannot access local variable 'link' where it is not associated with a value"),
       c', w') /\
    List.length (trace w') = 2%nat /\ script w' = [].
Proof.
  split.
  - repeat constructor.
  - eexists. eexists. split; [vm_compute; reflexivity|]. split; reflexivity.
Qed.

(** The same page later in a session, when [link] is bound, is skipped as
    intended and ends the search with the results found so far. *)
Lemma later_anchor_without_href_is_skipped :
  fst (fst (search ex_lib (ex_client false true 100)
              (ex_world [home_ok; Response 200 [] page_example;
                         Response 200 [] page_no_href])))
  = Ret (Some [ItemStr "https://example.com/"]).
Proof. vm_compute. reflexivity. Qed.

(** C10 does not extend to a negative cap: the guard of the loop fails
    at once; the home page is requested, no results page is, and [search]
    returns [None]. *)
Lemma negative_cap_requests_no_page :
  (max_search_result_urls_to_return (ex_client false true (-1)) <= 0)%Z /\
  exists c' w',
    search ex_lib (ex_client false true (-1))
      (ex_world [home_ok; Response 200 [] page_example])
    = (Ret None, c', w') /\
    trace w' = [EvGet "https://www.google.com/" None USER_AGENT] /\
    script w' = [Response 200 [] page_example].
Proof.
  split; [vm_compute; discriminate|].
  eexists. eexists. split; [vm_compute; reflexivity|]. split; reflexivity.
Qed.

(** With a cap of zero the first acceptable link is returned: one element
    more than the cap. *)
Lemma cap_zero_returns_one_result :
  fst (fst (search ex_lib (ex_client false true 0)
              (ex_world [home_ok; Response 200 [] page_three])))
  = Ret (Some [ItemStr "https://a.example/"]).
Proof. vm_compute. reflexivity. Qed.

(** A cap of zero on the three-link page. *)
Lemma cap_zero_search_witness :
  max_search_result_urls_to_return (ex_client false true 0) = 0%Z /\
  exists l,
    fst (fst (search ex_lib (ex_client false true 0)
                (ex_world [home_ok; Response 200 [] page_three]))) = Ret (Some l) /\
    (List.length l <= 1)%nat.
Proof.
  split; [reflexivity|].
  destruct (search ex_lib (ex_client false true 0)
              (ex_world [home_ok; Response 200 [] page_three]))
    as [[r c'] w'] eqn:E.
  assert (R : r = Ret (Some [ItemStr "https://a.example/"])).
  { change r with (fst (fst (r, c', w'))). rewrite <- E. vm_compute. reflexivity. }
  subst r.
  destruct (cap_zero_search ex_lib (ex_client false true 0) _ _ _ _ eq_refl E)
    as (l & El & Len & _).
  exists l. split; [simpl; congruence|exact Len].
Defined.

(** C4, the duration can go down under a factor of one: a cool-off time
    of 1.005 minutes (the double nearest to it lies just below) is 1.0
    minutes after one rate-limit event. The time is not negative and the
    factor is a finite float that is at least one. *)
Lemma rounding_lowers_cool_off :
  duration_ok (PyFloat (float_of_ratio 1005 1000)) /\
  factor_ok (PyFloat (float_of_ratio 1 1)) /\
  exists c' w',
    get_page ex_lib "https://www.google.com/"
      (ex_client_of (ex_args_cool_off (PyFloat (float_of_ratio 1005 1000))
                                      (PyFloat (float_of_ratio 1 1))))
      (ex_world [too_many_requests; home_ok])
    = (Ret "", c', w') /\
    http_429_cool_off_time_in_minutes c' = PyFloat (float_of_ratio 1 1) /\
    PyNum.compare_same (http_429_cool_off_time_in_minutes c')
      (PyFloat (float_of_ratio 1005 1000)) = Some Lt.
Proof.
  split; [split; vm_compute; reflexivity|].
  split; [repeat split; vm_compute; reflexivity|].
  eexists. eexists. split; [vm_compute; reflexivity|].
  split; vm_compute; reflexivity.
Qed.

(** The code does not look at the factor: a cool-off time of 60.0 minutes
    under a factor of 0.5 is 30.0 minutes after one rate-limit event. *)
Lemma factor_below_one_lowers_cool_off :
  exists c' w',
    get_page ex_lib "https://www.google.com/"
      (ex_client_of (ex_args_cool_off (PyFloat (float_of_ratio 60 1))
                                      (PyFloat (float_of_ratio 1 2))))
      (ex_world [too_many_requests; home_ok])
    = (Ret "", c', w') /\
    http_429_cool_off_time_in_minutes c' = PyFloat (float_of_ratio 30 1) /\
    PyNum.compare_same (http_429_cool_off_time_in_minutes c')
      (PyFloat (float_of_ratio 60 1)) = Some Lt.
Proof.
  eexists. eexists. split; [vm_compute; reflexivity|].
  split; vm_compute; reflexivity.
Qed.

(** The default policy, 60 minutes and a factor of 1.1, through five
    events: 66.0, 72.6, 79.86, 87.85 and 96.64, each rounded to two
    decimals. *)
Lemma default_cool_off_five_events :
  cool_off_after 5 (PyInt 60) (PyFloat (float_of_ratio 11 10))
  = Ret (PyFloat (float_of_ratio 9664 100)) /\
  cool_off_after 4 (PyInt 60) (PyFloat (float_of_ratio 11 10))
  = Ret (PyFloat (float_of_ratio 8785 100)).
Proof. split; vm_compute; reflexivity. Qed.

(** Two rate-limit events under the default policy: 60, 66.0, 72.6; the
    first event does not lower the time. *)
Lemma cool_off_after_rate_limits_witness :
  exists c' w',
    get_page ex_lib "https://www.google.com/" (ex_client false true 100)
      (ex_world [too_many_requests; too_many_requests; home_ok])
    = (Ret "", c', w') /\
    cool_off_after 2 (PyInt 60) (PyFloat (float_of_ratio 11 10))
    = Ret (http_429_cool_off_time_in_minutes c') /\
    http_429_cool_off_time_in_minutes c' = PyFloat (float_of_ratio 726 10) /\
    SFleb (float_of_ratio 60 1) (float_of_ratio 66 1) = true.
Proof.
  assert (H : forall x,
             x = get_page ex_lib "https://www.google.com/" (ex_client false true 100)
                   (ex_world [too_many_requests; too_many_requests; home_ok]) ->
             x = (Ret "", snd (fst x), snd x))
    by (intros x ->; vm_compute; reflexivity).
  specialize (H _ eq_refl).
  pose proof (cool_off_after_rate_limits ex_lib (ex_client false true 100)
                (ex_world [too_many_requests; too_many_requests; home_ok])
                [too_many_requests; too_many_requests] home_ok []
                "https://www.google.com/" "" _ _
                eq_refl
                ltac:(repeat constructor)
                eq_refl eq_refl H) as (T1 & _ & _ & _ & T5).
  eexists. eexists. split; [exact H|]. split; [exact T1|].
  split; [vm_compute; reflexivity|].
  refine (proj1 (proj2 (T5 (PyInt 60) (PyFloat (float_of_ratio 11 10))
                           (float_of_ratio 60 1) (float_of_ratio 66 1) _ _ _ _)) _).
  - simpl. lia.
  - repeat split; vm_compute; reflexivity.
  - vm_compute. reflexivity.
  - vm_compute. reflexivity.
  - vm_compute. reflexivity.
Defined.

(** A first results page answered with status 429 in a session that does
    not manage rate limits. *)
Lemma unmanaged_429_ends_search_witness :
  yagooglesearch_manages_http_429s (ex_client false false 100) = false /\
  exists c' w',
    search_loop ex_lib 1 (mkLocals 0 0 None) (ex_client false false 100)
      (ex_world [too_many_requests; Response 200 [] page_example])
    = (Ret (Some [ItemStr HTTP_429_DETECTED]), c', w') /\
    script w' = [Response 200 [] page_example].
Proof.
  split; [reflexivity|].
  destruct (proj1 (proj2 (unmanaged_429_ends_search ex_lib (ex_client false false 100)
                     (ex_world [too_many_requests; Response 200 [] page_example])
                     [] "" [Response 200 [] page_example] eq_refl eq_refl))
                  O (mkLocals 0 0 None))
    as (c' & w' & E & _ & S & _).
  - vm_compute. discriminate.
  - exists c', w'. split; [exact E|exact S].
Defined.

(** Extra parameters with and without the built-in key [num]. *)
Lemma extra_params_collision_witness :
  (exists p,
      In p builtin_url_parameters /\
      fst (fst (search ex_lib (ex_client_of (ex_args_extra (Some [("filter", "1"); ("num", "5")])))
                  (ex_world [home_ok])))
      = Raise (ValueError (overlap_message p))) /\
  check_extra_params builtin_url_parameters [("filter", "1")] = Ret tt.
Proof.
  split.
  - destruct (proj1 (extra_params_collision ex_lib
                       (ex_args_extra (Some [("filter", "1"); ("num", "5")]))
                       (ex_world []) (ex_world []) (ex_world [home_ok])
                       (ex_client_of (ex_args_extra (Some [("filter", "1"); ("num", "5")])))
                       eq_refl))
      as (p & Hp & _ & E).
    + exists "num". split; [vm_compute; tauto|simpl; tauto].
    + exists p. split; [exact Hp|]. rewrite E. reflexivity.
  - exact (proj1 (proj2 (extra_params_collision ex_lib
                           (ex_args_extra (Some [("filter", "1")]))
                           (ex_world []) (ex_world []) (ex_world [home_ok])
                           (ex_client_of (ex_args_extra (Some [("filter", "1")])))
                           eq_refl)
                   ltac:(vm_compute; intros k H K;
                         repeat (destruct H as [<-|H]; [destruct K as [K|[]]; discriminate K|]);
                         exact H))).
Defined.

(** The constructor called with [num=250]. *)
Lemma num_never_above_100_witness :
  init ex_lib (ex_args_num 250) (ex_world [])
  = (Ret (ex_client_of (ex_args_num 250)), snd (init ex_lib (ex_args_num 250) (ex_world []))) /\
  num (ex_client_of (ex_args_num 250)) = 100%Z /\
  In num_warning (log (snd (init ex_lib (ex_args_num 250) (ex_world [])))).
Proof.
  assert (H : init ex_lib (ex_args_num 250) (ex_world [])
              = (Ret (ex_client_of (ex_args_num 250)),
                 snd (init ex_lib (ex_args_num 250) (ex_world []))))
    by (vm_compute; reflexivity).
  split; [exact H|].
  apply (proj1 (proj2 (num_never_above_100 ex_lib _ _ _ _ H))).
  vm_compute. reflexivity.
Defined.

(** The three-link page with a cap of two: the third anchor is not looked
    at and the next page is not requested. *)
Lemma cap_reached_mid_page_witness :
  (1 <= max_search_result_urls_to_return (ex_client false true 2))%Z /\
  exists c3 w3,
    search_loop ex_lib 1 (mkLocals 0 0 None) (ex_client false true 2)
      (ex_world [Response 200 [] page_three; Response 200 [] page_example])
    = (Ret (Some [ItemStr "https://a.example/"; ItemStr "https://b.example/"]), c3, w3) /\
    script w3 = [Response 200 [] page_example] /\
    List.length (trace w3) = 1%nat.
Proof.
  assert (Hcap : (1 <= max_search_result_urls_to_return (ex_client false true 2))%Z)
    by (vm_compute; discriminate).
  split; [exact Hcap|].
  pose proof (proj2 (cap_reached_mid_page ex_lib (ex_client false true 2)
                       (ex_world []) Hcap)) as P.
  specialize (P O (mkLocals 0 0 None) (ex_client false true 2)
                (ex_world [Response 200 [] page_three; Response 200 [] page_example])
                page_three
                (set_cookies (ex_client false true 2) (Some []))
                (snd (get_page ex_lib (page_url (ex_client false true 2))
                        (ex_client false true 2)
                        (ex_world [Response 200 [] page_three;
                                   Response 200 [] page_example])))
                [mkTag (Some "https://a.example/") "A" None None]
                (mkTag (Some "https://b.example/") "B" None None)
                [mkTag (Some "https://c.example/") "C" None None]
                (mkLocals 1 1 (Some (Some "https://a.example/")))
                (set_search_result_list (set_cookies (ex_client false true 2) (Some []))
                   [ItemStr "https://a.example/"])
                (snd (get_page ex_lib (page_url (ex_client false true 2))
                        (ex_client false true 2)
                        (ex_world [Response 200 [] page_three;
                                   Response 200 [] page_example])))
                "https://b.example/" "https://b.example/"
                (mkLocals 2 2 (Some (Some "https://b.example/")))
                (set_search_result_list (set_cookies (ex_client false true 2) (Some []))
                   [ItemStr "https://a.example/"; ItemStr "https://b.example/"])).
  destruct P as (w3 & E & S & T & _).
  - vm_compute. discriminate.
  - vm_compute. reflexivity.
  - vm_compute. reflexivity.
  - vm_compute. reflexivity.
  - vm_compute. reflexivity.
  - vm_compute. reflexivity.
  - reflexivity.
  - vm_compute. reflexivity.
  - discriminate.
  - vm_compute. reflexivity.
  - vm_compute. discriminate.
  - eexists. exists w3. split; [exact E|]. split.
    + rewrite S. vm_compute. reflexivity.
    + rewrite T. vm_compute. reflexivity.
Defined.

(** * Further properties *)

(** ** Closed runs in the example environment *)

Lemma ex_init_returns (a : init_args) :
  fst (ex_init a) = Ret (ex_client_of a) ->
  init ex_lib a (ex_world []) = (Ret (ex_client_of a), snd (ex_init a)).
Proof.
  unfold ex_init. destruct (init ex_lib a (ex_world [])) as [r w]. simpl.
  intros ->. reflexivity.
Qed.

Lemma ex_search_returns (c : SearchClient) (w : world) (l : list result_item) :
  fst (fst (search ex_lib c w)) = Ret (Some l) ->
  search ex_lib c w = (Ret (Some l), snd (fst (search ex_lib c w)), snd (search ex_lib c w)).
Proof.
  destruct (search ex_lib c w) as [[r c'] w']. simpl. intros ->. reflexivity.
Qed.

(** ** Quoting and unquoting *)

Lemma string_app_nil_r (s : string) : s ++ "" = s.
Proof. induction s as [|c s IH]; simpl; [reflexivity|rewrite IH; reflexivity]. Qed.

Lemma string_app_assoc (a b c : string) : (a ++ b) ++ c = a ++ (b ++ c).
Proof. induction a as [|x a IH]; simpl; [reflexivity|rewrite IH; reflexivity]. Qed.

Lemma concat_all_cons (x : string) (xs : list string) :
  PyStr.concat_all (x :: xs) = x ++ PyStr.concat_all xs.
Proof.
  unfold PyStr.concat_all. destruct xs as [|y ys]; simpl.
  - rewrite string_app_nil_r. reflexivity.
  - reflexivity.
Qed.

Lemma mem_false_forallb (c : ascii) (p : ascii -> bool) (s : string) :
  PyStr.forallb_chars p s = true -> p c = false -> PyStr.mem c s = false.
Proof.
  intros H Hc. induction s as [|x s IH]; simpl in *; [reflexivity|].
  apply andb_true_iff in H. destruct H as [Hx Hs].
  rewrite (IH Hs). destruct (Ascii.eqb_spec x c) as [->|]; [congruence|reflexivity].
Qed.

Lemma forallb_chars_impl (p q : ascii -> bool) (s : string) :
  (forall c, p c = true -> q c = true) ->
  PyStr.forallb_chars p s = true -> PyStr.forallb_chars q s = true.
Proof.
  intros I. induction s as [|x s IH]; simpl; [reflexivity|].
  intros H. apply andb_true_iff in H. destruct H as [Hx Hs].
  rewrite (I _ Hx), (IH Hs). reflexivity.
Qed.

Lemma forallb_chars_app (p : ascii -> bool) (a b : string) :
  PyStr.forallb_chars p (a ++ b) = PyStr.forallb_chars p a && PyStr.forallb_chars p b.
Proof.
  induction a as [|x a IH]; simpl; [reflexivity|]. rewrite IH, andb_assoc. reflexivity.
Qed.

Lemma split1_no_sep (c : ascii) (s : string) :
  PyStr.mem c s = false -> PyStr.split1 c s = (s, None).
Proof.
  induction s as [|x s IH]; simpl; [reflexivity|].
  intros H. apply orb_false_iff in H. destruct H as [Hx Hs].
  rewrite Hx, (IH Hs). reflexivity.
Qed.

Lemma split_no_sep (c : ascii) (s : string) :
  PyStr.mem c s = false -> PyStr.split c s = [s].
Proof.
  induction s as [|x s IH]; simpl; [reflexivity|].
  intros H. apply orb_false_iff in H. destruct H as [Hx Hs].
  rewrite Hx, (IH Hs). reflexivity.
Qed.

Lemma remove_chars_none (p : ascii -> bool) (s : string) :
  PyStr.forallb_chars (fun c => negb (p c)) s = true -> PyStr.remove_chars p s = s.
Proof.
  induction s as [|x s IH]; simpl; [reflexivity|].
  intros H. apply andb_true_iff in H. destruct H as [Hx Hs].
  apply negb_true_iff in Hx. rewrite Hx, (IH Hs). reflexivity.
Qed.

(** Every byte is written as a percent sign and two digits that
    [unquote_item] reads back. *)
Lemma hex_round_trip (c : ascii) :
  Urllib.hexval (Urllib.hexdigit (PyStr.code c / 16)) = Some (PyStr.code c / 16)%N /\
  Urllib.hexval (Urllib.hexdigit (PyStr.code c mod 16)) = Some (PyStr.code c mod 16)%N /\
  ascii_of_N (16 * (PyStr.code c / 16) + PyStr.code c mod 16) = c /\
  Urllib.always_safe (Urllib.hexdigit (PyStr.code c / 16)) = true /\
  Urllib.always_safe (Urllib.hexdigit (PyStr.code c mod 16)) = true.
Proof.
  destruct c as [[] [] [] [] [] [] [] []]; vm_compute; repeat split; reflexivity.
Qed.

Lemma always_safe_facts (c : ascii) :
  Urllib.always_safe c = true ->
  PyStr.is_ascii c = true /\ Ascii.eqb c "%" = false /\ Ascii.eqb c "+" = false /\
  Ascii.eqb c " " = false.
Proof.
  destruct c as [[] [] [] [] [] [] [] []]; vm_compute; intros H;
    try discriminate H; repeat split; reflexivity.
Qed.

Lemma unquote_to_bytes_plain (c : ascii) (t : string) :
  Ascii.eqb c "%" = false ->
  Urllib.unquote_to_bytes (String c t) = String c (Urllib.unquote_to_bytes t).
Proof.
  intros H. unfold Urllib.unquote_to_bytes. simpl. rewrite H.
  pose proof (split_not_nil "%" t) as N.
  destruct (PyStr.split "%" t) as [|h tl]; [congruence|]. reflexivity.
Qed.

Lemma unquote_to_bytes_escape (a b : ascii) (x y : N) (t : string) :
  Urllib.hexval a = Some x -> Urllib.hexval b = Some y ->
  Ascii.eqb a "%" = false -> Ascii.eqb b "%" = false ->
  Urllib.unquote_to_bytes (String "%" (String a (String b t)))
  = String (ascii_of_N (16 * x + y)) (Urllib.unquote_to_bytes t).
Proof.
  intros Ha Hb Na Nb. unfold Urllib.unquote_to_bytes.
  change (PyStr.split "%" (String "%" (String a (String b t))))
    with (EmptyString :: PyStr.split "%" (String a (String b t))).
  simpl PyStr.split. rewrite Na, Nb.
  pose proof (split_not_nil "%" t) as N.
  destruct (PyStr.split "%" t) as [|h tl]; [congruence|].
  simpl map. rewrite concat_all_cons. unfold Urllib.unquote_item at 1.
  rewrite Ha, Hb. reflexivity.
Qed.

Lemma unquote_to_bytes_quote_bytes (safe : ascii -> bool) (s : string) :
  safe "%"%char = false ->
  Urllib.unquote_to_bytes (Urllib.quote_bytes safe s) = s.
Proof.
  intros Hp. induction s as [|c s IH]; [reflexivity|]. simpl.
  destruct (safe c) eqn:Sc.
  - rewrite unquote_to_bytes_plain, IH; [reflexivity|].
    destruct (Ascii.eqb_spec c "%"%char) as [->|]; [congruence|reflexivity].
  - destruct (hex_round_trip c) as (H1 & H2 & H3 & H4 & H5).
    rewrite (unquote_to_bytes_escape _ _ _ _ _ H1 H2), H3, IH; [reflexivity| |].
    + apply always_safe_facts in H4. tauto.
    + apply always_safe_facts in H5. tauto.
Qed.

Lemma quote_bytes_chars (safe : ascii -> bool) (s : string) :
  PyStr.forallb_chars (fun c => safe c || Urllib.always_safe c || Ascii.eqb c "%")
    (Urllib.quote_bytes safe s) = true.
Proof.
  induction s as [|c s IH]; [reflexivity|]. simpl.
  destruct (safe c) eqn:Sc; simpl.
  - rewrite Sc, IH. reflexivity.
  - destruct (hex_round_trip c) as (_ & _ & _ & H4 & H5).
    rewrite H4, H5, IH. rewrite !orb_true_r. reflexivity.
Qed.

Lemma quote_bytes_without_escape (safe : ascii -> bool) (s : string) :
  PyStr.mem "%" (Urllib.quote_bytes safe s) = false -> Urllib.quote_bytes safe s = s.
Proof.
  induction s as [|c s IH]; [reflexivity|]. simpl.
  destruct (safe c); simpl.
  - intros H. apply orb_false_iff in H. destruct H as [_ H]. rewrite (IH H). reflexivity.
  - discriminate.
Qed.

Lemma replace_char_back (a b : ascii) (s : string) :
  PyStr.mem b s = false ->
  PyStr.replace_char b a (PyStr.replace_char a b s) = s.
Proof.
  unfold PyStr.replace_char.
  induction s as [|x s IH]; simpl; [reflexivity|].
  intros H. apply orb_false_iff in H. destruct H as [Hx Hs].
  rewrite (IH Hs). f_equal.
  destruct (Ascii.eqb_spec x a) as [->|Na].
  - rewrite Ascii.eqb_refl. reflexivity.
  - rewrite Hx. reflexivity.
Qed.

Lemma ascii_runs_all_ascii (s : string) :
  s <> "" -> PyStr.forallb_chars PyStr.is_ascii s = true ->
  Urllib.ascii_runs s = [(true, s)].
Proof.
  induction s as [|c s IH]; [congruence|]. intros _ H. simpl in H.
  apply andb_true_iff in H. destruct H as [Hc Hs]. simpl.
  destruct s as [|d s'].
  - simpl. rewrite Hc. reflexivity.
  - rewrite (IH ltac:(discriminate) Hs). rewrite Hc. reflexivity.
Qed.

Section QuotePlus.

Variable L : pylib.

Lemma quote_plus_unfold (s : string) :
  Urllib.quote_plus s = PyStr.replace_char " " "+" (Urllib.quote_bytes plus_safe s).
Proof. reflexivity. Qed.

Lemma plus_safe_chars (s : string) :
  PyStr.forallb_chars (fun c => Urllib.always_safe c || Ascii.eqb c " " || Ascii.eqb c "%")
    (Urllib.quote_bytes plus_safe s) = true.
Proof.
  eapply forallb_chars_impl; [|apply (quote_bytes_chars plus_safe s)].
  intros c. unfold plus_safe. destruct (Urllib.always_safe c), (Ascii.eqb c " "), (Ascii.eqb c "%");
    simpl; auto.
Qed.

Lemma plus_safe_char_facts (c : ascii) :
  Urllib.always_safe c || Ascii.eqb c " " || Ascii.eqb c "%" = true ->
  PyStr.is_ascii c = true /\ Ascii.eqb c "+" = false.
Proof.
  destruct c as [[] [] [] [] [] [] [] []]; vm_compute; intros H;
    try discriminate H; repeat split; reflexivity.
Qed.

Lemma unquote_quote_plus (s : string) :
  utf8_decode_replace L s = s ->
  Urllib.unquote L (PyStr.replace_char "+" " " (Urllib.quote_plus s)) = s.
Proof.
  intros HU. rewrite quote_plus_unfold.
  pose proof (plus_safe_chars s) as C.
  rewrite replace_char_back.
  2:{ eapply mem_false_forallb; [exact C|reflexivity]. }
  unfold Urllib.unquote.
  destruct (PyStr.mem "%" (Urllib.quote_bytes plus_safe s)) eqn:M; simpl.
  - rewrite ascii_runs_all_ascii.
    + simpl. rewrite unquote_to_bytes_quote_bytes by reflexivity.
      unfold PyStr.concat_all. simpl. exact HU.
    + intros E. rewrite E in M. discriminate.
    + eapply forallb_chars_impl; [|exact C]. intros c H.
      apply plus_safe_char_facts in H. tauto.
  - apply quote_bytes_without_escape. exact M.
Qed.

Lemma quoted_char_of_plus_safe (x : ascii) :
  Urllib.always_safe x || Ascii.eqb x " " || Ascii.eqb x "%" = true ->
  quoted_char (if Ascii.eqb x " " then "+"%char else x) = true.
Proof.
  destruct x as [[] [] [] [] [] [] [] []]; vm_compute; intros H;
    try discriminate H; reflexivity.
Qed.

Lemma quote_plus_chars (s : string) :
  PyStr.forallb_chars quoted_char (Urllib.quote_plus s) = true.
Proof.
  rewrite quote_plus_unfold. pose proof (plus_safe_chars s) as C.
  revert C. generalize (Urllib.quote_bytes plus_safe s). intros t.
  unfold PyStr.replace_char. induction t as [|x t IH]; simpl; [reflexivity|].
  intros H. apply andb_true_iff in H. destruct H as [Hx Ht].
  rewrite (IH Ht), andb_true_r. apply quoted_char_of_plus_safe. exact Hx.
Qed.

End QuotePlus.

(** ** The two halves of the link filter *)

Ltac urlparse_tail :=
  unfold obind; repeat break_match; intros H; try discriminate H;
  injection H as <-; reflexivity.

Section HostCheck.

Variable L : pylib.

Lemma urlparse_relative_wrapper (r : string) (po : Urllib.ParseResult) :
  Urllib.urlparse L ("/url?" ++ r) "http" = Ret po -> Urllib.netloc po = "".
Proof.
  unfold Urllib.urlparse.
  cbn -[PyStr.split1 PyStr.mem Urllib.splitparams Urllib.checknetloc].
  generalize (PyStr.remove_chars Urllib.unsafe_url_byte r). intros r'.
  cbn -[PyStr.mem Urllib.splitparams Urllib.checknetloc].
  destruct (PyStr.split1 ":" r') as [a [after|]];
    cbn -[PyStr.mem Urllib.splitparams Urllib.checknetloc PyStr.split1];
    urlparse_tail.
Qed.

Lemma urlparse_absolute_wrapper (r : string) (po : Urllib.ParseResult) :
  Urllib.urlparse L ("http://www.google.com/url?" ++ r) "http" = Ret po ->
  Urllib.netloc po = "www.google.com".
Proof.
  unfold Urllib.urlparse.
  cbn -[PyStr.split1 PyStr.mem Urllib.splitparams Urllib.checknetloc Urllib.break].
  generalize (PyStr.remove_chars Urllib.unsafe_url_byte r). intros r'.
  cbn -[PyStr.mem Urllib.splitparams Urllib.checknetloc Urllib.break].
  cbn -[Urllib.splitparams Urllib.checknetloc PyStr.split1].
  urlparse_tail.
Qed.

(** A link that the filter returns is not one of the two wrappers. *)
Lemma accepted_link_is_no_wrapper (u : string) (po : Urllib.ParseResult) :
  Urllib.urlparse L u "http" = Ret po ->
  Urllib.netloc po <> "" ->
  PyStr.contains "google" (PyStr.lower (Urllib.netloc po)) = false ->
  PyStr.startswith u "/url?" || PyStr.startswith u "http://www.google.com/url?" = false.
Proof.
  intros U N G.
  destruct (PyStr.startswith u "/url?") eqn:P1.
  - apply startswith_app in P1. destruct P1 as [r ->].
    apply urlparse_relative_wrapper in U. congruence.
  - destruct (PyStr.startswith u "http://www.google.com/url?") eqn:P2; [|reflexivity].
    apply startswith_app in P2. destruct P2 as [r ->].
    apply urlparse_absolute_wrapper in U. rewrite U in G. vm_compute in G. discriminate.
Qed.

Lemma filter_body_direct (link : string) :
  PyStr.startswith link "/url?" || PyStr.startswith link "http://www.google.com/url?" = false ->
  filter_body L link = host_check L link.
Proof.
  intros P. unfold filter_body, host_check. rewrite P. simpl.
  destruct (Urllib.urlparse L link "http") as [po|e|]; simpl; try reflexivity.
  destruct (Urllib.netloc po); reflexivity.
Qed.

Lemma host_check_some (link u : string) :
  host_check L link = Ret (Some u) ->
  u = link /\
  exists po, Urllib.urlparse L link "http" = Ret po /\ Urllib.netloc po <> "" /\
             PyStr.contains "google" (PyStr.lower (Urllib.netloc po)) = false.
Proof.
  unfold host_check. remember (PyStr.contains "google") as g eqn:G.
  destruct (Urllib.urlparse L link "http") as [po|e|]; simpl; try discriminate.
  destruct (Urllib.netloc po) as [|x n] eqn:N; [discriminate|]. cbv iota beta.
  destruct (g (PyStr.lower (String x n))) eqn:C; [discriminate|].
  intros H. injection H as <-. split; [reflexivity|].
  exists po. rewrite N. repeat split; [discriminate|exact C].
Qed.

Lemma host_check_accepts (link : string) (po : Urllib.ParseResult) :
  Urllib.urlparse L link "http" = Ret po -> Urllib.netloc po <> "" ->
  PyStr.contains "google" (PyStr.lower (Urllib.netloc po)) = false ->
  host_check L link = Ret (Some link).
Proof.
  intros U N G. unfold host_check. remember (PyStr.contains "google") as g eqn:Eg.
  rewrite U. simpl.
  destruct (Urllib.netloc po) as [|x n]; [congruence|]. cbv iota beta.
  rewrite G. reflexivity.
Qed.

Lemma filter_body_host_check (h : string) (u : option string) :
  filter_body L h = Ret u ->
  exists link, host_check L link = Ret u /\
    (PyStr.startswith h "/url?" || PyStr.startswith h "http://www.google.com/url?" = false ->
     link = h).
Proof.
  unfold filter_body. intros B.
  match type of B with
  | obind ?x _ = _ => destruct x as [link|e|] eqn:S1; simpl in B; try discriminate
  end.
  exists link. split.
  - unfold host_check. destruct (Urllib.urlparse L link "http") as [po|e|]; simpl in *;
      try discriminate. rewrite <- B. destruct (Urllib.netloc po); reflexivity.
  - intros P. rewrite P in S1. injection S1 as <-. reflexivity.
Qed.

End HostCheck.

(** ** The wrapper around a quoted link *)

Lemma quoted_char_facts (c : ascii) :
  quoted_char c = true ->
  Urllib.unsafe_url_byte c = false /\
  Ascii.eqb c ":" = false /\ Ascii.eqb c "#" = false /\ Ascii.eqb c "?" = false /\
  Ascii.eqb c "&" = false /\ Ascii.eqb c "=" = false /\ Ascii.eqb c ";" = false /\
  Ascii.eqb c "/" = false /\ Ascii.eqb c " " = false.
Proof.
  destruct c as [[] [] [] [] [] [] [] []]; vm_compute; intros H;
    try discriminate H; repeat split; reflexivity.
Qed.

Lemma quoted_no (c : ascii) (q : string) :
  PyStr.forallb_chars quoted_char q = true -> quoted_char c = false ->
  PyStr.mem c q = false.
Proof. intros H C. eapply mem_false_forallb; eassumption. Qed.

Section QuotedWrapper.

Variable L : pylib.

Lemma urlparse_quoted_wrapper (q : string) :
  PyStr.forallb_chars quoted_char q = true ->
  Urllib.urlparse L ("/url?q=" ++ q) "http"
  = Ret (Urllib.mkParseResult "http" "" "/url" "" ("q=" ++ q) "").
Proof.
  intros Q. unfold Urllib.urlparse.
  cbn -[PyStr.split1 PyStr.mem Urllib.splitparams Urllib.checknetloc].
  rewrite (remove_chars_none Urllib.unsafe_url_byte q).
  2:{ eapply forallb_chars_impl; [|exact Q]. intros c H.
      apply quoted_char_facts in H. destruct H as (H & _). rewrite H. reflexivity. }
  cbn -[PyStr.mem Urllib.splitparams Urllib.checknetloc].
  rewrite (split1_no_sep ":" q) by (apply quoted_no; [exact Q|reflexivity]).
  cbn -[PyStr.mem Urllib.splitparams Urllib.checknetloc PyStr.split1].
  cbn -[PyStr.mem Urllib.splitparams Urllib.checknetloc].
  rewrite (split1_no_sep "#" q) by (apply quoted_no; [exact Q|reflexivity]).
  cbn. reflexivity.
Qed.

Lemma parse_qs_quoted_q (q : string) :
  PyStr.forallb_chars quoted_char q = true ->
  Urllib.parse_qs L ("q=" ++ q)
  = match q with
    | EmptyString => []
    | _ => [("q", [Urllib.unquote L (PyStr.replace_char "+" " " q)])]
    end.
Proof.
  intros Q. unfold Urllib.parse_qs, Urllib.parse_qsl.
  change ("q=" ++ q) with (String "q" (String "=" q)).
  cbv iota beta.
  rewrite split_no_sep.
  2:{ simpl. apply quoted_no; [exact Q|reflexivity]. }
  simpl. destruct q; reflexivity.
Qed.

End QuotedWrapper.

(** ** What the link filter accepts *)

Lemma quote_bytes_empty (safe : ascii -> bool) (s : string) :
  Urllib.quote_bytes safe s = "" -> s = "".
Proof. destruct s as [|c s]; [reflexivity|]. simpl. destruct (safe c); discriminate. Qed.

Lemma quote_plus_empty (s : string) : Urllib.quote_plus s = "" -> s = "".
Proof.
  unfold Urllib.quote_plus, PyStr.replace_char. intros H.
  apply (quote_bytes_empty (fun c => Urllib.always_safe c || Ascii.eqb c " ")).
  destruct (Urllib.quote_bytes _ s); [reflexivity|discriminate].
Qed.

Section FilterAccepts.

Variable L : pylib.

(** X1: a link that [filter_search_result_urls] returns parses with a host
    that is not empty and does not contain [google], in whatever case; and
    when the [href] of the anchor is not one of the two redirect wrappers,
    the link returned is the [href] itself, unchanged. *)
Theorem accepted_link_has_foreign_host (h u : string) :
  filter_search_result_urls L h = Ret (Some u) ->
  (exists po, Urllib.urlparse L u "http" = Ret po /\
              Urllib.netloc po <> "" /\
              PyStr.contains "google" (PyStr.lower (Urllib.netloc po)) = false) /\
  (PyStr.startswith h "/url?" || PyStr.startswith h "http://www.google.com/url?" = false ->
   u = h).
Proof.
  unfold filter_search_result_urls. intros H.
  destruct (filter_body L h) as [l|e|] eqn:B; try discriminate.
  injection H as ->.
  destruct (filter_body_host_check L h _ B) as (link & HC & Hh).
  apply host_check_some in HC. destruct HC as (-> & po & U & N & G).
  split; [exists po; auto|]. intros P. apply Hh. exact P.
Qed.

(** X2: the filter is idempotent on what it accepts: a link that it
    returns for some [href] is returned unchanged when it is filtered
    again. *)
Theorem filter_search_result_urls_idempotent (h u : string) :
  filter_search_result_urls L h = Ret (Some u) ->
  filter_search_result_urls L u = Ret (Some u).
Proof.
  unfold filter_search_result_urls at 1. intros H.
  destruct (filter_body L h) as [l|e|] eqn:B; try discriminate.
  injection H as ->.
  destruct (filter_body_host_check L h _ B) as (link & HC & _).
  apply host_check_some in HC. destruct HC as (-> & po & U & N & G).
  unfold filter_search_result_urls.
  rewrite (filter_body_direct L link (accepted_link_is_no_wrapper L link po U N G)).
  rewrite (host_check_accepts L link po U N G). reflexivity.
Qed.

Lemma obind_ret {A B : Type} (a : A) (f : A -> outcome B) : obind (Ret a) f = f a.
Proof. reflexivity. Qed.

Lemma filter_body_wrapped (link : string) :
  PyStr.startswith link "/url?" || PyStr.startswith link "http://www.google.com/url?" = true ->
  filter_body L link
  = obind (obind (Urllib.urlparse L link "http") (fun po =>
             match Urllib.getitem (Urllib.parse_qs L (Urllib.query po)) "q" with
             | Ret vs => Urllib.first vs
             | Raise (KeyError _) =>
                 obind (Urllib.getitem (Urllib.parse_qs L (Urllib.query po)) "url")
                       Urllib.first
             | Raise e => Raise e
             | Timeout => Timeout
             end))
          (host_check L).
Proof.
  intros P. unfold filter_body, host_check.
  remember (PyStr.contains "google") as g eqn:G. rewrite P.
  match goal with
  | |- obind ?x _ = obind ?y _ => change y with x; destruct x as [l|e|]; try reflexivity
  end.
  simpl. destruct (Urllib.urlparse L l "http") as [po|e|]; try reflexivity.
  simpl. destruct (Urllib.netloc po); reflexivity.
Qed.

(** X3: unwrapping undoes quoting. For a link [u] that is valid UTF-8 and
    is not itself a wrapper, the filter treats the redirect [/url?q=]
    followed by [quote_plus u] exactly as it treats [u]. *)
Theorem filter_unwraps_quoted_link (u : string) :
  utf8_decode_replace L u = u ->
  PyStr.startswith u "/url?" || PyStr.startswith u "http://www.google.com/url?" = false ->
  filter_search_result_urls L ("/url?q=" ++ Urllib.quote_plus u)
  = filter_search_result_urls L u.
Proof.
  intros HU P.
  unfold filter_search_result_urls.
  rewrite (filter_body_direct L u P).
  rewrite filter_body_wrapped by reflexivity.
  rewrite (urlparse_quoted_wrapper L _ (quote_plus_chars u)).
  rewrite obind_ret.
  change (Urllib.query (Urllib.mkParseResult "http" "" "/url" "" ("q=" ++ Urllib.quote_plus u) ""))
    with ("q=" ++ Urllib.quote_plus u).
  rewrite (parse_qs_quoted_q L _ (quote_plus_chars u)).
  destruct (Urllib.quote_plus u) as [|c q] eqn:Q.
  - apply quote_plus_empty in Q. subst u. reflexivity.
  - rewrite <- Q, (unquote_quote_plus L u HU). reflexivity.
Qed.

End FilterAccepts.

Lemma accepted_link_has_foreign_host_witness :
  filter_search_result_urls ex_lib "/url?q=https://example.com/page&sa=U"
  = Ret (Some "https://example.com/page") /\
  exists po, Urllib.urlparse ex_lib "https://example.com/page" "http" = Ret po /\
             Urllib.netloc po <> "".
Proof.
  assert (H : filter_search_result_urls ex_lib "/url?q=https://example.com/page&sa=U"
              = Ret (Some "https://example.com/page")) by (vm_compute; reflexivity).
  split; [exact H|].
  destruct (proj1 (accepted_link_has_foreign_host ex_lib _ _ H)) as (po & U & N & _).
  exists po. split; assumption.
Defined.

Lemma filter_search_result_urls_idempotent_witness :
  filter_search_result_urls ex_lib "/url?url=https://example.org"
  = Ret (Some "https://example.org") /\
  filter_search_result_urls ex_lib "https://example.org" = Ret (Some "https://example.org").
Proof.
  assert (H : filter_search_result_urls ex_lib "/url?url=https://example.org"
              = Ret (Some "https://example.org")) by (vm_compute; reflexivity).
  split; [exact H|]. exact (filter_search_result_urls_idempotent ex_lib _ _ H).
Defined.

Lemma filter_unwraps_quoted_link_witness :
  Urllib.quote_plus "https://example.com/a b?x=1&y=2"
  = "https%3A%2F%2Fexample.com%2Fa+b%3Fx%3D1%26y%3D2" /\
  filter_search_result_urls ex_lib
    ("/url?q=" ++ Urllib.quote_plus "https://example.com/a b?x=1&y=2")
  = filter_search_result_urls ex_lib "https://example.com/a b?x=1&y=2".
Proof.
  split; [vm_compute; reflexivity|].
  apply (filter_unwraps_quoted_link ex_lib); reflexivity.
Defined.

(** ** The language of the results *)

Lemma split1_spec (c : ascii) (s : string) :
  forall a o, PyStr.split1 c s = (a, o) ->
    PyStr.mem c a = false /\
    s = a ++ match o with None => "" | Some t => String c t end.
Proof.
  induction s as [|x s IH]; simpl; intros a o H.
  - injection H as <- <-. split; reflexivity.
  - destruct (Ascii.eqb_spec x c) as [->|N].
    + injection H as <- <-. split; reflexivity.
    + destruct (PyStr.split1 c s) as [a' o'] eqn:E.
      injection H as <- <-. destruct (IH a' o' eq_refl) as [M S].
      split.
      * simpl. rewrite M. destruct (Ascii.eqb_spec x c); [contradiction|reflexivity].
      * simpl. rewrite <- S. reflexivity.
Qed.

Lemma split1_some (c : ascii) (s : string) :
  PyStr.mem c s = true -> exists a t, PyStr.split1 c s = (a, Some t).
Proof.
  induction s as [|x s IH]; simpl; [discriminate|].
  destruct (Ascii.eqb x c); simpl.
  - intros _. eauto.
  - intros H. destruct (IH H) as (a & t & ->). eauto.
Qed.

Lemma split_split1 (c : ascii) (s : string) :
  PyStr.split c s =
    match PyStr.split1 c s with
    | (a, None) => [a]
    | (a, Some t) => a :: PyStr.split c t
    end.
Proof.
  induction s as [|x s IH]; simpl; [reflexivity|].
  destruct (Ascii.eqb x c); [reflexivity|].
  rewrite IH. destruct (PyStr.split1 c s) as [a [t|]]; reflexivity.
Qed.

Lemma split1_app (c : ascii) (a t : string) :
  PyStr.mem c a = false -> PyStr.split1 c (a ++ String c t) = (a, Some t).
Proof.
  induction a as [|x a IH]; simpl.
  - intros _. rewrite Ascii.eqb_refl. reflexivity.
  - intros H. apply orb_false_iff in H. destruct H as [Hx Ha].
    rewrite Hx, (IH Ha). reflexivity.
Qed.

Lemma mem_app (c : ascii) (a b : string) :
  PyStr.mem c (a ++ b) = PyStr.mem c a || PyStr.mem c b.
Proof.
  induction a as [|x a IH]; simpl; [reflexivity|]. rewrite IH, orb_assoc. reflexivity.
Qed.

Lemma mem_map_chars (f : ascii -> ascii) (c : ascii) (s : string) :
  (forall x, Ascii.eqb (f x) c = Ascii.eqb x c) ->
  PyStr.mem c (PyStr.map_chars f s) = PyStr.mem c s.
Proof.
  intros H. induction s as [|x s IH]; simpl; [reflexivity|]. rewrite H, IH. reflexivity.
Qed.

Lemma map_chars_idem (f : ascii -> ascii) (s : string) :
  (forall x, f (f x) = f x) -> PyStr.map_chars f (PyStr.map_chars f s) = PyStr.map_chars f s.
Proof.
  intros H. induction s as [|x s IH]; simpl; [reflexivity|]. rewrite H, IH. reflexivity.
Qed.

Lemma case_char_facts (x : ascii) :
  Ascii.eqb (PyStr.lower_char x) "-" = Ascii.eqb x "-" /\
  Ascii.eqb (PyStr.upper_char x) "-" = Ascii.eqb x "-" /\
  PyStr.lower_char (PyStr.lower_char x) = PyStr.lower_char x /\
  PyStr.upper_char (PyStr.upper_char x) = PyStr.upper_char x.
Proof.
  destruct x as [[] [] [] [] [] [] [] []]; vm_compute; repeat split; reflexivity.
Qed.

Lemma mem_dash_lower (s : string) : PyStr.mem "-" (PyStr.lower s) = PyStr.mem "-" s.
Proof. apply mem_map_chars. intros x. apply case_char_facts. Qed.

Lemma mem_dash_upper (s : string) : PyStr.mem "-" (PyStr.upper s) = PyStr.mem "-" s.
Proof. apply mem_map_chars. intros x. apply case_char_facts. Qed.

Lemma lower_idem (s : string) : PyStr.lower (PyStr.lower s) = PyStr.lower s.
Proof. apply map_chars_idem. intros x. apply case_char_facts. Qed.

Lemma upper_idem (s : string) : PyStr.upper (PyStr.upper s) = PyStr.upper s.
Proof. apply map_chars_idem. intros x. apply case_char_facts. Qed.

Section LangResult.

Variable L : pylib.

(** The first two components of a text with a dash. *)
Lemma split_dash (l : string) :
  PyStr.mem "-" l = true ->
  exists a b rest more,
    PyStr.split "-" l = a :: b :: more /\
    l = a ++ "-" ++ b ++ rest /\
    PyStr.mem "-" a = false /\ PyStr.mem "-" b = false /\
    (rest = "" \/ PyStr.startswith rest "-" = true).
Proof.
  intros M. destruct (split1_some _ _ M) as (a & t & E).
  destruct (split1_spec _ _ _ _ E) as [Ma Sa].
  rewrite split_split1, E.
  destruct (PyStr.split1 "-" t) as [b o] eqn:E2.
  destruct (split1_spec _ _ _ _ E2) as [Mb Sb].
  rewrite (split_split1 "-" t), E2.
  destruct o as [t'|].
  - exists a, b, (String "-" t'), (PyStr.split "-" t').
    split; [reflexivity|]. split; [rewrite Sa at 1; rewrite Sb at 1; reflexivity|].
    split; [exact Ma|]. split; [exact Mb|]. right. destruct t'; reflexivity.
  - exists a, b, "", [].
    split; [reflexivity|]. split; [rewrite Sa at 1; rewrite Sb at 1; reflexivity|].
    split; [exact Ma|]. split; [exact Mb|]. left. reflexivity.
Qed.

Lemma normalise_lang_result_returns (l : string) :
  exists n, normalise_lang_result l = Ret n.
Proof.
  unfold normalise_lang_result. destruct (PyStr.mem "-" l) eqn:M; simpl; [|eauto].
  destruct (split_dash l M) as (a & b & rest & more & -> & _). eauto.
Qed.

(** The normalisation in the model, for every text. *)
Lemma normalise_lang_result_shape (l : string) :
  exists n,
    normalise_lang_result l = Ret n /\
    normalise_lang_result n = Ret n /\
    (PyStr.mem "-" l = false -> n = PyStr.lower l) /\
    (PyStr.mem "-" l = true ->
     exists a b rest,
       l = a ++ "-" ++ b ++ rest /\
       PyStr.mem "-" a = false /\ PyStr.mem "-" b = false /\
       (rest = "" \/ PyStr.startswith rest "-" = true) /\
       n = PyStr.lower a ++ "-" ++ PyStr.upper b).
Proof.
  unfold normalise_lang_result at 1. destruct (PyStr.mem "-" l) eqn:M; simpl.
  - destruct (split_dash l M) as (a & b & rest & more & S & E & Ma & Mb & R).
    rewrite S. eexists. split; [reflexivity|]. split; [|split].
    + unfold normalise_lang_result.
      rewrite mem_app, mem_dash_lower, Ma. simpl.
      rewrite split_split1.
      rewrite split1_app by (rewrite mem_dash_lower; exact Ma).
      rewrite split_no_sep by (rewrite mem_dash_upper; exact Mb).
      rewrite lower_idem, upper_idem. reflexivity.
    + discriminate.
    + intros _. exists a, b, rest. auto.
  - eexists. split; [reflexivity|]. split; [|split].
    + unfold normalise_lang_result. rewrite mem_dash_lower, M. simpl.
      rewrite lower_idem. reflexivity.
    + reflexivity.
    + discriminate.
Qed.

Lemma case_char_ascii (c : ascii) :
  PyStr.is_ascii c = true ->
  PyStr.is_ascii (PyStr.lower_char c) = true /\ PyStr.is_ascii (PyStr.upper_char c) = true.
Proof.
  destruct c as [[] [] [] [] [] [] [] []]; intros H; try discriminate H;
    split; vm_compute; reflexivity.
Qed.

Lemma case_isascii (s : string) :
  PyStr.isascii s = true ->
  PyStr.isascii (PyStr.lower s) = true /\ PyStr.isascii (PyStr.upper s) = true.
Proof.
  unfold PyStr.isascii, PyStr.lower, PyStr.upper.
  induction s as [|c s IH]; [split; reflexivity|].
  cbn [PyStr.forallb_chars PyStr.map_chars]. intros H.
  apply andb_true_iff in H. destruct H as (Hc & Hs).
  destruct (case_char_ascii c Hc) as (C1 & C2). destruct (IH Hs) as (I1 & I2).
  rewrite C1, C2, I1, I2. split; reflexivity.
Qed.

(** X4: for a result language of ASCII characters, on which the case
    maps of the model are those of [str.lower] and [str.upper], the
    normalisation in the constructor returns a text of ASCII characters
    that is a fixed point of it. A text without a dash is put in lower
    case; of a text with a dash, the part before the first dash is put in
    lower case, the part between the first and the second dash in upper
    case, and what follows the second dash is dropped. *)
Theorem normalise_lang_result_idempotent (l : string) :
  PyStr.isascii l = true ->
  exists n,
    normalise_lang_result l = Ret n /\
    PyStr.isascii n = true /\
    normalise_lang_result n = Ret n /\
    (PyStr.mem "-" l = false -> n = PyStr.lower l) /\
    (PyStr.mem "-" l = true ->
     exists a b rest,
       l = a ++ "-" ++ b ++ rest /\
       PyStr.mem "-" a = false /\ PyStr.mem "-" b = false /\
       (rest = "" \/ PyStr.startswith rest "-" = true) /\
       n = PyStr.lower a ++ "-" ++ PyStr.upper b).
Proof.
  intros A. destruct (normalise_lang_result_shape l) as (n & E & I & N0 & N1).
  exists n. split; [exact E|]. split; [|split; [exact I|split; assumption]].
  destruct (PyStr.mem "-" l) eqn:M.
  - destruct (N1 eq_refl) as (a & b & rest & El & _ & _ & _ & ->).
    rewrite El in A. unfold PyStr.isascii in *.
    rewrite !forallb_chars_app in A.
    apply andb_true_iff in A. destruct A as (Aa & A).
    apply andb_true_iff in A. destruct A as (_ & A).
    apply andb_true_iff in A. destruct A as (Ab & _).
    rewrite !forallb_chars_app.
    pose proof (proj1 (case_isascii a Aa)) as Ka.
    pose proof (proj2 (case_isascii b Ab)) as Kb.
    unfold PyStr.isascii in Ka, Kb. rewrite Ka, Kb. reflexivity.
  - rewrite (N0 eq_refl). apply (proj1 (case_isascii l A)).
Qed.

End LangResult.

Lemma normalise_lang_result_idempotent_witness :
  PyStr.isascii "PT-br-x" = true /\
  normalise_lang_result "PT-br-x" = Ret "pt-BR" /\
  normalise_lang_result "pt-BR" = Ret "pt-BR".
Proof.
  split; [reflexivity|].
  destruct (normalise_lang_result_idempotent "PT-br-x" eq_refl)
    as (n & E & _ & I & _).
  assert (N : n = "pt-BR").
  { assert (K : normalise_lang_result "PT-br-x" = Ret "pt-BR") by (vm_compute; reflexivity).
    rewrite K in E. injection E as <-. reflexivity. }
  rewrite N in E, I. split; assumption.
Defined.

(** ** The constructor, case by case *)

Section ConstructorLog.

Variable L : pylib.

Lemma add_log_nil (w : world) : add_log w [] = w.
Proof. destruct w. unfold add_log. simpl. rewrite app_nil_r. reflexivity. Qed.

Lemma logged_add_log (w : world) (l : list (log_level * string)) lvl msg :
  logged (add_log w l) lvl msg = add_log w (l ++ [(lvl, msg)]).
Proof. unfold logged, add_log. simpl. rewrite app_assoc. reflexivity. Qed.

Lemma add_log_add_log (w : world) (l1 l2 : list (log_level * string)) :
  add_log (add_log w l1) l2 = add_log w (l1 ++ l2).
Proof. unfold add_log. simpl. rewrite app_assoc. reflexivity. Qed.

Lemma logged_as_add_log (w : world) lvl msg :
  logged w lvl msg = add_log w [(lvl, msg)].
Proof. reflexivity. Qed.

(** The constructor, with its log written out. *)
Lemma init_unfold (a : init_args) (w : world) :
  exists n,
    normalise_lang_result (arg_lang_result a) = Ret n /\
    init L a w =
      match arg_user_agent a with
      | Some (String x ua) =>
          (Ret (built_client L a n (String x ua)), add_log w (init_messages L a n))
      | _ =>
          match assign_random_user_agent L (add_log w (init_messages L a n)) with
          | (Ret ua, w') => (Ret (built_client L a n ua), w')
          | (Raise e, w') => (Raise e, w')
          | (Timeout, w') => (Timeout, w')
          end
      end.
Proof.
  destruct (normalise_lang_result_returns (arg_lang_result a)) as [n E].
  exists n. split; [exact E|].
  unfold init, init_messages, built_client. rewrite E. cbv zeta.
  destruct (existsb (String.eqb n) (result_languages_list L));
    destruct (arg_num a >? 100)%Z;
    destruct (400 <? arg_max_search_result_urls_to_return a)%Z;
    rewrite ?logged_as_add_log, ?add_log_add_log; simpl app;
    rewrite ?add_log_nil;
    destruct (arg_user_agent a) as [[|x ua]|];
    try reflexivity;
    match goal with
    | |- context [assign_random_user_agent L ?w0] =>
        destruct (assign_random_user_agent L w0) as [[ua|e|] w']; reflexivity
    end.
Qed.

End ConstructorLog.

Section ConstructorCases.

Variable L : pylib.

Lemma assign_random_user_agent_cases (w : world) :
  (user_agents_list L = [] /\
   assign_random_user_agent L w
   = (Raise (IndexError "Cannot choose from an empty sequence"), w)) \/
  (exists ua w', assign_random_user_agent L w = (Ret ua, w') /\
     In ua (user_agents_list L) /\
     script w' = script w /\ trace w' = trace w /\ log w' = log w /\
     (draws w' = draws w \/ exists d, draws w = d :: draws w')).
Proof.
  unfold assign_random_user_agent, random_index.
  destruct (user_agents_list L) as [|ua uas] eqn:E; [left; auto|right].
  destruct (draws w) as [|d ds] eqn:D.
  - exists ua, w. repeat split; auto. left. reflexivity.
  - eexists. eexists. split; [reflexivity|]. split; [|repeat split].
    + apply nth_In. apply Nat.mod_upper_bound. simpl. discriminate.
    + right. exists d. reflexivity.
Qed.

Lemma init_returns (a : init_args) (w0 w1 : world) (c : SearchClient) :
  init L a w0 = (Ret c, w1) ->
  exists n ua,
    normalise_lang_result (arg_lang_result a) = Ret n /\
    c = built_client L a n ua /\
    log w1 = (log w0 ++ init_messages L a n)%list /\
    script w1 = script w0 /\ trace w1 = trace w0 /\
    ((exists x t, arg_user_agent a = Some (String x t) /\ ua = String x t /\
                  draws w1 = draws w0) \/
     (no_user_agent a /\ In ua (user_agents_list L) /\
      (draws w1 = draws w0 \/ exists d, draws w0 = d :: draws w1))).
Proof.
  intros H. destruct (init_unfold L a w0) as (n & E & U). rewrite U in H. clear U.
  exists n.
  assert (R : no_user_agent a ->
              match assign_random_user_agent L (add_log w0 (init_messages L a n)) with
              | (Ret ua, w') => (Ret (built_client L a n ua), w')
              | (Raise e, w') => (Raise e, w')
              | (Timeout, w') => (Timeout, w')
              end = (Ret c, w1) ->
              exists ua,
                normalise_lang_result (arg_lang_result a) = Ret n /\
                c = built_client L a n ua /\
                log w1 = (log w0 ++ init_messages L a n)%list /\
                script w1 = script w0 /\ trace w1 = trace w0 /\
                ((exists x t, arg_user_agent a = Some (String x t) /\ ua = String x t /\
                              draws w1 = draws w0) \/
                 (no_user_agent a /\ In ua (user_agents_list L) /\
                  (draws w1 = draws w0 \/ exists d, draws w0 = d :: draws w1)))).
  { intros NA K0.
    destruct (assign_random_user_agent_cases (add_log w0 (init_messages L a n)))
      as [(_ & K)|(ua & w' & K & I & S & T & Lg & D)]; rewrite K in K0; [discriminate|].
    injection K0 as <- <-. exists ua.
    split; [exact E|]. split; [reflexivity|]. split; [exact Lg|].
    split; [exact S|]. split; [exact T|]. right. auto. }
  destruct (arg_user_agent a) as [[|x t]|] eqn:A.
  - apply R; [right; exact A|exact H].
  - injection H as <- <-. exists (String x t).
    split; [exact E|]. split; [reflexivity|]. split; [reflexivity|].
    split; [reflexivity|]. split; [reflexivity|]. left. exists x, t. auto.
  - apply R; [left; exact A|exact H].
Qed.

(** X5: the constructor returns a session exactly when a user agent that
    is not empty is passed or the list of user agents is not empty.
    Otherwise it raises the [IndexError] of [random.choice] on an empty
    list, and nothing else. It always terminates, sends no request and
    does not sleep. *)
Theorem init_needs_a_user_agent (a : init_args) (w : world) :
  ((exists c w', init L a w = (Ret c, w')) <->
   (user_agents_list L <> [] \/ exists x t, arg_user_agent a = Some (String x t))) /\
  (forall e w', init L a w = (Raise e, w') ->
     e = IndexError "Cannot choose from an empty sequence" /\
     user_agents_list L = [] /\ no_user_agent a) /\
  (forall r w', init L a w = (r, w') ->
     r <> Timeout /\ script w' = script w /\ trace w' = trace w).
Proof.
  destruct (init_unfold L a w) as (n & E & U). rewrite U. clear U.
  pose proof (assign_random_user_agent_cases (add_log w (init_messages L a n))) as C.
  destruct (arg_user_agent a) as [[|x t]|] eqn:A.
  - destruct C as [(N & K)|(ua & w' & K & I & S & T & Lg & D)]; rewrite K.
    + split; [|split].
      * split.
        -- intros (c & w' & H). discriminate.
        -- intros [H|(x & t & H)]; [contradiction|discriminate].
      * intros e w' H. injection H as <- <-. repeat split; auto. right. exact A.
      * intros r w' H. injection H as <- <-. repeat split; discriminate.
    + split; [|split].
      * split; [|eauto]. intros _. left. intros Z. rewrite Z in I. exact I.
      * intros e w'' H. discriminate.
      * intros r w'' H. injection H as <- <-. repeat split; auto. discriminate.
  - split; [|split].
    + split; [|eauto]. intros _. right. eauto.
    + intros e w' H. discriminate.
    + intros r w' H. injection H as <- <-. repeat split; discriminate.
  - destruct C as [(N & K)|(ua & w' & K & I & S & T & Lg & D)]; rewrite K.
    + split; [|split].
      * split.
        -- intros (c & w' & H). discriminate.
        -- intros [H|(x & t & H)]; [contradiction|discriminate].
      * intros e w' H. injection H as <- <-. repeat split; auto. left. exact A.
      * intros r w' H. injection H as <- <-. repeat split; discriminate.
    + split; [|split].
      * split; [|eauto]. intros _. left. intros Z. rewrite Z in I. exact I.
      * intros e w'' H. discriminate.
      * intros r w'' H. injection H as <- <-. repeat split; auto. discriminate.
Qed.

(** X6: the result language of a session is one of the listed languages or
    [lang_en]. The constructor keeps the normalised language when it is
    listed, and logs no error then; otherwise it stores [lang_en] and logs
    the error that names the normalised language and the file of the valid
    languages. *)
Theorem lang_result_is_listed_or_default (a : init_args) (w0 w1 : world)
  (c : SearchClient) :
  init L a w0 = (Ret c, w1) ->
  (In (lang_result c) (result_languages_list L) \/ lang_result c = "lang_en") /\
  exists n msgs,
    normalise_lang_result (arg_lang_result a) = Ret n /\
    log w1 = (log w0 ++ msgs)%list /\
    (In n (result_languages_list L) ->
     lang_result c = n /\ forall m, ~ In (ERROR, m) msgs) /\
    (~ In n (result_languages_list L) ->
     lang_result c = "lang_en" /\ In (lang_error L n) msgs).
Proof.
  intros H. destruct (init_returns a w0 w1 c H) as (n & ua & E & -> & Lg & _).
  assert (LR : lang_result (built_client L a n ua)
               = if existsb (String.eqb n) (result_languages_list L) then n else "lang_en")
    by reflexivity.
  rewrite LR. unfold init_messages in Lg.
  destruct (existsb (String.eqb n) (result_languages_list L)) eqn:X.
  - apply existsb_eqb_In in X. split; [left; exact X|].
    exists n, (init_messages L a n). unfold init_messages.
    apply existsb_eqb_In in X. rewrite X. apply existsb_eqb_In in X.
    repeat split; auto.
    + intros m. simpl.
      destruct (arg_num a >? 100)%Z; destruct (400 <? _)%Z; simpl;
        unfold num_warning, results_warning; intuition discriminate.
    + contradiction.
    + contradiction.
  - split; [right; reflexivity|].
    exists n, (init_messages L a n). unfold init_messages. rewrite X.
    assert (NI : ~ In n (result_languages_list L)).
    { intros K. apply existsb_eqb_In in K. congruence. }
    repeat split; auto; try contradiction.
    left. reflexivity.
Qed.

(** X7: a user agent passed to the constructor that is not empty is the
    user agent of the session, and nothing is drawn at random; without one
    (none, or the empty text) the user agent of the session is an element
    of the list of user agents, chosen with at most one draw. *)
Theorem user_agent_given_or_listed (a : init_args) (w0 w1 : world) (c : SearchClient) :
  init L a w0 = (Ret c, w1) ->
  (forall x t, arg_user_agent a = Some (String x t) ->
     user_agent c = String x t /\ draws w1 = draws w0) /\
  (no_user_agent a ->
     In (user_agent c) (user_agents_list L) /\
     (draws w1 = draws w0 \/ exists d, draws w0 = d :: draws w1)).
Proof.
  intros H. destruct (init_returns a w0 w1 c H) as (n & ua & E & -> & _ & _ & _ & D).
  change (user_agent (built_client L a n ua)) with ua.
  destruct D as [(x & t & A & -> & D)|(NA & I & D)].
  - split.
    + intros x' t' A'. rewrite A in A'. injection A' as <- <-. auto.
    + intros [K|K]; rewrite A in K; discriminate.
  - split.
    + intros x t A. destruct NA as [K|K]; rewrite A in K; discriminate.
    + intros _. auto.
Qed.

(** X8: the query that the constructor stores is the quoted form of the
    query passed. For a query that is valid UTF-8, replacing the plus signs
    by spaces and unquoting gives the query back, and [parse_qs] reads
    [q=] followed by the stored text as the one value of [q] (as nothing,
    when the query is empty). *)
Theorem stored_query_decodes_to_query (a : init_args) (w0 w1 : world) (c : SearchClient) :
  init L a w0 = (Ret c, w1) ->
  utf8_decode_replace L (arg_query a) = arg_query a ->
  Urllib.unquote L (PyStr.replace_char "+" " " (query c)) = arg_query a /\
  (arg_query a <> "" -> Urllib.parse_qs L ("q=" ++ query c) = [("q", [arg_query a])]) /\
  (arg_query a = "" -> Urllib.parse_qs L ("q=" ++ query c) = []).
Proof.
  intros H HU. destruct (init_returns a w0 w1 c H) as (n & ua & _ & -> & _).
  change (query (built_client L a n ua)) with (Urllib.quote_plus (arg_query a)).
  split; [apply unquote_quote_plus; exact HU|].
  rewrite (parse_qs_quoted_q L _ (quote_plus_chars (arg_query a))).
  split.
  - intros N. destruct (Urllib.quote_plus (arg_query a)) eqn:Q.
    + apply quote_plus_empty in Q. contradiction.
    + rewrite <- Q, unquote_quote_plus by exact HU. reflexivity.
  - intros ->. reflexivity.
Qed.

(** X9: the stored query consists of unreserved characters, plus signs
    and percent signs; none of [& = # ? / : ;] and no space occurs in it,
    so it can neither end nor extend the parameter [q] of a URL. Neither
    [search] nor [update_urls] changes it. *)
Theorem stored_query_has_no_reserved_character (a : init_args) (w0 w1 : world)
  (c : SearchClient) :
  init L a w0 = (Ret c, w1) ->
  PyStr.forallb_chars quoted_char (query c) = true /\
  (forall ch, PyStr.mem ch "&=#?/:; " = true -> PyStr.mem ch (query c) = false) /\
  (forall c' w, query (snd (fst (search L c' w))) = query c' /\
                query (update_urls c') = query c').
Proof.
  intros H. destruct (init_returns a w0 w1 c H) as (n & ua & _ & -> & _).
  change (query (built_client L a n ua)) with (Urllib.quote_plus (arg_query a)).
  pose proof (quote_plus_chars (arg_query a)) as Q.
  split; [exact Q|]. split.
  - intros ch M. apply quoted_no; [exact Q|].
    destruct ch as [[] [] [] [] [] [] [] []]; try discriminate M; reflexivity.
  - intros c' w. split.
    + pose proof (search_settings L c' w) as S. unfold settings in S. congruence.
    + reflexivity.
Qed.

End ConstructorCases.

Lemma stored_query_decodes_to_query_witness :
  query (ex_client_of (ex_args_with "rocq & coq" "lang_en" None None)) = "rocq+%26+coq" /\
  Urllib.unquote ex_lib
    (PyStr.replace_char "+" " "
       (query (ex_client_of (ex_args_with "rocq & coq" "lang_en" None None))))
  = "rocq & coq".
Proof.
  split; [vm_compute; reflexivity|].
  exact (proj1 (stored_query_decodes_to_query ex_lib _ _ _ _
                  (ex_init_returns (ex_args_with "rocq & coq" "lang_en" None None)
                     ltac:(vm_compute; reflexivity))
                  eq_refl)).
Defined.

Lemma stored_query_has_no_reserved_character_witness :
  PyStr.mem "&" (query (ex_client_of (ex_args_with "rocq & coq" "lang_en" None None)))
  = false.
Proof.
  apply (proj1 (proj2 (stored_query_has_no_reserved_character ex_lib _ _ _ _
                         (ex_init_returns (ex_args_with "rocq & coq" "lang_en" None None)
                            ltac:(vm_compute; reflexivity))))).
  reflexivity.
Defined.

Lemma lang_result_is_listed_or_default_witness :
  lang_result (ex_client_of (ex_args_with "rocq" "LANG_FR" None None)) = "lang_fr" /\
  lang_result (ex_client_of (ex_args_with "rocq" "pt-br" None None)) = "lang_en" /\
  (In (lang_result (ex_client_of (ex_args_with "rocq" "pt-br" None None)))
      (result_languages_list ex_lib) \/
   lang_result (ex_client_of (ex_args_with "rocq" "pt-br" None None)) = "lang_en").
Proof.
  split; [vm_compute; reflexivity|]. split; [vm_compute; reflexivity|].
  exact (proj1 (lang_result_is_listed_or_default ex_lib _ _ _ _
                  (ex_init_returns (ex_args_with "rocq" "pt-br" None None)
                     ltac:(vm_compute; reflexivity)))).
Defined.

Lemma user_agent_given_or_listed_witness :
  user_agent (ex_client_of (ex_args_with "rocq" "lang_en" (Some "curl/8.0") None))
  = "curl/8.0" /\
  In (user_agent (ex_client_of (ex_args_with "rocq" "lang_en" None None)))
     (user_agents_list ex_lib).
Proof.
  split.
  - exact (proj1 (proj1 (user_agent_given_or_listed ex_lib _ _ _ _
                           (ex_init_returns
                              (ex_args_with "rocq" "lang_en" (Some "curl/8.0") None)
                              ltac:(vm_compute; reflexivity)))
                    "c"%char "url/8.0" eq_refl)).
  - exact (proj1 (proj2 (user_agent_given_or_listed ex_lib _ _ _ _
                           (ex_init_returns (ex_args_with "rocq" "lang_en" None None)
                              ltac:(vm_compute; reflexivity)))
                    (or_introl eq_refl))).
Defined.

(** ** One exchange in full *)

Section ExchangeInFull.

Variable L : pylib.

Lemma set_cookies_twice (c : SearchClient) (k k' : option dict) :
  set_cookies (set_cookies c k) k' = set_cookies c k'.
Proof. destruct c; reflexivity. Qed.

Lemma emit_logged_world (w : world) (rest : list exchange) (ev : event)
  (msgs : list (log_level * string)) :
  add_log (set_script (emit w ev) rest) msgs
  = mkWorld rest (draws w) (trace w ++ [ev]) (log w ++ msgs).
Proof. reflexivity. Qed.

(** One exchange that is not retried. *)
Lemma get_page_one (url : string) (c : SearchClient) (w : world)
  (code : Z) (jar : dict) (body : string) (rest : list exchange) :
  script w = Response code jar body :: rest ->
  (code =? 429)%Z = false \/ yagooglesearch_manages_http_429s c = false ->
  get_page L url c w =
    (Ret (page_of code body), set_cookies c (cookies_after jar),
     mkWorld rest (draws w) (trace w ++ [EvGet url (cookies c) (user_agent c)])
       (log w ++ response_messages code jar)).
Proof.
  intros Hs Hno. unfold get_page. rewrite Hs. simpl.
  unfold cookies_after, response_messages, page_of.
  destruct (consent_cookies_total jar) as [consent ->].
  assert (M : forall k, yagooglesearch_manages_http_429s (set_cookies c k)
                        = yagooglesearch_manages_http_429s c)
    by (intros; destruct c; reflexivity).
  destruct consent as [yes|]; rewrite ?set_cookies_twice;
    destruct (code =? 200)%Z; simpl app; rewrite ?app_nil_r;
    try reflexivity;
    destruct (code =? 429)%Z;
    try (unfold logged, emit, set_script; simpl; rewrite <- ?app_assoc; reflexivity);
    rewrite ?M; destruct Hno as [Hno|Hno]; try discriminate; rewrite Hno; simpl;
    unfold logged; simpl; rewrite <- ?app_assoc; reflexivity.
Qed.

End ExchangeInFull.

(** ** Error pages, transport failures and cookies *)

Section PageOutcomes.

Variable L : pylib.

(** X10: a response whose status is neither 200 nor 429 is no error for the
    caller. [get_page] returns the empty text after one request, with the
    cookies of the response stored and the warning [HTML response code: N]
    logged; with a parser that finds no anchor in the empty text, the loop
    over the pages then returns the results gathered so far, without a
    sleep or another request. *)
Theorem error_status_is_an_empty_page (c : SearchClient) (w : world)
  (code : Z) (jar : dict) (body : string) (rest : list exchange)
  (fuel : nat) (lv : locals) :
  script w = Response code jar body :: rest ->
  (code =? 200)%Z = false -> (code =? 429)%Z = false ->
  anchors_of (BeautifulSoup L "") = [] ->
  (total_valid_links_found lv <= max_search_result_urls_to_return c)%Z ->
  let w1 := mkWorld rest (draws w)
              (trace w ++ [EvGet (page_url c) (cookies c) (user_agent c)])
              (log w ++ response_messages code jar) in
  get_page L (page_url c) c w = (Ret "", set_cookies c (cookies_after jar), w1) /\
  search_loop L (S fuel) lv c w
  = (Ret (Some (search_result_list c)), set_cookies c (cookies_after jar), w1) /\
  In (WARNING, "HTML response code: " ++ PyStr.of_Z code) (log w1).
Proof.
  intros Hs H200 H429 Hsoup Hg w1.
  pose proof (get_page_one L (page_url c) c w code jar body rest Hs (or_introl H429)) as G.
  unfold page_of in G. rewrite H200, H429 in G. fold w1 in G.
  split; [exact G|]. split.
  - rewrite search_loop_S. apply Z.leb_le in Hg. rewrite Hg, G.
    change (String.eqb "" HTTP_429_DETECTED) with false. cbv iota.
    rewrite Hsoup. rewrite process_anchors_nil.
    simpl. destruct c; reflexivity.
  - subst w1. simpl. apply in_or_app. right.
    unfold response_messages. rewrite H200, H429.
    apply in_or_app. right. left. reflexivity.
Qed.

(** X11: an exception of [requests.get] is not caught. [get_page] and the
    loop over the pages raise it as it is after that one request, with the
    session unchanged and nothing logged; [search], when the request of the
    home page fails, raises it having only emptied the result list and set
    [extra_params]. The results found so far are not returned. *)
Theorem transport_failure_leaves_search (c : SearchClient) (w : world)
  (e : exn) (rest : list exchange) :
  script w = Fails e :: rest ->
  let after url := mkWorld rest (draws w)
                     (trace w ++ [EvGet url (cookies c) (user_agent c)]) (log w) in
  (forall url, get_page L url c w = (Raise e, c, after url)) /\
  (forall fuel lv,
      (total_valid_links_found lv <= max_search_result_urls_to_return c)%Z ->
      search_loop L (S fuel) lv c w = (Raise e, c, after (page_url c))) /\
  (check_extra_params (url_parameters c) (extra_items (search_start c)) = Ret tt ->
   search L c w = (Raise e, search_start c, after (url_home c))).
Proof.
  intros Hs after.
  assert (G : forall url x, cookies x = cookies c -> user_agent x = user_agent c ->
                get_page L url x w = (Raise e, x, after url)).
  { intros url x K U. unfold get_page. rewrite Hs. simpl. rewrite K, U. reflexivity. }
  split; [|split].
  - intros url. apply G; reflexivity.
  - intros fuel lv Hg. rewrite search_loop_S. apply Z.leb_le in Hg.
    rewrite Hg, G; reflexivity.
  - intros Hc. rewrite search_unfold, Hc.
    destruct (search_start_cookies c) as (K1 & K2 & _).
    rewrite G; auto.
Qed.

(** The first thing an iteration of the page loop does is the request of
    the page. *)
Lemma search_loop_first_event (fuel : nat) (lv : locals) (c : SearchClient) (w : world)
  (r : outcome (option (list result_item))) (c' : SearchClient) (w' : world) :
  (total_valid_links_found lv <= max_search_result_urls_to_return c)%Z ->
  search_loop L (S fuel) lv c w = (r, c', w') ->
  exists evs,
    trace w' = (trace w ++ EvGet (page_url c) (cookies c) (user_agent c) :: evs)%list.
Proof.
  intros Hg H. rewrite search_loop_S in H. apply Z.leb_le in Hg. rewrite Hg in H.
  destruct (get_page L (page_url c) c w) as [[r1 c1] w1] eqn:GP.
  unfold get_page in GP. apply get_page_aux_props in GP; [|reflexivity].
  destruct GP as (_ & _ & _ & _ & (evs & T)).
  assert (base : forall w2, (exists more, trace w2 = (trace w1 ++ more)%list) ->
            exists evs0, trace w2
              = (trace w ++ EvGet (page_url c) (cookies c) (user_agent c) :: evs0)%list).
  { intros w2 (more & M). rewrite M, T. rewrite <- app_assoc. simpl. eauto. }
  assert (refl1 : exists more, trace w1 = (trace w1 ++ more)%list)
    by (exists []; rewrite app_nil_r; reflexivity).
  destruct r1 as [html|e|]; try (injection H as _ _ <-; apply base; exact refl1).
  destruct (String.eqb html HTTP_429_DETECTED);
    [injection H as _ _ <-; apply base; exact refl1|].
  destruct (process_anchors L _ _ c1 w1) as [[r2 c2] w2] eqn:PA.
  apply process_anchors_world in PA. destruct PA as (_ & _ & _ & T2).
  assert (refl2 : exists more, trace w2 = (trace w1 ++ more)%list)
    by (exists []; rewrite T2, app_nil_r; reflexivity).
  destruct r2 as [[lv2|l]|e|]; try (injection H as _ _ <-; apply base; exact refl2).
  destruct (_ =? 0)%Z; [injection H as _ _ <-; apply base; exact refl2|].
  assert (T3 : trace (snd (random_index w2 11)) = trace w2)
    by (unfold random_index; destruct (draws w2); reflexivity).
  destruct (random_index w2 11) as [i w3]. simpl in T3. cbv zeta in H.
  destruct (time_sleep_error L _).
  - injection H as _ _ <-. apply base. exists []. rewrite T3, T2, app_nil_r. reflexivity.
  - apply search_loop_world in H. destruct H as ((more & M) & _).
    apply base. simpl in M. rewrite M, T3, T2. rewrite <- app_assoc. eauto.
Qed.

(** X12: the exemption cookie passed to the constructor is sent with the
    first request only. The home page is requested with
    [GOOGLE_ABUSE_EXEMPTION]; the first results page is requested with the
    cookies of the response to the home page (or the consent cookie made
    from them) in its place. *)
Theorem cookies_follow_the_last_response (a : init_args) (w0 w1 w : world)
  (c : SearchClient) (g : string) (code0 : Z) (jar0 : dict) (body0 : string)
  (rest : list exchange) :
  init L a w0 = (Ret c, w1) ->
  arg_google_exemption a = Some g -> g <> "" ->
  script w = Response code0 jar0 body0 :: rest ->
  (code0 =? 429)%Z = false \/ yagooglesearch_manages_http_429s c = false ->
  check_extra_params (url_parameters c) (extra_items (search_start c)) = Ret tt ->
  (0 <= max_search_result_urls_to_return c)%Z ->
  cookies c = Some [("GOOGLE_ABUSE_EXEMPTION", g)] /\
  exists evs,
    trace (snd (search L c w))
    = (trace w ++ EvGet (url_home c) (Some [("GOOGLE_ABUSE_EXEMPTION", g)]) (user_agent c)
               :: EvGet (page_url c) (cookies_after jar0) (user_agent c) :: evs)%list.
Proof.
  intros H Hg Hne Hs Hno Hc Hmax.
  assert (K : cookies c = Some [("GOOGLE_ABUSE_EXEMPTION", g)]).
  { destruct (init_returns L a w0 w1 c H) as (n & ua & _ & -> & _).
    unfold built_client. simpl. rewrite Hg. destruct g; [congruence|reflexivity]. }
  split; [exact K|].
  rewrite search_unfold, Hc.
  destruct (search_start_cookies c) as (K1 & K2 & _ & E0).
  assert (Hno' : (code0 =? 429)%Z = false \/
                 yagooglesearch_manages_http_429s (search_start c) = false).
  { rewrite (settings_manages _ _ (settings_search_start c)). exact Hno. }
  rewrite (get_page_one L (url_home c) (search_start c) w code0 jar0 body0 rest Hs Hno').
  rewrite K1, K2, K.
  set (c1 := set_cookies (search_start c) (cookies_after jar0)).
  set (w2 := mkWorld rest _ _ _).
  destruct (search_loop L (S (List.length (script w2))) (mkLocals 0 0 None) c1 w2)
    as [[r c'] w'] eqn:SL.
  apply search_loop_first_event in SL.
  - destruct SL as (evs & T). simpl. rewrite T. subst w2. simpl.
    rewrite <- app_assoc. simpl.
    replace (page_url c1) with (page_url c)
      by (subst c1; rewrite <- (page_url_search_start c);
          destruct (search_start c); reflexivity).
    replace (cookies c1) with (cookies_after jar0)
      by (subst c1; destruct (search_start c); reflexivity).
    rewrite K2. eauto.
  - simpl. subst c1.
    pose proof (settings_max _ _ (settings_search_start c)) as M.
    replace (max_search_result_urls_to_return
               (set_cookies (search_start c) (cookies_after jar0)))
      with (max_search_result_urls_to_return (search_start c))
      by (destruct (search_start c); reflexivity).
    lia.
Qed.

End PageOutcomes.

Lemma cookies_follow_the_last_response_witness :
  exists evs,
    trace (snd (search ex_lib
                  (ex_client_of (ex_args_with "rocq" "lang_en" None (Some "GOOGLE_EX")))
                  (ex_world [Response 200 [("NID", "511")] ""; Response 200 [] ""])))
    = EvGet "https://www.google.com/" (Some [("GOOGLE_ABUSE_EXEMPTION", "GOOGLE_EX")])
        USER_AGENT
      :: EvGet (page_url (ex_client_of (ex_args_with "rocq" "lang_en" None (Some "GOOGLE_EX"))))
           (Some [("NID", "511")]) USER_AGENT
      :: evs.
Proof.
  destruct (proj2 (cookies_follow_the_last_response ex_lib
              (ex_args_with "rocq" "lang_en" None (Some "GOOGLE_EX")) _ _
              (ex_world [Response 200 [("NID", "511")] ""; Response 200 [] ""])
              _ "GOOGLE_EX" 200 [("NID", "511")] "" [Response 200 [] ""]
              (ex_init_returns (ex_args_with "rocq" "lang_en" None (Some "GOOGLE_EX"))
                 ltac:(vm_compute; reflexivity))
              eq_refl ltac:(discriminate) eq_refl (or_introl eq_refl)
              ltac:(vm_compute; reflexivity) ltac:(vm_compute; discriminate)))
    as (evs & T).
  exists evs. exact T.
Defined.

Lemma error_status_is_an_empty_page_witness :
  search_loop ex_lib 1 (mkLocals 0 0 None) (ex_client false true 100)
    (ex_world [Response 503 [] "busy"; Response 200 [] page_example])
  = (Ret (Some []), set_cookies (ex_client false true 100) (Some []),
     mkWorld [Response 200 [] page_example] []
       [EvGet (page_url (ex_client false true 100)) None USER_AGENT]
       [(WARNING, "HTML response code: 503")]).
Proof.
  exact (proj1 (proj2 (error_status_is_an_empty_page ex_lib (ex_client false true 100)
                         (ex_world [Response 503 [] "busy"; Response 200 [] page_example])
                         503 [] "busy" [Response 200 [] page_example] O (mkLocals 0 0 None)
                         eq_refl eq_refl eq_refl eq_refl
                         ltac:(vm_compute; discriminate)))).
Defined.

Lemma transport_failure_leaves_search_witness :
  search ex_lib (ex_client false true 100)
    (ex_world [Fails (RequestException "timed out"); Response 200 [] page_example])
  = (Raise (RequestException "timed out"), search_start (ex_client false true 100),
     mkWorld [Response 200 [] page_example] []
       [EvGet "https://www.google.com/" None USER_AGENT] []).
Proof.
  exact (proj2 (proj2 (transport_failure_leaves_search ex_lib (ex_client false true 100)
                         (ex_world [Fails (RequestException "timed out");
                                    Response 200 [] page_example])
                         (RequestException "timed out") [Response 200 [] page_example]
                         eq_refl))
               ltac:(vm_compute; reflexivity)).
Defined.

(** ** Retried requests *)

Section RetryStep.

Variable L : pylib.

(** A managed 429, with the session and the environment of the retry. *)
Lemma get_page_429_retry (url : string) (c : SearchClient) (w : world)
  (jar : dict) (body : string) (rest : list exchange)
  (html : string) (c' : SearchClient) (w' : world) :
  script w = Response 429 jar body :: rest ->
  yagooglesearch_manages_http_429s c = true ->
  get_page L url c w = (Ret html, c', w') ->
  exists secs p,
    PyNum.mul (http_429_cool_off_time_in_minutes c) (PyInt 60) = Ret secs /\
    time_sleep_error L secs = None /\
    PyNum.mul (http_429_cool_off_time_in_minutes c) (http_429_cool_off_factor c) = Ret p /\
    get_page L url
      (set_http_429_cool_off_time_in_minutes (set_cookies c (cookies_after jar))
         (PyNum.round2 p))
      (mkWorld rest (draws w)
         (trace w ++ [EvGet url (cookies c) (user_agent c); EvSleep secs])
         (log w ++ response_messages 429 jar))
    = (Ret html, c', w').
Proof.
  intros Hs Hm. unfold get_page at 1. rewrite Hs. simpl.
  unfold cookies_after, response_messages.
  destruct (consent_cookies_total jar) as [consent ->].
  assert (M : forall k, yagooglesearch_manages_http_429s (set_cookies c k)
                        = yagooglesearch_manages_http_429s c)
    by (intros; destruct c; reflexivity).
  assert (D : forall k, http_429_cool_off_time_in_minutes (set_cookies c k)
                        = http_429_cool_off_time_in_minutes c)
    by (intros; destruct c; reflexivity).
  assert (F : forall k, http_429_cool_off_factor (set_cookies c k)
                        = http_429_cool_off_factor c)
    by (intros; destruct c; reflexivity).
  unfold http_429_detected.
  destruct consent as [yes|]; rewrite ?set_cookies_twice, ?M, ?Hm, ?D, ?F; simpl;
    (destruct (PyNum.mul (http_429_cool_off_time_in_minutes c) (PyInt 60)) as [secs|e|];
     [|discriminate|discriminate]);
    (destruct (time_sleep_error L secs) as [e|] eqn:TS; [discriminate|]);
    (destruct (PyNum.mul (http_429_cool_off_time_in_minutes c)
                 (http_429_cool_off_factor c)) as [p|e|];
     [|simpl; discriminate|simpl; discriminate]);
    simpl; intros H; exists secs, p;
    (split; [reflexivity|]); (split; [exact TS|]); (split; [reflexivity|]);
    unfold get_page; simpl;
    rewrite <- H; f_equal;
    unfold emit, logged, set_script; simpl; rewrite <- ?app_assoc; reflexivity.
Qed.

End RetryStep.

Section RetryTrace.

Variable L : pylib.

Lemma cool_off_after_int (n : nat) :
  forall d f : Z,
    cool_off_after n (PyInt d) (PyInt f) = Ret (PyInt (d * f ^ Z.of_nat n)).
Proof.
  induction n as [|n IH]; intros d f.
  - simpl. rewrite Z.mul_1_r. reflexivity.
  - cbn [cool_off_after PyNum.mul obind PyNum.round2]. rewrite IH.
    rewrite Nat2Z.inj_succ, Z.pow_succ_r by lia.
    f_equal. f_equal. ring.
Qed.

(** X13: a request that is answered [n] times with status 429 and then
    with another status, in a session that manages rate limits, is sent
    [n + 1] times to the same URL with the same user agent, with one sleep
    before each repetition. The sleep after the answer number [i] (from 0)
    is 60 times the [i]-fold iterate of the cool-off step on the time of
    the session, and the request that follows carries the cookies of that
    answer. For an integer time [d] and an integer factor [f], that sleep
    is [d * f ^ i * 60] seconds. *)
Theorem retried_request_trace (retries : list exchange) (final : exchange)
  (rest : list exchange) (url : string) (c : SearchClient) (w : world)
  (html : string) (c' : SearchClient) (w' : world) :
  yagooglesearch_manages_http_429s c = true ->
  Forall (fun x => is_429 x = true) retries ->
  is_429 final = false ->
  script w = (retries ++ final :: rest)%list ->
  get_page L url c w = (Ret html, c', w') ->
  (exists ps,
     trace w' = (trace w ++ retry_events url (user_agent c) (cookies c) ps)%list /\
     List.length ps = List.length retries /\
     forall i s k, nth_error ps i = Some (s, k) ->
       exists d jar body,
         cool_off_after i (http_429_cool_off_time_in_minutes c)
           (http_429_cool_off_factor c) = Ret d /\
         PyNum.mul d (PyInt 60) = Ret s /\
         time_sleep_error L s = None /\
         nth_error retries i = Some (Response 429 jar body) /\
         k = cookies_after jar) /\
  (forall (n : nat) (d f : Z),
     cool_off_after n (PyInt d) (PyInt f) = Ret (PyInt (d * f ^ Z.of_nat n)) /\
     PyNum.mul (PyInt (d * f ^ Z.of_nat n)) (PyInt 60)
     = Ret (PyInt (d * f ^ Z.of_nat n * 60))).
Proof.
  intros Hm Hall Hfin Hs GP.
  split; [|intros n d f; split; [apply cool_off_after_int|reflexivity]].
  revert c w Hm Hs GP.
  induction Hall as [|x retries Hx Hall IH]; intros c w Hm Hs GP.
  - simpl in Hs. destruct final as [code jar body|e].
    + simpl in Hfin.
      rewrite (get_page_one L url c w code jar body rest Hs (or_introl Hfin)) in GP.
      injection GP as _ _ <-. exists []. simpl. repeat split; auto.
      intros i s k H. destruct i; discriminate.
    + unfold get_page in GP. rewrite Hs in GP. simpl in GP. discriminate.
  - destruct x as [code jar body|e]; simpl in Hx; [|discriminate].
    apply Z.eqb_eq in Hx. subst code. simpl in Hs.
    destruct (get_page_429_retry L url c w jar body _ html c' w' Hs Hm GP)
      as (secs & p & M1 & TS & M2 & GP2).
    apply IH in GP2; [|destruct c; exact Hm|reflexivity].
    destruct GP2 as (ps & T & Len & Idx).
    replace (user_agent (set_http_429_cool_off_time_in_minutes
                           (set_cookies c (cookies_after jar)) (round2 p)))
      with (user_agent c) in T by (destruct c; reflexivity).
    replace (cookies (set_http_429_cool_off_time_in_minutes
                        (set_cookies c (cookies_after jar)) (round2 p)))
      with (cookies_after jar) in T by (destruct c; reflexivity).
    exists ((secs, cookies_after jar) :: ps). split; [|split].
    + rewrite T. simpl. unfold retry_events. rewrite <- app_assoc. reflexivity.
    + simpl. rewrite Len. reflexivity.
    + intros i s k H. destruct i as [|i].
      * simpl in H. injection H as <- <-.
        exists (http_429_cool_off_time_in_minutes c), jar, body. auto.
      * simpl in H. destruct (Idx i s k H) as (d & jar' & body' & C & M & TS' & N & K).
        exists d, jar', body'. repeat split; auto.
        replace (http_429_cool_off_time_in_minutes
                   (set_http_429_cool_off_time_in_minutes
                      (set_cookies c (cookies_after jar)) (round2 p)))
          with (round2 p) in C by (destruct c; reflexivity).
        replace (http_429_cool_off_factor
                   (set_http_429_cool_off_time_in_minutes
                      (set_cookies c (cookies_after jar)) (round2 p)))
          with (http_429_cool_off_factor c) in C by (destruct c; reflexivity).
        simpl. rewrite M2. simpl. exact C.
Qed.

End RetryTrace.

Lemma retried_request_trace_witness :
  exists c' w',
    get_page ex_lib "https://www.google.com/" (ex_client false true 100)
      (ex_world [too_many_requests; too_many_requests; home_ok])
    = (Ret "", c', w') /\
    exists ps,
      trace w' = retry_events "https://www.google.com/" USER_AGENT None ps /\
      List.length ps = 2%nat.
Proof.
  eexists. eexists. split; [vm_compute; reflexivity|].
  destruct (proj1 (retried_request_trace ex_lib
              [too_many_requests; too_many_requests] home_ok []
              "https://www.google.com/" (ex_client false true 100)
              (ex_world [too_many_requests; too_many_requests; home_ok])
              "" _ _ eq_refl
              ltac:(repeat constructor) eq_refl eq_refl
              ltac:(vm_compute; reflexivity)))
    as (ps & T & Len & _).
  exists ps. split; [exact T|exact Len].
Defined.

(** ** The results of a search *)

Section SearchInvariant.

Variable L : pylib.

Lemma search_invariant (Inv : locals -> SearchClient -> Prop) (c : SearchClient) :
  (forall lv x x', Inv lv x -> get_page_frame x x' -> Inv lv x') ->
  (forall lv x l, Inv lv x -> Inv (set_link lv l) x) ->
  (forall a u lv x lv1 x1,
      Inv lv x -> u <> EmptyString ->
      (exists h, filter_search_result_urls L h = Ret (Some u)) ->
      accept_link a u lv x = (lv1, x1) ->
      (max_search_result_urls_to_return x1
       <=? Z.of_nat (List.length (search_result_list x1)))%Z = false ->
      Inv lv1 x1) ->
  (forall lv x, Inv lv x ->
      Inv (mkLocals (total_valid_links_found lv) 0 (link lv)) x) ->
  (forall lv x, Inv lv x -> Inv lv (update_urls (set_start x (start x + num x)%Z))) ->
  (forall x, search_result_list x = [] -> settings x = settings c ->
             Inv (mkLocals 0 0 None) x) ->
  forall w r c' w',
    search L c w = (Ret r, c', w') ->
    match r with
    | Some l => loop_returns L Inv l c'
    | None =>
        exists lv', Inv lv' c' /\
          (total_valid_links_found lv' <=? max_search_result_urls_to_return c')%Z = false
    end.
Proof.
  intros Hget Hlink Hacc Hreset Hnext Hinit w r c' w' H.
  rewrite search_unfold in H.
  destruct (check_extra_params _ _); try discriminate.
  destruct (get_page L (url_home c) (search_start c) w) as [[r1 c1] w1] eqn:GP.
  destruct r1 as [html0|e|]; try discriminate.
  pose proof (get_page_results L _ _ _ _ _ _ GP) as (R1 & _).
  pose proof (settings_get_page_frame _ _ (get_page_frame_holds L _ _ _ _ _ _ GP)) as S1.
  destruct (search_start_cookies c) as (_ & _ & _ & E0).
  assert (I1 : Inv (mkLocals 0 0 None) c1).
  { apply Hinit; [congruence|]. rewrite S1. apply settings_search_start. }
  exact (search_loop_invariant L Inv Hget Hlink Hacc Hreset Hnext _ _ _ _ _ _ _ I1 H).
Qed.

End SearchInvariant.

Section NegativeCap.

Variable L : pylib.

Lemma accept_link_cases (a : Tag) (u : string) (lv lv1 : locals) (x x1 : SearchClient) :
  accept_link a u lv x = (lv1, x1) ->
  settings x1 = settings x /\
  ((py_in u (search_result_list x) = true /\
    search_result_list x1 = search_result_list x /\
    total_valid_links_found lv1 = total_valid_links_found lv) \/
   (py_in u (search_result_list x) = false /\
    total_valid_links_found lv1 = (total_valid_links_found lv + 1)%Z /\
    exists it,
      search_result_list x1 = (search_result_list x ++ [it])%list /\
      item_url it = u /\
      (verbose_output x = false -> it = ItemStr u) /\
      (verbose_output x = true ->
       exists t d, it = ItemDict (total_valid_links_found lv + 1) t d u))).
Proof.
  intros A. split; [eapply settings_accept_link; exact A|].
  unfold accept_link in A. destruct (py_in u (search_result_list x)) eqn:PI; simpl in A;
    injection A as <- <-.
  - left. auto.
  - right. split; [reflexivity|]. split; [reflexivity|].
    eexists. split; [destruct x; reflexivity|].
    destruct (verbose_output x); simpl; repeat split; try discriminate; eauto.
Qed.

Lemma frame_results (x x' : SearchClient) :
  get_page_frame x x' ->
  search_result_list x' = search_result_list x /\
  max_search_result_urls_to_return x' = max_search_result_urls_to_return x /\
  verbose_output x' = verbose_output x.
Proof. intros (d & k & ->). destruct x; repeat split; reflexivity. Qed.

Lemma next_page_results (x : SearchClient) :
  search_result_list (update_urls (set_start x (start x + num x)%Z)) = search_result_list x /\
  max_search_result_urls_to_return (update_urls (set_start x (start x + num x)%Z))
  = max_search_result_urls_to_return x /\
  verbose_output (update_urls (set_start x (start x + num x)%Z)) = verbose_output x.
Proof. destruct x; repeat split; reflexivity. Qed.

(** X14: when [search] returns, it returns [None] in place of a list
    exactly when the cap on the number of results is negative: the loop
    over the pages is not entered then, and the function ends without a
    [return] statement. *)
Theorem search_returns_none_iff_negative_cap (c : SearchClient) (w : world)
  (r : option (list result_item)) (c' : SearchClient) (w' : world) :
  search L c w = (Ret r, c', w') ->
  (r = None <-> (max_search_result_urls_to_return c < 0)%Z).
Proof.
  intros H. split.
  - intros ->.
    pose proof (search_invariant L
      (fun lv x => total_valid_links_found lv = Z.of_nat (List.length (search_result_list x)) /\
                   (search_result_list x = [] \/
                    (Z.of_nat (List.length (search_result_list x))
                     < max_search_result_urls_to_return x)%Z) /\
                   max_search_result_urls_to_return x = max_search_result_urls_to_return c)
      c) as P.
    cbv beta in P.
    assert (K : exists lv', (total_valid_links_found lv'
                   = Z.of_nat (List.length (search_result_list c')) /\
                   (search_result_list c' = [] \/
                    (Z.of_nat (List.length (search_result_list c'))
                     < max_search_result_urls_to_return c')%Z) /\
                   max_search_result_urls_to_return c' = max_search_result_urls_to_return c) /\
                (total_valid_links_found lv' <=? max_search_result_urls_to_return c')%Z = false).
    { refine (P _ _ _ _ _ _ w None c' w' H).
      - intros lv x x' (T & D & M) F. apply frame_results in F.
        destruct F as (R & M' & _). rewrite R, M'. auto.
      - intros lv x l I. exact I.
      - intros a u lv x lv1 x1 (T & D & M) _ _ A C.
        apply Z.leb_gt in C.
        destruct (accept_link_cases _ _ _ _ _ _ A) as (S & [(_ & R & T1)|(_ & T1 & it & R & _)]).
        + apply settings_max in S.
          split; [rewrite R; congruence|]. split; [right; exact C|congruence].
        + apply settings_max in S.
          split; [rewrite R, length_app; simpl; lia|].
          split; [right; exact C|congruence].
      - intros lv x I. exact I.
      - intros lv x (T & D & M). destruct (next_page_results x) as (R & M' & _).
        rewrite R, M'. auto.
      - intros x R S. rewrite R. simpl. repeat split; auto.
        apply settings_max. exact S. }
    destruct K as (lv' & (T & D & M) & G). apply Z.leb_gt in G.
    destruct D as [D|D]; [rewrite D in T; simpl in T; lia|lia].
  - intros Hneg. rewrite search_unfold in H.
    destruct (check_extra_params _ _); try discriminate.
    destruct (get_page L (url_home c) (search_start c) w) as [[r1 c1] w1] eqn:GP.
    destruct r1 as [html0|e|]; try discriminate.
    pose proof (settings_max _ _ (settings_get_page_frame _ _
                  (get_page_frame_holds L _ _ _ _ _ _ GP))) as M1.
    pose proof (settings_max _ _ (settings_search_start c)) as M0.
    rewrite search_loop_S in H.
    assert (G : (total_valid_links_found (mkLocals 0 0 None)
                 <=? max_search_result_urls_to_return c1)%Z = false)
      by (apply Z.leb_gt; simpl; lia).
    rewrite G in H. injection H as <- _ _. reflexivity.
Qed.

End NegativeCap.

Section ResultList.

Variable L : pylib.

Lemma filter_accepted_host (h u : string) :
  filter_search_result_urls L h = Ret (Some u) -> foreign_host L u.
Proof.
  unfold filter_search_result_urls. intros H.
  destruct (filter_body L h) as [l|e|] eqn:B; try discriminate.
  injection H as ->.
  destruct (filter_body_host_check L h _ B) as (link & HC & _).
  apply host_check_some in HC. destruct HC as (-> & po & U & N & G).
  exists po. auto.
Qed.

Lemma sentinel_has_no_host : ~ foreign_host L HTTP_429_DETECTED.
Proof.
  intros (po & U & N & _). vm_compute in U. injection U as <-. apply N. reflexivity.
Qed.

Lemma list_last_unique {A : Type} (l0 pre post : list A) (s : A) :
  ~ In s l0 -> (l0 ++ [s] = pre ++ s :: post)%list -> post = [].
Proof.
  intros NI E. destruct post as [|y post]; [reflexivity|]. exfalso.
  assert (N : y :: post <> []) by discriminate.
  destruct (exists_last N) as (post' & z & E2). rewrite E2 in E.
  change (pre ++ s :: post' ++ [z])%list with (pre ++ (s :: post') ++ [z])%list in E.
  rewrite app_assoc in E. apply app_inj_tail in E. destruct E as [E _].
  apply NI. rewrite E. apply in_or_app. right. left. reflexivity.
Qed.

(** X15: the rate-limit sentinel occurs at most once in a list that
    [search] returns, and only as its last element. *)
Theorem sentinel_is_the_last_element (c : SearchClient) (w : world)
  (l : list result_item) (c' : SearchClient) (w' : world) :
  search L c w = (Ret (Some l), c', w') ->
  (~ In (ItemStr HTTP_429_DETECTED) l \/
   exists l0, l = (l0 ++ [ItemStr HTTP_429_DETECTED])%list /\
              ~ In (ItemStr HTTP_429_DETECTED) l0) /\
  (forall pre post, l = (pre ++ ItemStr HTTP_429_DETECTED :: post)%list -> post = []).
Proof.
  intros H.
  pose proof (search_invariant L
    (fun _ x => ~ In (ItemStr HTTP_429_DETECTED) (search_result_list x)) c) as P.
  cbv beta in P.
  assert (Hacc : forall (a : Tag) (u : string) (lv : locals) (x : SearchClient)
                   (lv1 : locals) (x1 : SearchClient),
             ~ In (ItemStr HTTP_429_DETECTED) (search_result_list x) ->
             (exists h, filter_search_result_urls L h = Ret (Some u)) ->
             accept_link a u lv x = (lv1, x1) ->
             ~ In (ItemStr HTTP_429_DETECTED) (search_result_list x1)).
  { intros a u lv x lv1 x1 I (h & F) A.
    destruct (accept_link_cases _ _ _ _ _ _ A) as (_ & [(_ & R & _)|(_ & _ & it & R & U & _)]).
    - rewrite R. exact I.
    - rewrite R. intros K. apply in_app_or in K. destruct K as [K|[K|[]]]; [contradiction|].
      subst it. simpl in U. subst u. exact (sentinel_is_no_link L h F). }
  assert (K : loop_returns L
                (fun _ x => ~ In (ItemStr HTTP_429_DETECTED) (search_result_list x)) l c').
  { refine (P _ _ _ _ _ _ w (Some l) c' w' H).
    - intros lv x x' I F. apply frame_results in F. destruct F as (R & _). rewrite R. exact I.
    - intros lv x l0 I. exact I.
    - intros a u lv x lv1 x1 I _ F A _. eapply Hacc; eassumption.
    - intros lv x I. exact I.
    - intros lv x I. destruct (next_page_results x) as (R & _). rewrite R. exact I.
    - intros x R _. rewrite R. intros []. }
  assert (D : ~ In (ItemStr HTTP_429_DETECTED) l \/
              exists l0, l = (l0 ++ [ItemStr HTTP_429_DETECTED])%list /\
                         ~ In (ItemStr HTTP_429_DETECTED) l0).
  { destruct K as [(lv' & I & _ & ->)|[(lv0 & x & I & -> & ->)|
                   (a & u & lv0 & x & lv1 & I & _ & F & A & _ & ->)]].
    - left. exact I.
    - right. exists (search_result_list x). split; [destruct x; reflexivity|exact I].
    - left. eapply Hacc; eassumption. }
  split; [exact D|].
  intros pre post E. destruct D as [D|(l0 & -> & D)].
  - exfalso. apply D. rewrite E. apply in_or_app. right. left. reflexivity.
  - eapply list_last_unique; eassumption.
Qed.

(** X16: every element of a list that [search] returns, the sentinel
    apart, is a URL (in verbose output: carries a URL) that parses with a
    host that is not empty and does not contain [google]. *)
Theorem results_have_foreign_hosts (c : SearchClient) (w : world)
  (l : list result_item) (c' : SearchClient) (w' : world) :
  search L c w = (Ret (Some l), c', w') ->
  Forall (fun it => it = ItemStr HTTP_429_DETECTED \/ foreign_host L (item_url it)) l.
Proof.
  intros H.
  pose proof (search_invariant L
    (fun _ x => Forall (fun it => foreign_host L (item_url it)) (search_result_list x)) c) as P.
  cbv beta in P.
  assert (Hacc : forall (a : Tag) (u : string) (lv : locals) (x : SearchClient)
                   (lv1 : locals) (x1 : SearchClient),
             Forall (fun it => foreign_host L (item_url it)) (search_result_list x) ->
             (exists h, filter_search_result_urls L h = Ret (Some u)) ->
             accept_link a u lv x = (lv1, x1) ->
             Forall (fun it => foreign_host L (item_url it)) (search_result_list x1)).
  { intros a u lv x lv1 x1 I (h & F) A.
    destruct (accept_link_cases _ _ _ _ _ _ A) as (_ & [(_ & R & _)|(_ & _ & it & R & U & _)]).
    - rewrite R. exact I.
    - rewrite R. apply Forall_app. split; [exact I|].
      constructor; [|constructor]. rewrite U. eapply filter_accepted_host. exact F. }
  assert (K : loop_returns L
                (fun _ x => Forall (fun it => foreign_host L (item_url it))
                              (search_result_list x)) l c').
  { refine (P _ _ _ _ _ _ w (Some l) c' w' H).
    - intros lv x x' I F. apply frame_results in F. destruct F as (R & _). rewrite R. exact I.
    - intros lv x l0 I. exact I.
    - intros a u lv x lv1 x1 I _ F A _. eapply Hacc; eassumption.
    - intros lv x I. exact I.
    - intros lv x I. destruct (next_page_results x) as (R & _). rewrite R. exact I.
    - intros x R _. rewrite R. constructor. }
  assert (W : forall l1, Forall (fun it => foreign_host L (item_url it)) l1 ->
              Forall (fun it => it = ItemStr HTTP_429_DETECTED \/
                                foreign_host L (item_url it)) l1).
  { intros l1 F. eapply Forall_impl; [|exact F]. intros it X. right. exact X. }
  destruct K as [(lv' & I & _ & ->)|[(lv0 & x & I & -> & ->)|
                 (a & u & lv0 & x & lv1 & I & _ & F & A & _ & ->)]].
  - apply W. exact I.
  - replace (search_result_list (set_search_result_list x _))
      with (search_result_list x ++ [ItemStr HTTP_429_DETECTED])%list
      by (destruct x; reflexivity).
    apply Forall_app. split; [apply W; exact I|].
    constructor; [left; reflexivity|constructor].
  - apply W. eapply Hacc; eassumption.
Qed.

Lemma ranked_from_snoc (l : list result_item) (t d u : string) :
  ranked_from 1 l ->
  ranked_from 1 (l ++ [ItemDict (Z.of_nat (List.length l) + 1) t d u]).
Proof.
  intros R i it H.
  destruct (Nat.lt_ge_cases i (List.length l)) as [Lt|Ge].
  - rewrite nth_error_app1 in H by exact Lt. apply R. exact H.
  - rewrite nth_error_app2 in H by exact Ge.
    destruct (i - List.length l)%nat as [|j] eqn:E; simpl in H.
    + injection H as <-. assert (i = List.length l) by lia. subst i.
      exists t, d, u. f_equal. lia.
    + destruct j; discriminate.
Qed.

(** X17: in plain output every element of the list that [search] returns
    is a string. In verbose output the list consists of dictionaries whose
    ranks are 1, 2, 3, ... in the order of the list, followed by at most
    the sentinel string. *)
Theorem result_list_shape (c : SearchClient) (w : world)
  (l : list result_item) (c' : SearchClient) (w' : world) :
  search L c w = (Ret (Some l), c', w') ->
  (verbose_output c = false -> Forall (fun it => exists s, it = ItemStr s) l) /\
  (verbose_output c = true ->
   exists dicts,
     ranked_from 1 dicts /\
     (l = dicts \/ l = (dicts ++ [ItemStr HTTP_429_DETECTED])%list)).
Proof.
  intros H. split; intros V.
  - pose proof (search_invariant L
      (fun _ x => verbose_output x = false /\
                  Forall (fun it => exists s, it = ItemStr s) (search_result_list x)) c) as P.
    cbv beta in P.
    assert (Hacc : forall (a : Tag) (u : string) (lv : locals) (x : SearchClient)
                     (lv1 : locals) (x1 : SearchClient),
               verbose_output x = false /\
               Forall (fun it => exists s, it = ItemStr s) (search_result_list x) ->
               accept_link a u lv x = (lv1, x1) ->
               verbose_output x1 = false /\
               Forall (fun it => exists s, it = ItemStr s) (search_result_list x1)).
    { intros a u lv x lv1 x1 (Vx & I) A.
      destruct (accept_link_cases _ _ _ _ _ _ A)
        as (S & [(_ & R & _)|(_ & _ & it & R & _ & Pl & _)]);
        apply settings_verbose in S; (split; [congruence|]); rewrite R; [exact I|].
      apply Forall_app. split; [exact I|]. constructor; [|constructor].
      exists u. apply Pl. exact Vx. }
    assert (K : loop_returns L
                  (fun _ x => verbose_output x = false /\
                              Forall (fun it => exists s, it = ItemStr s)
                                (search_result_list x)) l c').
    { refine (P _ _ _ _ _ _ w (Some l) c' w' H).
      - intros lv x x' (Vx & I) F. apply frame_results in F.
        destruct F as (R & _ & V'). rewrite R, V'. auto.
      - intros lv x l0 I. exact I.
      - intros a u lv x lv1 x1 I _ _ A _. eapply Hacc; eassumption.
      - intros lv x I. exact I.
      - intros lv x (Vx & I). destruct (next_page_results x) as (R & _ & V').
        rewrite R, V'. auto.
      - intros x R S. apply settings_verbose in S. rewrite R. split; [congruence|constructor]. }
    destruct K as [(lv' & (_ & I) & _ & ->)|[(lv0 & x & (_ & I) & -> & ->)|
                   (a & u & lv0 & x & lv1 & I & _ & _ & A & _ & ->)]].
    + exact I.
    + replace (search_result_list (set_search_result_list x _))
        with (search_result_list x ++ [ItemStr HTTP_429_DETECTED])%list
        by (destruct x; reflexivity).
      apply Forall_app. split; [exact I|]. constructor; [eauto|constructor].
    + exact (proj2 (Hacc _ _ _ _ _ _ I A)).
  - pose proof (search_invariant L
      (fun lv x => verbose_output x = true /\
                   total_valid_links_found lv
                   = Z.of_nat (List.length (search_result_list x)) /\
                   ranked_from 1 (search_result_list x)) c) as P.
    cbv beta in P.
    assert (Hacc : forall (a : Tag) (u : string) (lv : locals) (x : SearchClient)
                     (lv1 : locals) (x1 : SearchClient),
               verbose_output x = true /\
               total_valid_links_found lv = Z.of_nat (List.length (search_result_list x)) /\
               ranked_from 1 (search_result_list x) ->
               accept_link a u lv x = (lv1, x1) ->
               verbose_output x1 = true /\
               total_valid_links_found lv1 = Z.of_nat (List.length (search_result_list x1)) /\
               ranked_from 1 (search_result_list x1)).
    { intros a u lv x lv1 x1 (Vx & T & I) A.
      destruct (accept_link_cases _ _ _ _ _ _ A)
        as (S & [(_ & R & T1)|(_ & T1 & it & R & _ & _ & Vb)]);
        apply settings_verbose in S; (split; [congruence|]); rewrite R.
      - split; [congruence|exact I].
      - destruct (Vb Vx) as (t & d & ->).
        split; [rewrite length_app; simpl; lia|].
        rewrite T. apply ranked_from_snoc. exact I. }
    assert (K : loop_returns L
                  (fun lv x => verbose_output x = true /\
                               total_valid_links_found lv
                               = Z.of_nat (List.length (search_result_list x)) /\
                               ranked_from 1 (search_result_list x)) l c').
    { refine (P _ _ _ _ _ _ w (Some l) c' w' H).
      - intros lv x x' (Vx & T & I) F. apply frame_results in F.
        destruct F as (R & _ & V'). rewrite R, V'. auto.
      - intros lv x l0 I. exact I.
      - intros a u lv x lv1 x1 I _ _ A _. eapply Hacc; eassumption.
      - intros lv x I. exact I.
      - intros lv x (Vx & T & I). destruct (next_page_results x) as (R & _ & V').
        rewrite R, V'. auto.
      - intros x R S. apply settings_verbose in S. rewrite R.
        split; [congruence|]. split; [reflexivity|]. intros i it N. destruct i; discriminate. }
    destruct K as [(lv' & (_ & _ & I) & _ & ->)|[(lv0 & x & (_ & _ & I) & -> & ->)|
                   (a & u & lv0 & x & lv1 & I & _ & _ & A & _ & ->)]].
    + eauto.
    + exists (search_result_list x). split; [exact I|]. right. destruct x; reflexivity.
    + exists (search_result_list c'). split; [|left; reflexivity].
      exact (proj2 (proj2 (Hacc _ _ _ _ _ _ I A))).
Qed.

End ResultList.

Lemma search_returns_none_iff_negative_cap_witness :
  fst (fst (search ex_lib (ex_client false true (-1)) (ex_world [home_ok]))) = Ret None /\
  (max_search_result_urls_to_return (ex_client false true (-1)) < 0)%Z.
Proof.
  assert (H : forall x, x = search ex_lib (ex_client false true (-1)) (ex_world [home_ok]) ->
              x = (Ret None, snd (fst x), snd x))
    by (intros x ->; vm_compute; reflexivity).
  specialize (H _ eq_refl).
  split; [rewrite H; reflexivity|].
  exact (proj1 (search_returns_none_iff_negative_cap ex_lib _ _ _ _ _ H) eq_refl).
Defined.

Lemma sentinel_is_the_last_element_witness :
  fst (fst (search ex_lib (ex_client false false 100) ex_sentinel_world))
  = Ret (Some [ItemStr "https://example.com/"; ItemStr HTTP_429_DETECTED]) /\
  forall pre post,
    [ItemStr "https://example.com/"; ItemStr HTTP_429_DETECTED]
    = (pre ++ ItemStr HTTP_429_DETECTED :: post)%list -> post = [].
Proof.
  assert (H : fst (fst (search ex_lib (ex_client false false 100) ex_sentinel_world))
              = Ret (Some [ItemStr "https://example.com/"; ItemStr HTTP_429_DETECTED]))
    by (vm_compute; reflexivity).
  split; [exact H|].
  exact (proj2 (sentinel_is_the_last_element ex_lib _ _ _ _ _
                  (ex_search_returns _ _ _ H))).
Defined.

Lemma results_have_foreign_hosts_witness :
  Forall (fun it => it = ItemStr HTTP_429_DETECTED \/ foreign_host ex_lib (item_url it))
    [ItemStr "https://example.com/"; ItemStr HTTP_429_DETECTED].
Proof.
  refine (results_have_foreign_hosts ex_lib (ex_client false false 100) ex_sentinel_world
            _ _ _ (ex_search_returns _ _ _ _)).
  vm_compute. reflexivity.
Defined.

Lemma result_list_shape_witness :
  fst (fst (search ex_lib (ex_client true false 100) ex_sentinel_world))
  = Ret (Some [ItemDict 1 "Example" "About example" "https://example.com/";
               ItemStr HTTP_429_DETECTED]) /\
  exists dicts,
    ranked_from 1 dicts /\
    ([ItemDict 1 "Example" "About example" "https://example.com/";
      ItemStr HTTP_429_DETECTED] = dicts \/
     [ItemDict 1 "Example" "About example" "https://example.com/";
      ItemStr HTTP_429_DETECTED] = (dicts ++ [ItemStr HTTP_429_DETECTED])%list).
Proof.
  assert (H : fst (fst (search ex_lib (ex_client true false 100) ex_sentinel_world))
              = Ret (Some [ItemDict 1 "Example" "About example" "https://example.com/";
                           ItemStr HTTP_429_DETECTED]))
    by (vm_compute; reflexivity).
  split; [exact H|].
  exact (proj2 (result_list_shape ex_lib _ _ _ _ _ (ex_search_returns _ _ _ H)) eq_refl).
Defined.

(** ** The events of one page request *)

Section PageEvents.

Variable L : pylib.

(** A response with status 429 in a session that manages rate limits. *)
Lemma get_page_429_step (url : string) (c : SearchClient) (w : world)
  (jar : dict) (body : string) (rest : list exchange) :
  script w = Response 429 jar body :: rest ->
  yagooglesearch_manages_http_429s c = true ->
  get_page L url c w =
    let c1 := set_cookies c (cookies_after jar) in
    let w1 := mkWorld rest (draws w)
                (trace w ++ [EvGet url (cookies c) (user_agent c)])
                (log w ++ response_messages 429 jar) in
    match PyNum.mul (http_429_cool_off_time_in_minutes c) (PyInt 60) with
    | Raise e => (Raise e, c1, w1)
    | Timeout => (Timeout, c1, w1)
    | Ret secs =>
        match time_sleep_error L secs with
        | Some e => (Raise e, c1, w1)
        | None =>
            match PyNum.mul (http_429_cool_off_time_in_minutes c)
                    (http_429_cool_off_factor c) with
            | Raise e => (Raise e, c1, emit w1 (EvSleep secs))
            | Timeout => (Timeout, c1, emit w1 (EvSleep secs))
            | Ret p =>
                get_page L url
                  (set_http_429_cool_off_time_in_minutes c1 (PyNum.round2 p))
                  (emit w1 (EvSleep secs))
            end
        end
    end.
Proof.
  intros Hs Hm. unfold get_page at 1. rewrite Hs. simpl.
  unfold cookies_after, response_messages.
  destruct (consent_cookies_total jar) as [consent ->].
  assert (M : forall k, yagooglesearch_manages_http_429s (set_cookies c k)
                        = yagooglesearch_manages_http_429s c)
    by (intros; destruct c; reflexivity).
  assert (D : forall k, http_429_cool_off_time_in_minutes (set_cookies c k)
                        = http_429_cool_off_time_in_minutes c)
    by (intros; destruct c; reflexivity).
  assert (F : forall k, http_429_cool_off_factor (set_cookies c k)
                        = http_429_cool_off_factor c)
    by (intros; destruct c; reflexivity).
  unfold http_429_detected.
  destruct consent as [yes|]; rewrite ?set_cookies_twice, ?M, ?Hm, ?D, ?F; simpl;
    (destruct (PyNum.mul (http_429_cool_off_time_in_minutes c) (PyInt 60)) as [secs|e|];
     [|unfold logged, emit, set_script; simpl; rewrite <- ?app_assoc; reflexivity
      |unfold logged, emit, set_script; simpl; rewrite <- ?app_assoc; reflexivity]);
    (destruct (time_sleep_error L secs) as [e|] eqn:TS;
     [unfold logged, emit, set_script; simpl; rewrite <- ?app_assoc; reflexivity|]);
    (destruct (PyNum.mul (http_429_cool_off_time_in_minutes c)
                 (http_429_cool_off_factor c)) as [p|e|];
     [|simpl; unfold logged, emit, set_script; simpl; rewrite <- ?app_assoc; reflexivity
      |simpl; unfold logged, emit, set_script; simpl; rewrite <- ?app_assoc; reflexivity]);
    simpl; unfold get_page; simpl; f_equal;
    unfold emit, logged, set_script; simpl; rewrite <- ?app_assoc; reflexivity.
Qed.

Lemma get_page_aux_events (sc : list exchange) :
  forall url c w r c' w',
    get_page L url c w = (r, c', w') -> script w = sc ->
    exists evs,
      trace w' = (trace w ++ evs)%list /\
      Forall (get_page_event url (user_agent c) (yagooglesearch_manages_http_429s c)) evs.
Proof.
  induction sc as [|x rest IH]; intros url c w r c' w' GP Hs.
  - unfold get_page in GP. rewrite Hs in GP. simpl in GP. injection GP as _ _ <-.
    simpl. eexists. split; [reflexivity|]. repeat constructor.
  - destruct x as [code jar body|e].
    2:{ unfold get_page in GP. rewrite Hs in GP. simpl in GP. injection GP as _ _ <-.
        simpl. eexists. split; [reflexivity|]. repeat constructor. }
    destruct (code =? 429)%Z eqn:C.
    + destruct (yagooglesearch_manages_http_429s c) eqn:Hm.
      * apply Z.eqb_eq in C. subst code.
        rewrite (get_page_429_step url c w jar body rest Hs Hm) in GP. cbv zeta in GP.
        assert (one : exists evs,
                  (trace w ++ [EvGet url (cookies c) (user_agent c)])%list
                  = (trace w ++ evs)%list /\
                  Forall (get_page_event url (user_agent c) true) evs).
        { eexists. split; [reflexivity|]. repeat constructor. }
        assert (two : forall secs, exists evs,
                  ((trace w ++ [EvGet url (cookies c) (user_agent c)]) ++ [EvSleep secs])%list
                  = (trace w ++ evs)%list /\
                  Forall (get_page_event url (user_agent c) true) evs).
        { intros secs. eexists. split; [rewrite <- app_assoc; reflexivity|].
          repeat constructor. }
        destruct (PyNum.mul _ (PyInt 60)) as [secs|e|];
          try (injection GP as _ _ <-; exact one).
        destruct (time_sleep_error L secs); [injection GP as _ _ <-; exact one|].
        destruct (PyNum.mul _ _) as [p|e|];
          try (injection GP as _ _ <-; exact (two secs)).
        apply IH in GP; [|reflexivity].
        destruct GP as (evs & T & F).
        replace (user_agent _) with (user_agent c) in F by (destruct c; reflexivity).
        replace (yagooglesearch_manages_http_429s _) with true in F
          by (rewrite <- Hm; destruct c; reflexivity).
        exists ([EvGet url (cookies c) (user_agent c); EvSleep secs] ++ evs)%list.
        split.
        -- rewrite T. simpl. rewrite <- !app_assoc. reflexivity.
        -- apply Forall_app. split; [repeat constructor|exact F].
      * rewrite (get_page_one L url c w code jar body rest Hs (or_intror Hm)) in GP.
        injection GP as _ _ <-. simpl. eexists. split; [reflexivity|].
        repeat constructor.
    + rewrite (get_page_one L url c w code jar body rest Hs (or_introl C)) in GP.
      injection GP as _ _ <-. simpl. eexists. split; [reflexivity|].
      repeat constructor.
Qed.

Lemma get_page_events (url : string) (c : SearchClient) (w : world)
  (r : outcome string) (c' : SearchClient) (w' : world) :
  get_page L url c w = (r, c', w') ->
  exists evs,
    trace w' = (trace w ++ evs)%list /\
    Forall (get_page_event url (user_agent c) (yagooglesearch_manages_http_429s c)) evs.
Proof. intros H. eapply get_page_aux_events; [exact H|reflexivity]. Qed.

(** The loop over the anchors changes nothing of the session but the
    result list. *)
Lemma process_anchors_client (anchors : list Tag) :
  forall lv c w r c' w',
    process_anchors L anchors lv c w = (r, c', w') ->
    exists l, c' = set_search_result_list c l.
Proof.
  induction anchors as [|a rest IH]; intros lv c w r c' w' H.
  - rewrite process_anchors_nil in H. injection H as _ <- _.
    exists (search_result_list c). symmetry. apply set_search_result_list_same.
  - destruct (anchor_cases L a) as [E|[(h & f & E & F & N)|(h & u & E & F & N)]].
    + rewrite (process_anchors_no_href L _ _ _ _ _ E) in H.
      destruct (link lv).
      * eapply IH; exact H.
      * injection H as _ <- _. exists (search_result_list c). symmetry.
        apply set_search_result_list_same.
    + rewrite (process_anchors_filtered L _ _ _ _ _ _ _ E F N) in H.
      eapply IH; exact H.
    + destruct (process_anchors_accepted L a rest lv c w _ _ E F N)
        as (w1 & S1 & D1 & T1 & Eq).
      rewrite Eq in H. clear Eq.
      assert (A : exists l, snd (accept_link a u lv c) = set_search_result_list c l).
      { unfold accept_link. destruct (negb _); simpl; [eauto|].
        exists (search_result_list c). symmetry. apply set_search_result_list_same. }
      destruct (accept_link a u lv c) as [lv1 c1]. simpl in A. destruct A as (l1 & ->).
      destruct (_ <=? _)%Z.
      * injection H as _ <- _. eauto.
      * apply IH in H. destruct H as (l2 & ->). exists l2.
        apply set_search_result_list_twice.
Qed.

End PageEvents.

(** ** The events of a search *)

Section SearchEvents.

Variable L : pylib.

Lemma random_index_bound (w : world) (n : nat) :
  (0 < n)%nat ->
  (fst (random_index w n) < n)%nat /\
  trace (snd (random_index w n)) = trace w /\
  script (snd (random_index w n)) = script w.
Proof.
  intros Hn. unfold random_index. destruct (draws w) as [|d ds]; simpl.
  - repeat split; exact Hn.
  - repeat split. apply Nat.mod_upper_bound. lia.
Qed.

Lemma search_loop_events (P : event -> Prop) (Inv : SearchClient -> Prop) :
  (forall x x', Inv x -> get_page_frame x x' -> Inv x') ->
  (forall x l, Inv x -> Inv (set_search_result_list x l)) ->
  (forall x, Inv x -> Inv (update_urls (set_start x (start x + num x)%Z))) ->
  (forall x ev, Inv x ->
     get_page_event (page_url x) (user_agent x) (yagooglesearch_manages_http_429s x) ev ->
     P ev) ->
  (forall x i, Inv x -> (i < 11)%nat ->
     P (EvSleep (PyInt (minimum_delay_between_paged_results_in_seconds x + Z.of_nat i)))) ->
  forall fuel lv c w r c' w',
    Inv c ->
    search_loop L fuel lv c w = (r, c', w') ->
    Inv c' /\ exists evs, trace w' = (trace w ++ evs)%list /\ Forall P evs.
Proof.
  intros Hframe Hlist Hnext Hget Hsleep.
  assert (nil_ok : forall w0 : world,
            exists evs, trace w0 = (trace w0 ++ evs)%list /\ Forall P evs).
  { intros w0. exists []. rewrite app_nil_r. split; [reflexivity|constructor]. }
  induction fuel as [|fuel IH]; intros lv c w r c' w' I H.
  - unfold search_loop in H. injection H as _ <- <-. split; [exact I|apply nil_ok].
  - rewrite search_loop_S in H.
    destruct (_ <=? _)%Z.
    2:{ injection H as _ <- <-. split; [exact I|apply nil_ok]. }
    destruct (get_page L (page_url c) c w) as [[r1 c1] w1] eqn:GP.
    pose proof (get_page_frame_holds L _ _ _ _ _ _ GP) as F1.
    pose proof (Hframe _ _ I F1) as I1.
    apply get_page_events in GP. destruct GP as (evs1 & T1 & E1).
    assert (P1 : Forall P evs1).
    { eapply Forall_impl; [|exact E1]. intros ev. apply Hget. exact I. }
    assert (base : forall w2, trace w2 = trace w1 ->
              exists evs, trace w2 = (trace w ++ evs)%list /\ Forall P evs).
    { intros w2 ->. exists evs1. split; assumption. }
    destruct r1 as [html|e|];
      try (injection H as _ <- <-; split; [exact I1|apply base; reflexivity]).
    destruct (String.eqb html HTTP_429_DETECTED).
    { injection H as _ <- <-. split; [apply Hlist; exact I1|apply base; reflexivity]. }
    destruct (process_anchors L _ _ c1 w1) as [[r2 c2] w2] eqn:PA.
    pose proof (process_anchors_world L _ _ _ _ _ _ _ PA) as (_ & _ & _ & T2).
    apply process_anchors_client in PA. destruct PA as (l2 & ->).
    pose proof (Hlist _ l2 I1) as I2.
    destruct r2 as [[lv2|l]|e|];
      try (injection H as _ <- <-; split; [exact I2|apply base; exact T2]).
    destruct (_ =? 0)%Z;
      [injection H as _ <- <-; split; [exact I2|apply base; exact T2]|].
    pose proof (random_index_bound w2 11 ltac:(lia)) as (B & T3 & _).
    destruct (random_index w2 11) as [i w3]. simpl in B, T3. cbv zeta in H.
    pose proof (Hnext _ I2) as I3.
    destruct (time_sleep_error L _).
    + injection H as _ <- <-. split; [exact I3|]. apply base. congruence.
    + apply IH in H; [|exact I3]. destruct H as (I' & evs' & T' & P').
      split; [exact I'|].
      exists (evs1 ++ EvSleep (PyInt (minimum_delay_between_paged_results_in_seconds
                                        (update_urls (set_start (set_search_result_list c1 l2)
                                           (start (set_search_result_list c1 l2)
                                            + num (set_search_result_list c1 l2))))
                                      + Z.of_nat i)) :: evs')%list.
      split.
      * rewrite T'. simpl. rewrite T3, T2, T1. rewrite <- !app_assoc. reflexivity.
      * apply Forall_app. split; [exact P1|]. constructor; [|exact P'].
        apply Hsleep; assumption.
Qed.

Lemma search_events (P : event -> Prop) (Inv : SearchClient -> Prop) (c : SearchClient) :
  (forall x x', Inv x -> get_page_frame x x' -> Inv x') ->
  (forall x l, Inv x -> Inv (set_search_result_list x l)) ->
  (forall x, Inv x -> Inv (update_urls (set_start x (start x + num x)%Z))) ->
  (forall x ev, Inv x ->
     get_page_event (page_url x) (user_agent x) (yagooglesearch_manages_http_429s x) ev ->
     P ev) ->
  (forall x i, Inv x -> (i < 11)%nat ->
     P (EvSleep (PyInt (minimum_delay_between_paged_results_in_seconds x + Z.of_nat i)))) ->
  (forall ev,
     get_page_event (url_home c) (user_agent c) (yagooglesearch_manages_http_429s c) ev ->
     P ev) ->
  Inv (search_start c) ->
  forall w r c' w',
    search L c w = (r, c', w') ->
    Inv c' /\ exists evs, trace w' = (trace w ++ evs)%list /\ Forall P evs.
Proof.
  intros Hframe Hlist Hnext Hget Hsleep Hhome I0 w r c' w' H.
  rewrite search_unfold in H.
  assert (nil_ok : exists evs, trace w = (trace w ++ evs)%list /\ Forall P evs).
  { exists []. rewrite app_nil_r. split; [reflexivity|constructor]. }
  destruct (check_extra_params _ _);
    try (injection H as _ <- <-; split; [exact I0|exact nil_ok]).
  destruct (get_page L (url_home c) (search_start c) w) as [[r1 c1] w1] eqn:GP.
  pose proof (get_page_frame_holds L _ _ _ _ _ _ GP) as F1.
  pose proof (Hframe _ _ I0 F1) as I1.
  apply get_page_events in GP. destruct GP as (evs1 & T1 & E1).
  destruct (search_start_cookies c) as (_ & K2 & _).
  rewrite K2, (settings_manages _ _ (settings_search_start c)) in E1.
  assert (P1 : Forall P evs1).
  { eapply Forall_impl; [|exact E1]. exact Hhome. }
  destruct r1 as [html|e|];
    try (injection H as _ <- <-; split; [exact I1|exists evs1; auto]).
  apply (search_loop_events P Inv Hframe Hlist Hnext Hget Hsleep) in H; [|exact I1].
  destruct H as (I' & evs' & T' & P').
  split; [exact I'|]. exists (evs1 ++ evs')%list. split.
  - rewrite T', T1, app_assoc. reflexivity.
  - apply Forall_app. auto.
Qed.

End SearchEvents.

(** ** Pauses and page addresses *)

Section Pauses.

Variable L : pylib.

Lemma settings_min_delay (c c' : SearchClient) :
  settings c' = settings c ->
  minimum_delay_between_paged_results_in_seconds c'
  = minimum_delay_between_paged_results_in_seconds c.
Proof. unfold settings. intros H. congruence. Qed.

Lemma settings_user_agent (c c' : SearchClient) :
  settings c' = settings c -> user_agent c' = user_agent c.
Proof. unfold settings. intros H. congruence. Qed.

Lemma settings_set_search_result_list (x : SearchClient) (l : list result_item) :
  settings (set_search_result_list x l) = settings x.
Proof. destruct x; reflexivity. Qed.

Lemma settings_next_page (x : SearchClient) :
  settings (update_urls (set_start x (start x + num x)%Z)) = settings x.
Proof. destruct x; reflexivity. Qed.

(** X18: a session that does not manage rate limits sleeps between
    results pages only: every sleep of [search] lasts the minimum delay of
    the session plus a whole number of seconds from 0 to 10. *)
Theorem unmanaged_session_sleeps_between_pages_only (c : SearchClient) (w : world) :
  yagooglesearch_manages_http_429s c = false ->
  exists evs,
    trace (snd (search L c w)) = (trace w ++ evs)%list /\
    Forall (page_delay c) evs.
Proof.
  intros Hm.
  destruct (search L c w) as [[r c'] w'] eqn:H. simpl.
  refine (proj2 (search_events L (page_delay c)
            (fun x => settings x = settings c) c _ _ _ _ _ _ _ w r c' w' H)).
  - intros x x' I F. rewrite (settings_get_page_frame _ _ F). exact I.
  - intros x l I. rewrite settings_set_search_result_list. exact I.
  - intros x I. rewrite settings_next_page. exact I.
  - intros x ev I E. destruct ev as [u k a|s]; simpl in *; [exact Logic.I|].
    rewrite (settings_manages _ _ I) in E. congruence.
  - intros x i I B. simpl. exists (Z.of_nat i).
    rewrite (settings_min_delay _ _ I). split; [reflexivity|lia].
  - intros ev E. destruct ev as [u k a|s]; simpl in *; [exact Logic.I|congruence].
  - apply settings_search_start.
Qed.

End Pauses.

Section PageAddresses.

Variable L : pylib.

Lemma url_state_page_url (x y : SearchClient) :
  url_state x = url_state y -> page_url x = page_url y /\ url_home x = url_home y.
Proof.
  unfold url_state, settings. intros H.
  injection H as Q T LH LR TB SA NU CO MX MD UA MA FA PR VS VE VO GE UP PD ST EX
                 UH US UN USN UNN.
  unfold page_url. rewrite EX, ST, NU, US, UN, USN, UNN. split; [reflexivity|exact UH].
Qed.

Lemma url_state_frame (x x' : SearchClient) :
  get_page_frame x x' -> url_state x' = url_state x.
Proof. intros (d & k & ->). destruct x; reflexivity. Qed.

Lemma url_state_set_search_result_list (x : SearchClient) (l : list result_item) :
  url_state (set_search_result_list x l) = url_state x.
Proof. destruct x; reflexivity. Qed.

Lemma url_state_update (x y : SearchClient) (s t : Z) :
  settings x = settings y -> extra_items x = extra_items y -> s = t ->
  url_state (update_urls (set_start x s)) = url_state (update_urls (set_start y t)).
Proof.
  intros S E ->. destruct x, y. unfold settings, extra_items in *. simpl in *.
  injection S. intros. subst. unfold url_state, settings, extra_items. simpl.
  rewrite E. reflexivity.
Qed.

Lemma url_state_fields (x y : SearchClient) :
  url_state x = url_state y ->
  settings x = settings y /\ start x = start y /\ extra_items x = extra_items y.
Proof.
  intros H.
  pose proof (f_equal (fun t => fst (fst (fst (fst (fst (fst (fst t))))))) H) as S.
  pose proof (f_equal (fun t => snd (fst (fst (fst (fst (fst (fst t))))))) H) as St.
  pose proof (f_equal (fun t => snd (fst (fst (fst (fst (fst t)))))) H) as E.
  auto.
Qed.

Lemma url_state_next (c x : SearchClient) (k : nat) :
  url_state x = url_state (nth_page c k) ->
  url_state (update_urls (set_start x (start x + num x)%Z)) = url_state (nth_page c (S k)).
Proof.
  intros H. apply url_state_fields in H. destruct H as (S & St & E).
  unfold nth_page in *. apply url_state_update.
  - rewrite S. destruct c; reflexivity.
  - rewrite E. destruct c; reflexivity.
  - rewrite St, (settings_num _ _ S).
    replace (start (update_urls (set_start c (start c + Z.of_nat k * num c))))
      with (start c + Z.of_nat k * num c)%Z by (destruct c; reflexivity).
    replace (num (update_urls (set_start c (start c + Z.of_nat k * num c))))
      with (num c) by (destruct c; reflexivity).
    lia.
Qed.

Lemma url_state_in_sync (x y : SearchClient) :
  url_state x = url_state (update_urls y) -> update_urls x = x.
Proof.
  destruct x, y. unfold url_state, settings, extra_items, update_urls. simpl.
  intros H. injection H. intros. subst. reflexivity.
Qed.

Lemma url_state_search_start (c : SearchClient) :
  url_state (search_start c) = url_state c.
Proof.
  destruct (extra_params c) as [[|kv d]|] eqn:E;
    destruct c; simpl in E; subst; reflexivity.
Qed.

Lemma nth_page_zero (c : SearchClient) :
  update_urls c = c -> url_state (search_start c) = url_state (nth_page c 0).
Proof.
  intros U. unfold nth_page.
  replace (start c + Z.of_nat 0 * num c)%Z with (start c) by (simpl; lia).
  replace (set_start c (start c)) with c by (destruct c; reflexivity).
  rewrite U. apply url_state_search_start.
Qed.

(** X19: for a session whose URLs are up to date, as the constructor
    leaves them, every request of [search] carries the user agent of the
    session and goes to the home page or to the results page at
    [start + k * num] for some [k]. The session that [search] leaves has
    its URLs up to date again, its [start] advanced by a multiple of [num],
    and the same user agent. *)
Theorem requests_of_a_session (c : SearchClient) (w : world) :
  update_urls c = c ->
  update_urls (snd (fst (search L c w))) = snd (fst (search L c w)) /\
  (exists k, start (snd (fst (search L c w))) = (start c + Z.of_nat k * num c)%Z) /\
  user_agent (snd (fst (search L c w))) = user_agent c /\
  exists evs,
    trace (snd (search L c w)) = (trace w ++ evs)%list /\
    Forall (session_request c) evs.
Proof.
  intros U.
  destruct (search L c w) as [[r c'] w'] eqn:H. simpl.
  pose proof (search_events L (session_request c)
                (fun x => exists k, url_state x = url_state (nth_page c k)) c) as P.
  cbv beta in P.
  assert (K : (exists k, url_state c' = url_state (nth_page c k)) /\
              exists evs, trace w' = (trace w ++ evs)%list /\
                          Forall (session_request c) evs).
  { refine (P _ _ _ _ _ _ _ w r c' w' H).
    - intros x x' (k & I) F. exists k. rewrite (url_state_frame _ _ F). exact I.
    - intros x l (k & I). exists k. rewrite url_state_set_search_result_list. exact I.
    - intros x (k & I). exists (S k). apply url_state_next. exact I.
    - intros x ev (k & I) E. destruct ev as [u j a|s]; simpl in *; [|exact Logic.I].
      destruct E as (-> & ->).
      destruct (url_state_page_url _ _ I) as (PU & _).
      destruct (url_state_fields _ _ I) as (S & _).
      split.
      + rewrite (settings_user_agent _ _ S). destruct c; reflexivity.
      + right. exists k. exact PU.
    - intros x i _ _. exact Logic.I.
    - intros ev E. destruct ev as [u j a|s]; simpl in *; [|exact Logic.I].
      destruct E as (-> & ->). split; [reflexivity|left; reflexivity].
    - exists O. apply nth_page_zero. exact U. }
  destruct K as ((k & I) & E).
  split; [eapply url_state_in_sync; exact I|].
  destruct (url_state_fields _ _ I) as (S & St & _).
  split; [exists k; rewrite St; destruct c; reflexivity|].
  split; [rewrite (settings_user_agent _ _ S); destruct c; reflexivity|exact E].
Qed.

End PageAddresses.

Lemma unmanaged_session_sleeps_between_pages_only_witness :
  Forall (page_delay (ex_client false false 100))
    (trace (snd (search ex_lib (ex_client false false 100)
                   (ex_world [home_ok; Response 200 [] page_three;
                              Response 200 [] page_example; Response 200 [] ""])))).
Proof.
  destruct (unmanaged_session_sleeps_between_pages_only ex_lib (ex_client false false 100)
              (ex_world [home_ok; Response 200 [] page_three;
                         Response 200 [] page_example; Response 200 [] ""])
              eq_refl)
    as (evs & T & F).
  rewrite T. exact F.
Defined.

Lemma requests_of_a_session_witness :
  update_urls (ex_client false true 100) = ex_client false true 100 /\
  exists evs,
    trace (snd (search ex_lib (ex_client false true 100)
                  (ex_world [home_ok; Response 200 [] page_example; Response 200 [] ""])))
    = evs /\
    Forall (session_request (ex_client false true 100)) evs.
Proof.
  split; [reflexivity|].
  destruct (proj2 (proj2 (proj2 (requests_of_a_session ex_lib (ex_client false true 100)
              (ex_world [home_ok; Response 200 [] page_example; Response 200 [] ""])
              eq_refl))))
    as (evs & T & F).
  exists evs. split; [exact T|exact F].
Defined.

(** ** The date range of [get_tbs] *)

Lemma Z_range_forallb (P : Z -> bool) (lo hi : Z) :
  forallb P (Z_range lo hi) = true ->
  forall z, (lo <= z <= hi)%Z -> P z = true.
Proof.
  intros H z Hz. rewrite forallb_forall in H. apply H.
  unfold Z_range. apply in_map_iff. exists (Z.to_nat (z - lo)). split; [lia|].
  apply in_seq. lia.
Qed.

Lemma year_text (y : Z) :
  (1000 <= y <= 9999)%Z ->
  String.length (PyStr.of_Z y) = 4%nat /\
  PyStr.forallb_chars PyStr.is_digit (PyStr.of_Z y) = true /\
  read_Z (PyStr.of_Z y) = Some y.
Proof.
  intros H.
  assert (K : forallb (fun y => (String.length (PyStr.of_Z y) =? 4)%nat
                        && PyStr.forallb_chars PyStr.is_digit (PyStr.of_Z y)
                        && match read_Z (PyStr.of_Z y) with
                           | Some z => (z =? y)%Z
                           | None => false
                           end)
                (Z_range 1000 9999) = true) by (vm_compute; reflexivity).
  pose proof (Z_range_forallb _ _ _ K y H) as P. cbv beta in P.
  apply andb_true_iff in P. destruct P as [P P3].
  apply andb_true_iff in P. destruct P as [P1 P2].
  apply Nat.eqb_eq in P1. repeat split; auto.
  destruct (read_Z (PyStr.of_Z y)); [|discriminate].
  apply Z.eqb_eq in P3. congruence.
Qed.

Lemma pad2_text (n : Z) :
  (1 <= n <= 31)%Z ->
  String.length (pad2 n) = 2%nat /\
  PyStr.forallb_chars PyStr.is_digit (pad2 n) = true /\
  read_Z (pad2 n) = Some n.
Proof.
  intros H.
  assert (K : forallb (fun y => (String.length (pad2 y) =? 2)%nat
                        && PyStr.forallb_chars PyStr.is_digit (pad2 y)
                        && match read_Z (pad2 y) with
                           | Some z => (z =? y)%Z
                           | None => false
                           end)
                (Z_range 1 31) = true) by (vm_compute; reflexivity).
  pose proof (Z_range_forallb _ _ _ K n H) as P. cbv beta in P.
  apply andb_true_iff in P. destruct P as [P P3].
  apply andb_true_iff in P. destruct P as [P1 P2].
  apply Nat.eqb_eq in P1. repeat split; auto.
  destruct (read_Z (pad2 n)); [|discriminate].
  apply Z.eqb_eq in P3. congruence.
Qed.

Lemma string_length_app (a b : string) :
  String.length (a ++ b) = (String.length a + String.length b)%nat.
Proof. induction a as [|x a IH]; simpl; [reflexivity|rewrite IH; reflexivity]. Qed.

Lemma string_app_inj (a a' b b' : string) :
  String.length a = String.length a' -> a ++ b = a' ++ b' -> a = a' /\ b = b'.
Proof.
  revert a'. induction a as [|x a IH]; intros [|x' a'] Hl H; simpl in *; try discriminate.
  - auto.
  - injection H as -> H. injection Hl as Hl. destruct (IH a' Hl H) as [-> ->]. auto.
Qed.

Lemma strftime_mdY_text (d : date) :
  four_digit_year d ->
  String.length (strftime_mdY d) = 10%nat /\
  PyStr.forallb_chars tbs_char (strftime_mdY d) = true.
Proof.
  intros (Hy & Hm & Hd).
  destruct (year_text _ Hy) as (Ly & Dy & _).
  destruct (pad2_text (month d) ltac:(lia)) as (Lm & Dm & _).
  destruct (pad2_text (day d) Hd) as (Ld & Dd & _).
  assert (W : forall s, PyStr.forallb_chars PyStr.is_digit s = true ->
                        PyStr.forallb_chars tbs_char s = true).
  { intros s. apply forallb_chars_impl. intros c Hc. unfold tbs_char. rewrite Hc. reflexivity. }
  unfold strftime_mdY. split.
  - rewrite !string_length_app, Lm, Ld, Ly. reflexivity.
  - rewrite !forallb_chars_app, (W _ Dm), (W _ Dd), (W _ Dy). reflexivity.
Qed.

Lemma strftime_mdY_inj (d d' : date) :
  four_digit_year d -> four_digit_year d' ->
  strftime_mdY d = strftime_mdY d' -> d = d'.
Proof.
  intros (Hy & Hm & Hd) (Hy' & Hm' & Hd') H.
  destruct (year_text _ Hy) as (_ & _ & Ry).
  destruct (year_text _ Hy') as (_ & _ & Ry').
  destruct (pad2_text (month d) ltac:(lia)) as (Lm & _ & Rm).
  destruct (pad2_text (month d') ltac:(lia)) as (Lm' & _ & Rm').
  destruct (pad2_text (day d) Hd) as (Ld & _ & Rd).
  destruct (pad2_text (day d') Hd') as (Ld' & _ & Rd').
  unfold strftime_mdY in H.
  apply string_app_inj in H; [|congruence]. destruct H as [E1 H].
  simpl in H. injection H as H.
  apply string_app_inj in H; [|congruence]. destruct H as [E2 H].
  simpl in H. injection H as E3.
  rewrite E1 in Rm. rewrite E2 in Rd. rewrite E3 in Ry.
  destruct d as [y m dd], d' as [y' m' dd']. simpl in *.
  f_equal; congruence.
Qed.

(** X21: for two dates with years of four digits, [get_tbs] returns
    [cdr:1,cd_min:MM/DD/YYYY,cd_max:MM/DD/YYYY]: 41 characters, each a
    digit, a lower-case letter or one of [: , _ /]; none of [& = # ? + %]
    and no space occurs in it; and the two dates can be read back from it,
    the function being injective on such dates. *)
Theorem get_tbs_layout (from_date to_date : date) :
  four_digit_year from_date -> four_digit_year to_date ->
  get_tbs from_date to_date
  = "cdr:1,cd_min:" ++ strftime_mdY from_date ++ ",cd_max:" ++ strftime_mdY to_date /\
  String.length (get_tbs from_date to_date) = 41%nat /\
  PyStr.forallb_chars tbs_char (get_tbs from_date to_date) = true /\
  (forall ch, PyStr.mem ch "&=#?+% " = true ->
              PyStr.mem ch (get_tbs from_date to_date) = false) /\
  (forall from_date' to_date',
      four_digit_year from_date' -> four_digit_year to_date' ->
      get_tbs from_date to_date = get_tbs from_date' to_date' ->
      from_date = from_date' /\ to_date = to_date').
Proof.
  intros Ha Hb.
  destruct (strftime_mdY_text _ Ha) as (La & Ca).
  destruct (strftime_mdY_text _ Hb) as (Lb & Cb).
  assert (C : PyStr.forallb_chars tbs_char (get_tbs from_date to_date) = true).
  { unfold get_tbs. cbv zeta. rewrite !forallb_chars_app, Ca, Cb. reflexivity. }
  split; [reflexivity|]. split; [|split; [exact C|split]].
  - unfold get_tbs. cbv zeta. rewrite !string_length_app, La, Lb. reflexivity.
  - intros ch M. eapply mem_false_forallb; [exact C|].
    destruct ch as [[] [] [] [] [] [] [] []]; try discriminate M; reflexivity.
  - intros a' b' Ha' Hb' H.
    destruct (strftime_mdY_text _ Ha') as (La' & _).
    unfold get_tbs in H. cbv zeta in H.
    apply string_app_inj in H; [|reflexivity]. destruct H as [_ H].
    apply string_app_inj in H; [|congruence]. destruct H as [E1 H].
    apply string_app_inj in H; [|reflexivity]. destruct H as [_ E2].
    split; apply strftime_mdY_inj; assumption.
Qed.

Lemma get_tbs_layout_witness :
  get_tbs (mkDate 2021 1 1) (mkDate 2021 6 1) = "cdr:1,cd_min:01/01/2021,cd_max:06/01/2021" /\
  String.length (get_tbs (mkDate 2021 1 1) (mkDate 2021 6 1)) = 41%nat.
Proof.
  split; [vm_compute; reflexivity|].
  refine (proj1 (proj2 (get_tbs_layout (mkDate 2021 1 1) (mkDate 2021 6 1) _ _)));
    unfold four_digit_year; simpl; lia.
Defined.

(** ** The proxy check of version 1.2.0 *)

Section UrlScheme.

Variable L : pylib.

(** The scheme that [urlparse] finds, with an empty default. *)
Lemma urlparse_scheme (url : string) (po : Urllib.ParseResult) :
  Urllib.urlparse L url "" = Ret po ->
  Urllib.scheme po = "" \/
  exists b rest,
    url_text url = b ++ ":" ++ rest /\ Urllib.scheme po = PyStr.lower b /\
    (exists c0 t, b = String c0 t /\ PyStr.is_ascii_alpha c0 = true) /\
    PyStr.forallb_chars Urllib.scheme_char b = true.
Proof.
  unfold Urllib.urlparse. fold (url_text url).
  change (PyStr.remove_chars Urllib.unsafe_url_byte
            (PyStr.rstrip Urllib.c0_control_or_space
               (PyStr.lstrip Urllib.c0_control_or_space ""))) with "".
  cbv zeta.
  destruct (url_text url) as [|c0 t] eqn:U.
  - unfold obind. repeat break_match; intros H; try discriminate H;
      injection H as <-; left;
      repeat match goal with
             | E : (_, _) = (_, _) |- _ => injection E as <- <-
             end; reflexivity.
  - destruct (PyStr.split1 ":" (String c0 t)) as [b o] eqn:S.
    destruct (split1_spec _ _ _ _ S) as [_ Sp].
    destruct b as [|b0 b].
    + unfold obind. repeat break_match; intros H; try discriminate H;
        injection H as <-; left; reflexivity.
    + destruct o as [after|].
      * destruct (PyStr.is_ascii_alpha c0 && _) eqn:A.
        -- apply andb_true_iff in A. destruct A as [A1 A2].
           unfold obind. repeat break_match; intros H; try discriminate H;
             injection H as <-; right; exists (String b0 b), after;
             (split; [exact Sp|]); (split; [reflexivity|]);
             (split; [|exact A2]);
             simpl in Sp; injection Sp as -> _; eauto.
        -- unfold obind. repeat break_match; intros H; try discriminate H;
             injection H as <-; left; reflexivity.
      * unfold obind. repeat break_match; intros H; try discriminate H;
          injection H as <-; left; reflexivity.
Qed.

End UrlScheme.

Section ProxyAndCollision.

Variable L : pylib.

Lemma urlparse_digit_start (c0 : ascii) (t : string) :
  PyStr.is_digit c0 = true ->
  exists po, Urllib.urlparse L (String c0 t) "" = Ret po /\ Urllib.scheme po = "".
Proof.
  intros Hd. unfold Urllib.urlparse.
  destruct c0 as [[] [] [] [] [] [] [] []]; try discriminate Hd;
    cbn -[PyStr.split1 PyStr.mem Urllib.splitparams Urllib.checknetloc];
    generalize (PyStr.remove_chars Urllib.unsafe_url_byte t); intros r';
    cbn -[PyStr.mem Urllib.splitparams Urllib.checknetloc];
    destruct (PyStr.split1 ":" r') as [a [after|]];
    cbn -[PyStr.mem Urllib.splitparams Urllib.checknetloc PyStr.split1];
    repeat break_match; eexists; split; try reflexivity.
Qed.

Lemma lower_digit_start (c0 : ascii) (t : string) :
  PyStr.is_digit c0 = true ->
  PyStr.lower (String c0 t) = String c0 (PyStr.lower t).
Proof.
  intros Hd. destruct c0 as [[] [] [] [] [] [] [] []]; try discriminate Hd; reflexivity.
Qed.

(** X22: (version 1.2.0) the constructor accepts a proxy that is not empty
    only when its text in lower case, as [urlparse] reads it, starts with
    one of the schemes [http], [https], [socks5], [socks5h] and a colon; it
    then stores the proxy in lower case and uses it for [http] and [https]
    alike. A proxy that starts with a digit, such as an address with a port
    and no scheme, ends the process with status 1 after an error that
    quotes an empty scheme. An empty proxy sets no proxy. *)
Theorem legacy_proxy_needs_a_scheme (proxy : string) :
  (forall p d, Legacy.proxy_setup L proxy = Ret (Legacy.ProxySet p d) ->
     proxy <> "" ->
     p = PyStr.lower proxy /\ d = [("http", p); ("https", p)] /\
     exists b rest,
       url_text (PyStr.lower proxy) = b ++ ":" ++ rest /\
       In (PyStr.lower b) Legacy.proxy_schemes) /\
  (forall c0 t, proxy = String c0 t -> PyStr.is_digit c0 = true ->
     Legacy.proxy_setup L proxy = Ret (Legacy.SysExit 1 (Legacy.scheme_error ""))) /\
  (Legacy.proxy_setup L "" = Ret (Legacy.ProxySet "" [])).
Proof.
  split; [|split; [|reflexivity]].
  - intros p d H N. destruct proxy as [|x s]; [congruence|].
    unfold Legacy.proxy_setup in H. cbv zeta in H.
    destruct (Urllib.urlparse L (PyStr.lower (String x s)) "") as [po|e|] eqn:U;
      unfold obind in H; try discriminate.
    destruct (existsb (String.eqb (Urllib.scheme po)) Legacy.proxy_schemes) eqn:X;
      cbv [negb] in H; [|discriminate].
    injection H as <- <-. split; [reflexivity|]. split; [reflexivity|].
    apply existsb_eqb_In in X.
    destruct (urlparse_scheme L _ _ U) as [E|(b & rest & T & E & _)].
    + rewrite E in X. simpl in X. destruct X as [X|[X|[X|[X|[]]]]]; discriminate X.
    + exists b, rest. split; [exact T|]. rewrite <- E. exact X.
  - intros c0 t -> Hd. unfold Legacy.proxy_setup. cbv zeta.
    rewrite (lower_digit_start c0 t Hd).
    destruct (urlparse_digit_start c0 (PyStr.lower t) Hd) as (po & -> & E).
    unfold obind. rewrite E. reflexivity.
Qed.

(** ** The collision that [search] reports *)

Lemma app_inv_tail_string (a b s : string) : a ++ s = b ++ s -> a = b.
Proof.
  revert b. induction a as [|x a IH]; intros [|y b] H; simpl in H.
  - reflexivity.
  - exfalso. apply (f_equal String.length) in H. simpl in H.
    rewrite string_length_app in H. lia.
  - exfalso. apply (f_equal String.length) in H. simpl in H.
    rewrite string_length_app in H. lia.
  - injection H as -> H. rewrite (IH b H). reflexivity.
Qed.

(** X23: when several built-in URL parameters occur among the extra
    parameters, the [ValueError] of [search] names the first of them in the
    order of the list of the built-in parameters, whatever the order of the
    extra parameters. [search] raises it before any request, with the
    result list emptied. *)
Theorem first_builtin_collision_is_reported (c : SearchClient) (w : world)
  (pre post : list string) (p : string) :
  url_parameters c = (pre ++ p :: post)%list ->
  In p (map fst (extra_items c)) ->
  (forall q, In q pre -> ~ In q (map fst (extra_items c))) ->
  search L c w = (Raise (ValueError (overlap_message p)), search_start c, w) /\
  (forall p', search L c w = (Raise (ValueError (overlap_message p')), search_start c, w) ->
              p' = p).
Proof.
  intros E Hin Hpre.
  assert (C : check_extra_params (url_parameters c) (extra_items (search_start c))
              = Raise (ValueError (overlap_message p))).
  { rewrite extra_items_search_start, E. clear E.
    induction pre as [|q pre IH]; simpl.
    - apply existsb_eqb_In in Hin. rewrite Hin. reflexivity.
    - destruct (existsb (String.eqb q) (map fst (extra_items c))) eqn:X.
      + apply existsb_eqb_In in X. exfalso. exact (Hpre q (or_introl eq_refl) X).
      + apply IH. intros q' Hq'. apply Hpre. right. exact Hq'. }
  assert (S : search L c w = (Raise (ValueError (overlap_message p)), search_start c, w)).
  { rewrite search_unfold, C. reflexivity. }
  split; [exact S|].
  intros p' S'. rewrite S in S'. injection S' as M.
  symmetry. eapply app_inv_tail_string. exact M.
Qed.

End ProxyAndCollision.

Lemma legacy_proxy_needs_a_scheme_witness :
  Legacy.proxy_setup ex_lib "HTTP://Proxy.Example:8080"
  = Ret (Legacy.ProxySet "http://proxy.example:8080"
           [("http", "http://proxy.example:8080"); ("https", "http://proxy.example:8080")]) /\
  Legacy.proxy_setup ex_lib "10.0.0.1:8080"
  = Ret (Legacy.SysExit 1 (Legacy.scheme_error "")) /\
  exists b rest,
    url_text (PyStr.lower "HTTP://Proxy.Example:8080") = b ++ ":" ++ rest /\
    In (PyStr.lower b) Legacy.proxy_schemes.
Proof.
  split; [vm_compute; reflexivity|]. split.
  - exact (proj1 (proj2 (legacy_proxy_needs_a_scheme ex_lib "10.0.0.1:8080"))
             "1"%char "0.0.0.1:8080" eq_refl eq_refl).
  - destruct (proj1 (legacy_proxy_needs_a_scheme ex_lib "HTTP://Proxy.Example:8080")
                _ _ ltac:(vm_compute; reflexivity) ltac:(discriminate))
      as (_ & _ & K).
    exact K.
Defined.

Lemma first_builtin_collision_is_reported_witness :
  fst (fst (search ex_lib
              (ex_client_of (ex_args_extra (Some [("q", "x"); ("num", "5")])))
              (ex_world [home_ok])))
  = Raise (ValueError (overlap_message "num")).
Proof.
  rewrite (proj1 (first_builtin_collision_is_reported ex_lib
             (ex_client_of (ex_args_extra (Some [("q", "x"); ("num", "5")])))
             (ex_world [home_ok]) ["btnG"; "cr"; "hl"] ["q"; "safe"; "start"; "tbs"; "lr"]
             "num" eq_refl
             ltac:(simpl; tauto)
             ltac:(simpl; intros q [<-|[<-|[<-|[]]]] [K|[K|[]]]; discriminate K))).
  reflexivity.
Defined.
